(** * Zoho Books synchronisation: the order task and its REST client.

    A shallow embedding of
      saleor/checkout/tasks/client_specifics/utils/zoho_client.py
      saleor/checkout/tasks/client_specifics/tdh.py

    Python values that travel through JSON are one inductive type; dicts are
    association lists in insertion order.  Every function that touches the
    clock, the token file or the network is a computation in a state and
    exception monad over a [World]; the world keeps the journal of the HTTP
    requests that were sent.  Epoch seconds, prices and quantities are
    integers here: no statement below depends on a fractional part. *)

From Stdlib Require Import ZArith List String Ascii Bool Lia.
Import ListNotations.
Open Scope string_scope.
Open Scope Z_scope.

Set Warnings "-register-all".

(** ** Python values *)

Inductive value : Type :=
| PNone
| PBool (b : bool)
| PNum (n : Z)
| PStr (s : string)
| PList (l : list value)
| PDict (d : list (string * value)).

Definition dict := list (string * value).

Inductive exn : Type :=
| KeyError (k : string)
| IndexError
| TypeError
| AttributeError
| DoesNotExist
| MultipleObjectsReturned
| RequestException (why : string)
| PyException (msg : string).

Inductive result (A : Type) : Type :=
| Ok (a : A)
| Raise (e : exn).
Arguments Ok {A} a.
Arguments Raise {A} e.

Definition rbind {A B} (r : result A) (k : A -> result B) : result B :=
  match r with
  | Ok a => k a
  | Raise e => Raise e
  end.

Fixpoint dict_get (d : dict) (k : string) : option value :=
  match d with
  | [] => None
  | (k', v) :: d' => if String.eqb k' k then Some v else dict_get d' k
  end.

Definition dict_mem (d : dict) (k : string) : bool :=
  match dict_get d k with Some _ => true | None => false end.

(** [d[k] = v]: an existing key keeps its position, a new one goes last. *)
Fixpoint dict_set (d : dict) (k : string) (v : value) : dict :=
  match d with
  | [] => [(k, v)]
  | (k', v') :: d' =>
      if String.eqb k' k then (k', v) :: d' else (k', v') :: dict_set d' k v
  end.

Definition dict_keys (d : dict) : list string := map fst d.

(** [bool(v)]. *)
Definition truthy (v : value) : bool :=
  match v with
  | PNone => false
  | PBool b => b
  | PNum n => negb (n =? 0)
  | PStr s => negb (String.eqb s "")
  | PList l => match l with [] => false | _ => true end
  | PDict d => match d with [] => false | _ => true end
  end.

(** Numbers as Python compares and adds them: [bool] is an [int]. *)
Definition as_num (v : value) : option Z :=
  match v with
  | PNum n => Some n
  | PBool b => Some (if b then 1 else 0)
  | _ => None
  end.

(** [a == b]; dict equality ignores the order of the keys. *)
Fixpoint value_eqb (a b : value) {struct a} : bool :=
  match a with
  | PNone => match b with PNone => true | _ => false end
  | PBool x =>
      match b with
      | PBool y => Bool.eqb x y
      | PNum m => (if x then 1 else 0) =? m
      | _ => false
      end
  | PNum n =>
      match b with
      | PNum m => n =? m
      | PBool y => n =? (if y then 1 else 0)
      | _ => false
      end
  | PStr s => match b with PStr t => String.eqb s t | _ => false end
  | PList l =>
      match b with
      | PList m =>
          (fix go (l m : list value) {struct l} : bool :=
             match l, m with
             | [], [] => true
             | x :: l', y :: m' => value_eqb x y && go l' m'
             | _, _ => false
             end) l m
      | _ => false
      end
  | PDict d =>
      match b with
      | PDict e =>
          Nat.eqb (List.length d) (List.length e) &&
          (fix go (d : dict) {struct d} : bool :=
             match d with
             | [] => true
             | (k, v) :: d' =>
                 match dict_get e k with
                 | Some v' => value_eqb v v'
                 | None => false
                 end && go d'
             end) d
      | _ => false
      end
  end.

(** [v[k]] for a string key. *)
Definition subscript (v : value) (k : string) : result value :=
  match v with
  | PDict d =>
      match dict_get d k with
      | Some x => Ok x
      | None => Raise (KeyError k)
      end
  | _ => Raise TypeError
  end.

(** [v[0]]: a JSON dict has string keys only, so the integer key is absent. *)
Definition item0 (v : value) : result value :=
  match v with
  | PList l =>
      match l with
      | x :: _ => Ok x
      | [] => Raise IndexError
      end
  | PStr s =>
      match s with
      | String c _ => Ok (PStr (String c EmptyString))
      | EmptyString => Raise IndexError
      end
  | PDict _ => Raise (KeyError "0")
  | _ => Raise TypeError
  end.

(** [v.get(k, default)]: only dicts have the method. *)
Definition py_get (v : value) (k : string) (default : value) : result value :=
  match v with
  | PDict d =>
      match dict_get d k with
      | Some x => Ok x
      | None => Ok default
      end
  | _ => Raise AttributeError
  end.

Fixpoint chars (s : string) : list value :=
  match s with
  | EmptyString => []
  | String c s' => PStr (String c EmptyString) :: chars s'
  end.

(** The elements a [for] loop or a comprehension walks through. *)
Definition py_iter (v : value) : result (list value) :=
  match v with
  | PList l => Ok l
  | PDict d => Ok (map (fun kv => PStr (fst kv)) d)
  | PStr s => Ok (chars s)
  | _ => Raise TypeError
  end.

(** A comprehension whose element expression may raise. *)
Fixpoint map_result {A B} (f : A -> result B) (l : list A) : result (list B) :=
  match l with
  | [] => Ok []
  | x :: rest =>
      rbind (f x) (fun y => rbind (map_result f rest) (fun ys => Ok (y :: ys)))
  end.

(** ** Strings *)

Definition nl : string := String "010"%char EmptyString.

Fixpoint prefixb (p s : string) : bool :=
  match p, s with
  | EmptyString, _ => true
  | String a p', String b s' => Ascii.eqb a b && prefixb p' s'
  | String _ _, EmptyString => false
  end.

(** [p in s] on two strings. *)
Fixpoint substringb (p s : string) : bool :=
  prefixb p s ||
  match s with
  | EmptyString => false
  | String _ s' => substringb p s'
  end.

(** [s.split(sep)] for a one-character separator. *)
Fixpoint str_split (sep : ascii) (s : string) : list string :=
  match s with
  | EmptyString => [EmptyString]
  | String c s' =>
      if Ascii.eqb c sep then EmptyString :: str_split sep s'
      else match str_split sep s' with
           | [] => [String c EmptyString]
           | h :: t => String c h :: t
           end
  end.

(** [sep.join(parts)]. *)
Fixpoint str_join (sep : string) (parts : list string) : string :=
  match parts with
  | [] => ""
  | [p] => p
  | p :: rest => p ++ sep ++ str_join sep rest
  end.

Fixpoint has_char (c : ascii) (s : string) : bool :=
  match s with
  | EmptyString => false
  | String c' s' => Ascii.eqb c' c || has_char c s'
  end.

(** [k in v] for a string [k]. *)
Definition contains_str (v : value) (k : string) : result bool :=
  match v with
  | PDict d => Ok (dict_mem d k)
  | PList l => Ok (existsb (value_eqb (PStr k)) l)
  | PStr s => Ok (substringb k s)
  | _ => Raise TypeError
  end.

(** ** filter_object *)

(** [{key: obj[key] for key in keys_to_keep if key in obj}] *)
Fixpoint filter_object_into (acc : dict) (obj : dict) (keys_to_keep : list string)
  : dict :=
  match keys_to_keep with
  | [] => acc
  | key :: rest =>
      match dict_get obj key with
      | Some v => filter_object_into (dict_set acc key v) obj rest
      | None => filter_object_into acc obj rest
      end
  end.

Definition filter_object (obj : dict) (keys_to_keep : list string) : dict :=
  filter_object_into [] obj keys_to_keep.

(** ** The platform's order model

    The records keep the fields the task reads.  A nullable foreign key is
    an [option]; reading a field through [None] raises [AttributeError]. *)

Record Attribute := { slug : string }.

(** An attribute value, reached as [av.value] from a product assignment and
    as an element of [attr.values.all()] from a variant assignment. *)
Record AttributeValue := { name : string; attribute : Attribute }.

(** [attr.assignment.attribute] and [attr.values.all()]. *)
Record AssignedVariantAttribute :=
  { assignment_attribute : Attribute; values : list AttributeValue }.

Record Category := { category_name : string }.

Record Product :=
  { category : option Category;
    attributeproduct : list Attribute;      (* product_type.attributeproduct.all() *)
    attributevalues : list AttributeValue   (* product.attributevalues.all() *) }.

Record ChannelListing := { listing_channel : Z; cost_price : option Z }.

Record Variant :=
  { product : Product;
    channel_listings : list ChannelListing;
    attributes : list AssignedVariantAttribute }.

Record Line :=
  { product_sku : option string;
    product_name : string;
    unit_price_gross_amount : Z;
    quantity : Z;
    variant : option Variant }.

Record Address :=
  { company_name : string;
    city : string;
    country_area : string;
    street_address_1 : string;
    street_address_2 : string;
    postal_code : string }.

Record User :=
  { email : string;
    first_name : string;
    last_name : string;
    default_billing_address : option Address;
    default_shipping_address : option Address;
    metadata : dict }.

Record Order := { user : option User; lines : list Line; channel : Z }.

(** ** Attribute extraction (tdh.py, nested in the task) *)

(** [values_map[k].append(v)] on a [defaultdict(list)]. *)
Fixpoint values_map_add (values_map : list (string * list AttributeValue))
  (k : string) (v : AttributeValue) : list (string * list AttributeValue) :=
  match values_map with
  | [] => [(k, [v])]
  | (k', vs) :: rest =>
      if String.eqb k' k then (k', (vs ++ [v])%list) :: rest
      else (k', vs) :: values_map_add rest k v
  end.

(** [values_map.get(k, [])] *)
Fixpoint values_map_get (values_map : list (string * list AttributeValue))
  (k : string) : list AttributeValue :=
  match values_map with
  | [] => []
  | (k', vs) :: rest => if String.eqb k' k then vs else values_map_get rest k
  end.

Definition first_of (names : list string) : result value :=
  match names with
  | n :: _ => Ok (PStr n)
  | [] => Raise IndexError
  end.

(** [attr_values if len(attr_values) < 1 else attr_values[0]] *)
Definition map_entry (attr_values : list string) : result value :=
  if (List.length attr_values <? 1)%nat then Ok (PList (map PStr attr_values))
  else first_of attr_values.

(** [attr_value if len(attr_value) > 1 else attr_value[0]] *)
Definition brand_entry (attr_value : list string) : result value :=
  if (1 <? List.length attr_value)%nat then Ok (PList (map PStr attr_value))
  else first_of attr_value.

Fixpoint product_attributes (values_map : list (string * list AttributeValue))
  (attribute_products : list Attribute) (attributes_map : dict) : result dict :=
  match attribute_products with
  | [] => Ok attributes_map
  | attribute :: rest =>
      let attr_slug := slug attribute in
      let attr_values := map name (values_map_get values_map attr_slug) in
      rbind (map_entry attr_values)
            (fun v => product_attributes values_map rest
                        (dict_set attributes_map attr_slug v))
  end.

Fixpoint variant_attributes (attrs : list AssignedVariantAttribute)
  (attributes_map : dict) (brand : value) : result (dict * value) :=
  match attrs with
  | [] => Ok (attributes_map, brand)
  | attr :: rest =>
      let attr_name := slug (assignment_attribute attr) in
      let attr_value := map name (values attr) in
      if String.eqb attr_name "brand" then
        rbind (brand_entry attr_value)
              (fun b => variant_attributes rest attributes_map b)
      else
        rbind (map_entry attr_value)
              (fun v => variant_attributes rest
                          (dict_set attributes_map attr_name v) brand)
  end.

Definition get_line_item_attributes_and_brand (line_item : Line)
  : result (dict * value) :=
  match variant line_item with
  | None => Raise AttributeError
  | Some variant =>
      let product := product variant in
      let values_map :=
        fold_left (fun m av => values_map_add m (slug (attribute av)) av)
                  (attributevalues product) [] in
      rbind (product_attributes values_map (attributeproduct product) [])
            (fun attributes_map =>
               variant_attributes (attributes variant) attributes_map PNone)
  end.

(** [variant.channel_listings.get(channel=order.channel)] *)
Definition channel_listing_get (listings : list ChannelListing) (ch : Z)
  : result ChannelListing :=
  match filter (fun l => listing_channel l =? ch) listings with
  | [] => Raise DoesNotExist
  | [l] => Ok l
  | _ => Raise MultipleObjectsReturned
  end.

Definition attr {A B} (o : option A) (f : A -> B) : result B :=
  match o with
  | Some a => Ok (f a)
  | None => Raise AttributeError
  end.

(** ** Requests, the runtime and the world *)

Inductive verb := GET | POST | PUT.

(** [json=] sends a value, [data=] a form or an already serialised text. *)
Inductive payload :=
| NoBody
| Form (fields : dict)
| Json (v : value)
| Data (v : value).

Record request :=
  { req_verb : verb; req_url : string; req_headers : dict; req_body : payload }.

(** What the code does not own: the clock, the remote services, the
    database, the process environment and Python's own formatting. *)
Record Runtime :=
  { Env : Type;
    clock : Env -> Z * Env;                        (* time.time() *)
    today : Env -> string;                         (* str(datetime.date.today()) *)
    send : request -> Env -> result value * Env;   (* requests.<verb>(...).json() *)
    orders : Z -> option Order;                    (* Order.objects.get(id=...) *)
    repr : value -> string;                        (* a non-string inside an f-string *)
    exn_str : exn -> string;                       (* str(e) *)
    format_exc : exn -> string;                    (* traceback.format_exc() *)
    ZOHO_CLIENT_ID : string;
    ZOHO_CLIENT_SECRET : string;
    ZOHO_REFRESH_TOKEN : string }.

Definition ZOHO_ORG_ID : string := "699140456".

(** The file at TOKEN_FILE: absent, not decodable as JSON, or a JSON value. *)
Inductive TokenFile :=
| NoFile
| Garbled
| Stored (token_data : value).

Section Sync.

Variable R : Runtime.

Record World :=
  { env : Env R; token_file : TokenFile; journal : list request }.

Definition M (A : Type) : Type := World -> result A * World.

Definition ret {A} (a : A) : M A := fun w => (Ok a, w).

Definition raise {A} (e : exn) : M A := fun w => (Raise e, w).

Definition bind {A B} (m : M A) (k : A -> M B) : M B :=
  fun w =>
    match m w with
    | (Ok a, w') => k a w'
    | (Raise e, w') => (Raise e, w')
    end.

Definition lift {A} (r : result A) : M A := fun w => (r, w).

(** [try: m  except Exception as e: h e] *)
Definition try_except {A} (m : M A) (h : exn -> M A) : M A :=
  fun w =>
    match m w with
    | (Ok a, w') => (Ok a, w')
    | (Raise e, w') => h e w'
    end.

Notation "x <- m ;; k" := (bind m (fun x => k))
  (at level 61, m at next level, right associativity).
Notation "m ;;; k" := (bind m (fun _ => k))
  (at level 61, right associativity).

Definition time : M Z :=
  fun w =>
    let (t, e) := clock R (env w) in
    (Ok t, {| env := e; token_file := token_file w; journal := journal w |}).

Definition date_today : M string := fun w => (Ok (today R (env w)), w).

Definition write_token (token_data : value) : M unit :=
  fun w =>
    (Ok tt,
     {| env := env w; token_file := Stored token_data; journal := journal w |}).

Definition http (v : verb) (u : string) (h : dict) (b : payload) : M value :=
  fun w =>
    let rq := {| req_verb := v; req_url := u; req_headers := h; req_body := b |} in
    let (r, e) := send R rq (env w) in
    (r, {| env := e; token_file := token_file w; journal := (journal w ++ [rq])%list |}).

(** A value inside an f-string. *)
Definition fmt (v : value) : string :=
  match v with
  | PStr s => s
  | _ => repr R v
  end.

(** ** Token cache *)

Definition token_url : string := "https://accounts.zoho.com/oauth/v2/token".

Definition refresh_payload : dict :=
  [("refresh_token", PStr (ZOHO_REFRESH_TOKEN R));
   ("client_id", PStr (ZOHO_CLIENT_ID R));
   ("client_secret", PStr (ZOHO_CLIENT_SECRET R));
   ("grant_type", PStr "refresh_token")].

Definition refresh_access_token : M value :=
  response <- http POST token_url [] (Form refresh_payload);;
  present <- lift (contains_str response "access_token");;
  if (present : bool) then
    access_token <- lift (subscript response "access_token");;
    now <- time;;
    expires_in <- lift (subscript response "expires_in");;
    match as_num expires_in with
    | None => raise TypeError
    | Some n =>
        write_token (PDict [("access_token", access_token);
                            ("expiry", PNum (now + n - 300))]);;;
        lift (subscript response "access_token")
    end
  else raise (PyException "Failed to refresh Zoho access token").

(** The one request refresh_access_token sends. *)
Definition refresh_request : request :=
  {| req_verb := POST; req_url := token_url; req_headers := [];
     req_body := Form refresh_payload |}.

(** Only [FileNotFoundError] and [JSONDecodeError] are caught: they come
    from [open] and [json.load], so a decoded record that lacks a key or
    holds a non-number raises through. *)
Definition get_access_token : M value :=
  fun w =>
    match token_file w with
    | Stored token_data =>
        (now <- time;;
         expiry <- lift (subscript token_data "expiry");;
         match as_num expiry with
         | None => raise TypeError
         | Some x =>
             if now <? x then lift (subscript token_data "access_token")
             else refresh_access_token
         end) w
    | NoFile | Garbled => refresh_access_token w
    end.

Definition get_headers : M dict :=
  token <- get_access_token;;
  ret [("Authorization", PStr ("Zoho-oauthtoken " ++ fmt token))].

(** ** Vendors *)

Definition books : string := "https://www.zohoapis.com/books/v3/".

Definition contacts_url : string :=
  books ++ "contacts?organization_id=" ++ ZOHO_ORG_ID.

Definition vendor_search_url : string := contacts_url ++ "&contact_type=vendor".

(** [next((v for v in l if v[key] == wanted), None)] *)
Fixpoint first_with (key : string) (wanted : value) (l : list value)
  : result value :=
  match l with
  | [] => Ok PNone
  | v :: rest =>
      rbind (subscript v key)
            (fun n => if value_eqb n wanted then Ok v
                      else first_with key wanted rest)
  end.

Definition get_or_create_vendor (vendor_name : value) : M value :=
  headers <- get_headers;;
  response <- http GET vendor_search_url headers NoBody;;
  contacts <- lift (py_get response "contacts" (PList []));;
  candidates <- lift (py_iter contacts);;
  existing_vendor <- lift (first_with "contact_name" vendor_name candidates);;
  if truthy existing_vendor then lift (subscript existing_vendor "contact_id")
  else
    response <- http POST contacts_url headers
                  (Json (PDict [("contact_name", vendor_name);
                                ("contact_type", PStr "vendor")]));;
    contact <- lift (subscript response "contact");;
    lift (subscript contact "contact_id").

(** ** Custom fields *)

Definition customfields_url : string :=
  books ++ "settings/" ++ "customfields?organization_id=" ++ ZOHO_ORG_ID.

Definition create_custom_field (field_label module : string) : M value :=
  headers <- get_headers;;
  response <- http POST customfields_url headers
                (Json (PDict [("module", PStr module);
                              ("custom_field_name", PStr field_label);
                              ("data_type", PStr "string");
                              ("is_active", PBool true)]));;
  customfield <- lift (py_get response "customfield" (PDict []));;
  lift (py_get customfield "customfield_id" PNone).

(** The [for field in ...] loop of get_custom_field_id, up to its [return]. *)
Fixpoint find_field (field_label : string) (fields : list value)
  : result (option value) :=
  match fields with
  | [] => Ok None
  | field :: rest =>
      rbind (subscript field "label")
            (fun l =>
               if value_eqb l (PStr field_label)
               then rbind (subscript field "customfield_id") (fun i => Ok (Some i))
               else find_field field_label rest)
  end.

Definition get_custom_field_id (field_label module : string) : M value :=
  headers <- get_headers;;
  response <- http GET (customfields_url ++ "&module=" ++ module) headers NoBody;;
  customfields <- lift (py_get response "customfields" (PDict []));;
  of_module <- lift (py_get customfields module PNone);;
  fields <- lift (py_iter of_module);;
  found <- lift (find_field field_label fields);;
  match found with
  | Some customfield_id => ret customfield_id
  | None => create_custom_field field_label module
  end.

(** ** Customers *)

Definition ein_label : string := "EIN / License Number / Reseller's Permit".

Definition create_person_url : string :=
  books ++ "contacts/contactpersons?organization_id=" ++ ZOHO_ORG_ID.

Definition person_url (contact_id : value) : string :=
  books ++ "contacts/" ++ fmt contact_id ++ "/" ++
  "contactpersons?organization_id=" ++ ZOHO_ORG_ID.

Definition address_payload (attention : string) (a : option Address)
  : result value :=
  match a with
  | None => Raise AttributeError
  | Some a =>
      Ok (PDict [("attention", PStr attention);
                 ("country", PStr "U.S.A.");
                 ("city", PStr (city a));
                 ("state", PStr (country_area a));
                 ("address", PStr (street_address_1 a));
                 ("street2", PStr (street_address_2 a));
                 ("state_code", PStr (country_area a));
                 ("zip", PStr (postal_code a))])
  end.

(** Lines 222-233 of the client: the pair (first_name, last_name).  The
    second split is evaluated and dropped, and the inner test reads the
    parts of the first split again. *)
Definition first_and_last_name (name : string) : string * string :=
  let name_parts := str_split " " name in
  if (1 <? List.length name_parts)%nat then
    (hd "" name_parts, str_join " " (tl name_parts))
  else
    let _ := str_split "." name in
    if (1 <? List.length name_parts)%nat then
      (hd "" name_parts, str_join " " (tl name_parts))
    else ("", name).

Definition get_or_create_customer
  (email name company_name : string) (metadata : dict)
  (billing_address shipping_address : option Address) : M (value * value) :=
  headers <- get_headers;;
  let ein_or_license :=
    match dict_get metadata ein_label with Some v => v | None => PStr "" end in
  field_id <- get_custom_field_id ein_label "contact";;
  response <- http GET (contacts_url ++ "&email=" ++ email) headers NoBody;;
  contacts <- lift (py_get response "contacts" PNone);;
  if truthy contacts then
    found <- lift (rbind (subscript response "contacts") item0);;
    contact_id <- lift (subscript found "contact_id");;
    second_response <- http GET (person_url contact_id) headers NoBody;;
    contact <- lift (rbind (subscript response "contacts") item0);;
    persons <- lift (subscript second_response "contact_persons");;
    person <- lift (item0 persons);;
    ret (contact, person)
  else
    billing <- lift (address_payload name billing_address);;
    shipping <- lift (address_payload name shipping_address);;
    response <- http POST contacts_url headers
                  (Json (PDict
                     [("contact_name",
                       PStr (if String.eqb name email then company_name else name));
                      ("company_name", PStr company_name);
                      ("contact_type", PStr "customer");
                      ("customer_sub_type", PStr "business");
                      ("billing_address", billing);
                      ("shipping_address", shipping);
                      ("custom_fields",
                       PList [PDict [("customfield_id", field_id);
                                     ("value", ein_or_license)]])]));;
    contact <- lift (subscript response "contact");;
    let (first_name, last_name) := first_and_last_name name in
    contact_id <- lift (subscript contact "contact_id");;
    second_response <- http POST create_person_url headers
                         (Json (PDict [("contact_id", contact_id);
                                       ("first_name", PStr first_name);
                                       ("last_name", PStr last_name);
                                       ("email", PStr email)]));;
    person <- lift (subscript second_response "contact_person");;
    ret (contact, person).

(** ** Dropdown custom fields *)

Definition dropdown_put_keys : list string :=
  ["customfield_id"; "is_mandatory"; "is_basecurrency_amount"; "data_type";
   "pii_type"; "default_value"; "entity"; "values"; "is_unique"; "label";
   "selected_txn_entities"; "help_text"; "external_fields";
   "field_preferences"; "show_on_pdf"].

Definition editpage_url (module : string) (custom_field_id : value) : string :=
  books ++ "settings/fields/editpage?" ++
  "organization_id=" ++ ZOHO_ORG_ID ++ "&entity=" ++ module ++ "&" ++
  "field_id=" ++ fmt custom_field_id.

Definition field_put_url (custom_field_id : value) : string :=
  books ++ "settings/" ++ "fields/" ++ fmt custom_field_id ++ "/".

Definition get_or_create_dropdown_custom_field
  (field_label module : string) (new_option : value) : M value :=
  headers <- get_headers;;
  custom_field_id <- get_custom_field_id field_label module;;
  if truthy custom_field_id then
    response <- http GET (editpage_url module custom_field_id) headers NoBody;;
    field <- lift (py_get response "field" (PDict []));;
    existing_options <- lift (py_get field "values" (PList []));;
    options <- lift (py_iter existing_options);;
    existing_option_names <-
      lift (map_result (fun item => subscript item "name") options);;
    if existsb (fun n => value_eqb n new_option) existing_option_names then
      ret (PDict [("message",
                   PStr ("'" ++ fmt new_option ++ "' already exists in '" ++
                         field_label ++ "'."))])
    else
      match existing_options, field with
      | PList old, PDict field =>
          let appended :=
            (old ++ [PDict [("is_active", PBool true);
                            ("name", new_option);
                            ("order", PNum (Z.of_nat (List.length old) + 1))]])%list in
          let field := dict_set field "values" (PList appended) in
          let clean_field := filter_object field dropdown_put_keys in
          http PUT (field_put_url custom_field_id) headers
               (Json (PDict clean_field))
      | _, _ => raise AttributeError   (* only a list has [append] *)
      end
  else ret PNone.

(** ** Items *)

Definition items_url : string := books ++ "items?organization_id=" ++ ZOHO_ORG_ID.

Definition item_search_url (sku : value) : string :=
  items_url ++ "&search_text=" ++ fmt sku.

(** The loop over Category, Item Number and Vendor. *)
Fixpoint item_custom_fields (entries : list (string * value))
  (custom_fields : list value) : M (list value) :=
  match entries with
  | [] => ret custom_fields
  | (label, v) :: rest =>
      field_id <- get_custom_field_id label "item";;
      let custom_fields :=
        (custom_fields ++
         [PDict [("customfield_id", field_id); ("value", v)]])%list in
      (if String.eqb label "Category" || String.eqb label "Vendor"
       then get_or_create_dropdown_custom_field label "item" v;;; ret tt
       else ret tt);;;
      item_custom_fields rest custom_fields
  end.

Definition get_or_create_item
  (sku name price cost : value) (description : string)
  (category vendor : value) (attributes : dict) : M value :=
  headers <- get_headers;;
  response <- http GET (item_search_url sku) headers NoBody;;
  found <- lift (py_get response "items" PNone);;
  if truthy found then
    items <- lift (subscript response "items");;
    first <- lift (item0 items);;
    lift (subscript first "item_id")
  else
    vendor_id <- (if truthy vendor then get_or_create_vendor vendor
                  else ret PNone);;
    let full_description :=
      fold_left (fun acc (lv : string * value) =>
                   acc ++ fst lv ++ ": " ++ fmt (snd lv) ++ nl)
                attributes "" ++ description in
    custom_fields <-
      item_custom_fields
        [("Category", category); ("Item Number", sku); ("Vendor", vendor)] [];;
    let payload :=
      [("name", name); ("sku", sku); ("rate", price); ("purchase_rate", cost);
       ("is_taxable", PBool true); ("unit", PStr "Each");
       ("description", PStr full_description);
       ("custom_fields", PList custom_fields)] in
    let payload :=
      if truthy vendor_id then dict_set payload "vendor_id" vendor_id
      else payload in
    response <- http POST items_url headers (Data (PDict payload));;
    item <- lift (subscript response "item");;
    lift (subscript item "item_id").

(** ** Estimates and retainer invoices *)

Definition accepted_estimates_url : string :=
  books ++ "estimates?" ++ "organization_id=" ++ ZOHO_ORG_ID ++ "&status=accepted".

Definition get_all_accepted_estimates : M value :=
  headers <- get_headers;;
  response <- http GET accepted_estimates_url headers NoBody;;
  lift (py_get response "estimates" (PList [])).

Definition retainer_put_keys : list string :=
  ["customer_id"; "estimate_id"; "retainerinvoice_number"; "reference_number";
   "date"; "contact_persons"; "exchange_rate"; "custom_fields"; "notes";
   "terms"; "line_items"; "payment_options"; "template_id";
   "billing_address_id"; "documents"].

Definition retainer_search_url (estimate_id : value) : string :=
  books ++ "retainerinvoices?" ++
  "organization_id=" ++ ZOHO_ORG_ID ++ "&estimate_id=" ++ fmt estimate_id.

Definition retainer_update_url (retainer_invoice_id : value) : string :=
  books ++ "retainerinvoices/" ++
  fmt retainer_invoice_id ++ "?organization_id=" ++ ZOHO_ORG_ID.

Definition zoho_payments : value :=
  PDict [("payment_gateways", PList [PDict [("gateway_name", PStr "zoho_payments")]])].

Definition no_retainer_invoices : value :=
  PDict [("error", PStr "No retainer invoices found for this estimate.")].

(** The function falls off its end, returning [None], when the first
    invoice is not "drawn". *)
Definition update_retainer_invoice_payment_options (estimate_id : value)
  : M value :=
  headers <- get_headers;;
  response <- http GET (retainer_search_url estimate_id) headers NoBody;;
  retainer_invoices <- lift (py_get response "retainerinvoices" (PList []));;
  if negb (truthy retainer_invoices) then ret no_retainer_invoices
  else
    first <- lift (item0 retainer_invoices);;
    retainer_invoice_id <- lift (subscript first "retainerinvoice_id");;
    status <- lift (subscript first "status");;
    if value_eqb status (PStr "drawn") then
      match first with
      | PDict retainer_invoice =>
          let retainer_invoice :=
            dict_set retainer_invoice "payment_options" zoho_payments in
          let clean_invoice := filter_object retainer_invoice retainer_put_keys in
          http PUT (retainer_update_url retainer_invoice_id) headers
               (Json (PDict clean_invoice))
      | _ => raise TypeError
      end
    else ret PNone.

Definition estimate_create_url (send_email : bool) : string :=
  books ++ "estimates?" ++ "organization_id=" ++ ZOHO_ORG_ID ++ "&" ++
  "send=" ++ (if send_email then "true" else "false").

Definition line_item (item : value) : result value :=
  rbind (subscript item "id") (fun id =>
  rbind (subscript item "price") (fun price =>
  rbind (subscript item "quantity") (fun quantity =>
  Ok (PDict [("item_id", id); ("rate", price); ("quantity", quantity);
             ("tax_id", PStr "")])))).

(** The loop over Sidemark, Client PO and EST Lead Time. *)
Fixpoint estimate_custom_fields (entries : list (string * value))
  (custom_fields : list value) : M (list value) :=
  match entries with
  | [] => ret custom_fields
  | (label, v) :: rest =>
      field_id <- get_custom_field_id label "estimate";;
      estimate_custom_fields rest
        (custom_fields ++
         [PDict [("customfield_id", field_id); ("value", v)]])%list
  end.

(** [customer_notes], [terms_conditions], [template_id] and [order] are
    never read by the body and are left out. *)
Definition create_estimate (customer_id : value) (items : list value)
  (contact_id : value) (send_email : bool) (crm_potential_id : value)
  : M value :=
  headers <- get_headers;;
  line_items <- lift (map_result line_item items);;
  custom_fields <-
    estimate_custom_fields
      [("Sidemark", PStr "TBA"); ("Client PO", PStr "TBA");
       ("EST Lead Time", PStr "TBA")] [];;
  date <- date_today;;
  let payload :=
    [("customer_id", customer_id);
     ("contact_persons", PList [contact_id]);
     ("date", PStr date);
     ("line_items", PList line_items);
     ("accept_retainer", PBool true);
     ("retainer_percentage", PNum 50);
     ("payment_options", zoho_payments);
     ("salesperson_name", PStr "Paul Patterson");
     ("custom_fields", PList custom_fields)] in
  let payload :=
    if truthy crm_potential_id
    then dict_set payload "potential_id" crm_potential_id
    else payload in
  http POST (estimate_create_url send_email) headers (Data (PDict payload)).

(** ** The order task (tdh.py) *)

(** The body of the [for line in order.lines.all()] loop: the appended dict. *)
Definition resolve_line (order : Order) (line : Line) : M value :=
  let sku := match product_sku line with Some s => PStr s | None => PNone end in
  let name := PStr (product_name line) in
  let price := PNum (unit_price_gross_amount line) in
  listings <- lift (attr (variant line) channel_listings);;
  channel_listing <- lift (channel_listing_get listings (channel order));;
  let cost :=
    PNum (match cost_price channel_listing with
          | Some amount => amount
          | None => 0
          end) in
  let description := "" in
  category <-
    lift (rbind (attr (variant line) product) (fun p =>
          rbind (attr (category p) category_name) (fun n =>
          Ok (PStr (if String.eqb n "" then "Default Category" else n)))));;
  extracted <- lift (get_line_item_attributes_and_brand line);;
  item_id <- get_or_create_item sku name price cost description category
               (snd extracted) (fst extracted);;
  ret (PDict [("id", item_id); ("price", price);
              ("quantity", PNum (quantity line))]).

Fixpoint resolve_lines (order : Order) (todo : list Line) (items : list value)
  : M (list value) :=
  match todo with
  | [] => ret items
  | line :: rest =>
      item <- resolve_line order line;;
      resolve_lines order rest (items ++ [item])%list
  end.

Definition success (response : value) : value :=
  PDict [("status", PStr "success"); ("estimate_response", response)].

Definition failure (e : exn) : value :=
  PDict [("status", PStr "error");
         ("message", PStr (exn_str R e));
         ("traceback", PStr (format_exc R e))].

(** The [try] block of post_confirm_order. *)
Definition confirm (order_id : Z) : M value :=
  order <- lift (match orders R order_id with
                 | Some o => Ok o
                 | None => Raise DoesNotExist
                 end);;
  customer_email <- lift (attr (user order) email);;
  customer_name <-
    lift (attr (user order) (fun u =>
            if negb (String.eqb (first_name u) "")
            then first_name u ++ " " ++ last_name u
            else hd "" (str_split "@" customer_email)));;
  company <- lift (rbind (attr (user order) default_shipping_address)
                         (fun a => attr a company_name));;
  customer_metadata <- lift (attr (user order) metadata);;
  billing <- lift (attr (user order) default_billing_address);;
  shipping <- lift (attr (user order) default_shipping_address);;
  resolved <- get_or_create_customer customer_email customer_name company
                customer_metadata billing shipping;;
  customer_id <- lift (subscript (fst resolved) "contact_id");;
  contact_id <- lift (subscript (snd resolved) "contact_person_id");;
  items <- resolve_lines order (lines order) [];;
  response <- create_estimate customer_id items contact_id true PNone;;
  ret (success response).

Definition post_confirm_order (order_id : Z) : M value :=
  try_except (confirm order_id) (fun e => ret (failure e)).

(** ** The reconciliation task (tdh.py) *)

Fixpoint for_each_estimate (estimates : list value) : M unit :=
  match estimates with
  | [] => ret tt
  | estimate :: rest =>
      estimate_id <- lift (subscript estimate "estimate_id");;
      update_retainer_invoice_payment_options estimate_id;;;
      for_each_estimate rest
  end.

Definition check_estimate_accepted_and_add_zoho_payments : M value :=
  estimates <- get_all_accepted_estimates;;
  each <- lift (py_iter estimates);;
  for_each_estimate each;;;
  if truthy estimates then ret (PStr "Retainer invoice check completed.")
  else ret PNone.

(** The requests a computation sends when it starts in [w]. *)
Definition sent {A} (m : M A) (w : World) : list request :=
  skipn (List.length (journal w)) (journal (snd (m w))).

(** Running [m] from [w] only appends to the journal, and every request it
    appends satisfies [P]. *)
Definition emits {A} (P : request -> Prop) (m : M A) (w : World) : Prop :=
  exists evs, journal (snd (m w)) = (journal w ++ evs)%list /\ Forall P evs.

(** The shape of a client call: the token refresh, any GET, a PUT when
    [puts] allows it, or a POST to one of the urls in [posts]. *)
Definition calls (posts : list string) (puts : bool) (rq : request) : Prop :=
  rq = refresh_request \/
  req_verb rq = GET \/
  (req_verb rq = PUT /\ puts = true) \/
  (req_verb rq = POST /\ In (req_url rq) posts).

(** A PUT body is a JSON object with keys from [allowed] only. *)
Definition pruned (allowed : list string) (rq : request) : Prop :=
  req_verb rq = PUT ->
  exists d, req_body rq = Json (PDict d) /\
            forall k, In k (dict_keys d) -> In k allowed.

End Sync.

Arguments ret {R A} a w.
Arguments raise {R A} e w.
Arguments bind {R A B} m k w.
Arguments lift {R A} r w.
Arguments try_except {R A} m h w.
Arguments sent {R A} m w.
Arguments env {R} w.
Arguments token_file {R} w.
Arguments journal {R} w.
Arguments emits {R A} P m w.

(** ** Two concrete runtimes *)

(** A remote that answers from a script, one reply per request, whatever
    the request; the clock stands still. *)
Definition scripted (db : Z -> option Order) : Runtime :=
  {| Env := Z * list (result value);
     clock := fun e => (fst e, e);
     today := fun _ => "2025-03-01";
     send := fun _ e =>
       match snd e with
       | r :: rest => (r, (fst e, rest))
       | [] => (Raise (RequestException "no reply"), e)
       end;
     orders := db;
     repr := fun _ => "?";
     exn_str := fun _ => "error";
     format_exc := fun _ => "Traceback";
     ZOHO_CLIENT_ID := "id";
     ZOHO_CLIENT_SECRET := "secret";
     ZOHO_REFRESH_TOKEN := "refresh" |}.

Definition no_orders : Z -> option Order := fun _ => None.

Definition script (now : Z) (file : TokenFile) (replies : list (result value))
  : World (scripted no_orders) :=
  Build_World (scripted no_orders) (now, replies) file [].

Definition grant (token : string) (expires_in : Z) : value :=
  PDict [("access_token", PStr token); ("expires_in", PNum expires_in)].

Definition cached (token : string) (expiry : Z) : TokenFile :=
  Stored (PDict [("access_token", PStr token); ("expiry", PNum expiry)]).

(** The body of the contact-person creation, when it is what [rq] carries. *)
Definition creates_person (first last email : string) (rq : request) : Prop :=
  req_verb rq = POST -> req_url rq = create_person_url ->
  exists contact_id,
    req_body rq =
    Json (PDict [("contact_id", contact_id);
                 ("first_name", PStr first);
                 ("last_name", PStr last);
                 ("email", PStr email)]).

(** *** A customer that has to be created *)

Definition fresh_token : TokenFile := cached "tok" 200.

Definition auth : dict := [("Authorization", PStr "Zoho-oauthtoken tok")].

Definition an_address : Address :=
  {| company_name := "Doe Design"; city := "Seattle"; country_area := "WA";
     street_address_1 := "1 Pine St"; street_address_2 := "";
     postal_code := "98101" |}.

Definition contact_fields : value :=
  PDict [("customfields",
          PDict [("contact",
                  PList [PDict [("label", PStr ein_label);
                                ("customfield_id", PStr "cf1")]])])].

Definition new_customer_world : World (scripted no_orders) :=
  script 100 fresh_token
    [Ok contact_fields;
     Ok (PDict [("contacts", PList [])]);
     Ok (PDict [("contact", PDict [("contact_id", PStr "c1")])]);
     Ok (PDict [("contact_person", PDict [("contact_person_id", PStr "p1")])])].

Definition person_request : request :=
  {| req_verb := POST;
     req_url := create_person_url;
     req_headers := auth;
     req_body :=
       Json (PDict [("contact_id", PStr "c1");
                    ("first_name", PStr "");
                    ("last_name", PStr "j.doe");
                    ("email", PStr "j.doe@example.com")]) |}.

(** *** A line whose product has a two-valued attribute *)

Definition color : Attribute := {| slug := "color" |}.

Definition two_colors : Line :=
  {| product_sku := Some "CH-1";
     product_name := "Chair";
     unit_price_gross_amount := 120;
     quantity := 2;
     variant :=
       Some {| product :=
                 {| category := Some {| category_name := "Seating" |};
                    attributeproduct := [color];
                    attributevalues :=
                      [{| name := "red"; attribute := color |};
                       {| name := "blue"; attribute := color |}] |};
               channel_listings := [{| listing_channel := 1; cost_price := Some 80 |}];
               attributes := [] |} |}.

(** *** Requests and worlds named in the statements *)

Definition get_request (url : string) (headers : dict) : request :=
  {| req_verb := GET; req_url := url; req_headers := headers;
     req_body := NoBody |}.

(** The world once [rq] has been answered, the remote moving to [e]. *)
Definition answered (R : Runtime) (w : World R) (rq : request) (e : Env R)
  : World R :=
  Build_World R e (token_file w) (journal w ++ [rq])%list.

(** *** Retainer invoices of an estimate *)

Definition no_invoices_world : World (scripted no_orders) :=
  script 100 fresh_token [Ok (PDict [("retainerinvoices", PList [])])].

Definition sent_invoice : value :=
  PDict [("retainerinvoice_id", PStr "r1"); ("status", PStr "sent")].

Definition sent_invoice_world : World (scripted no_orders) :=
  script 100 fresh_token
    [Ok (PDict [("retainerinvoices", PList [sent_invoice])]);
     Ok (PDict [("retainerinvoices", PList [])])].

Definition next_estimate_world : World (scripted no_orders) :=
  answered (scripted no_orders) sent_invoice_world
    (get_request (retainer_search_url (scripted no_orders) (PStr "e1")) auth)
    (100, [Ok (PDict [("retainerinvoices", PList [])])]).

(** *** The token cache *)

(** The persisted record calls for a refresh: there is no file, the file
    does not decode, or the record's expiry is not after the clock reading
    [now]; [e] is the remote's state when the refresh request leaves. *)
Inductive needs_refresh (R : Runtime) (w : World R) : Env R -> Prop :=
| absent : token_file w = NoFile -> needs_refresh R w (env w)
| unreadable : token_file w = Garbled -> needs_refresh R w (env w)
| expired d expiry x now e :
    token_file w = Stored (PDict d) ->
    dict_get d "expiry" = Some expiry ->
    as_num expiry = Some x ->
    clock R (env w) = (now, e) ->
    x <= now ->
    needs_refresh R w e.

Definition expired_world : World (scripted no_orders) :=
  script 100 (cached "old" 100) [Ok (grant "new" 3600)].


(** *** Vendors in the remote listing *)

(** A listed contact carries a name and an identifier. *)
Definition listed_contact (c : value) : Prop :=
  exists n i, subscript c "contact_name" = Ok n /\ subscript c "contact_id" = Ok i.

Definition named (vendor_name : string) (c : value) : Prop :=
  subscript c "contact_name" = Ok (PStr vendor_name).

(** A POST to the contacts collection: the creation of a contact. *)
Definition creates_contact (rq : request) : Prop :=
  req_verb rq = POST /\ req_url rq = contacts_url.

Definition vendor_listing : value :=
  PDict [("contacts",
          PList [PDict [("contact_name", PStr "Acme"); ("contact_id", PStr "v1")];
                 PDict [("contact_name", PStr "Kettal"); ("contact_id", PStr "v2")]])].

Definition vendor_world : World (scripted no_orders) :=
  script 100 fresh_token [Ok vendor_listing; Ok vendor_listing].

(** *** A remote catalogue searched by substring *)

Record RemoteItem := { remote_item_id : string; remote_sku : string }.

(** Modelled from the spec: the remote's item search, which the client only
    calls.  "Looked up by SKU substring search": the answer lists the items
    whose SKU contains the search text. *)
Definition item_search (catalog : list RemoteItem) (search_text : string)
  : value :=
  PDict [("items",
          PList (map (fun it => PDict [("item_id", PStr (remote_item_id it));
                                       ("sku", PStr (remote_sku it))])
                     (filter (fun it => substringb search_text (remote_sku it))
                             catalog)))].

Fixpoint drop_prefix (p s : string) : option string :=
  match p, s with
  | EmptyString, _ => Some s
  | String a p', String b s' =>
      if Ascii.eqb a b then drop_prefix p' s' else None
  | String _ _, EmptyString => None
  end.

(** A remote that grants every refresh and serves the item search over
    [catalog]; it accepts nothing else. *)
Definition catalog_runtime (catalog : list RemoteItem) : Runtime :=
  {| Env := unit;
     clock := fun e => (0, e);
     today := fun _ => "2025-03-01";
     send := fun rq e =>
       (match req_verb rq with
        | POST =>
            if String.eqb (req_url rq) token_url then Ok (grant "tok" 3600)
            else Raise (RequestException "not served")
        | GET =>
            match drop_prefix (items_url ++ "&search_text=") (req_url rq) with
            | Some search_text => Ok (item_search catalog search_text)
            | None => Raise (RequestException "not served")
            end
        | PUT => Raise (RequestException "not served")
        end, e);
     orders := no_orders;
     repr := fun _ => "?";
     exn_str := fun _ => "error";
     format_exc := fun _ => "Traceback";
     ZOHO_CLIENT_ID := "id";
     ZOHO_CLIENT_SECRET := "secret";
     ZOHO_REFRESH_TOKEN := "refresh" |}.

(** A POST to the items collection: the creation of an item. *)
Definition creates_item (rq : request) : Prop :=
  req_verb rq = POST /\ req_url rq = items_url.

(** *** Estimates of an order *)

(** A POST to the estimates collection: the creation of an estimate. *)
Definition is_estimate_creation (rq : request) : bool :=
  match req_verb rq with
  | POST => prefixb (books ++ "estimates?") (req_url rq)
  | _ => false
  end.

(** The dict the order loop appends for [line]: the identifier is what
    get_or_create_item returned for the line's SKU, name, price and
    extracted attributes. *)
Definition item_of (R : Runtime) (line : Line) (item : value) : Prop :=
  exists cost category extracted item_id (wa wb : World R),
    get_line_item_attributes_and_brand line = Ok extracted /\
    get_or_create_item R
      (match product_sku line with Some s => PStr s | None => PNone end)
      (PStr (product_name line)) (PNum (unit_price_gross_amount line))
      cost "" category (snd extracted) (fst extracted) wa = (Ok item_id, wb) /\
    item = PDict [("id", item_id);
                  ("price", PNum (unit_price_gross_amount line));
                  ("quantity", PNum (quantity line))].

(** The estimate line of [line]: the resolved item, the line's unit price
    as rate, and the line's quantity. *)
Definition resolved_as (R : Runtime) (line : Line) (entry : value) : Prop :=
  exists item item_id,
    item_of R line item /\
    subscript item "id" = Ok item_id /\
    entry = PDict [("item_id", item_id);
                   ("rate", PNum (unit_price_gross_amount line));
                   ("quantity", PNum (quantity line));
                   ("tax_id", PStr "")].

Definition client_posts : list string :=
  [customfields_url; contacts_url; create_person_url; items_url].

(** *** An order of two lines for a known customer *)

Definition kettal_table : Line :=
  {| product_sku := Some "TB-1";
     product_name := "Table";
     unit_price_gross_amount := 300;
     quantity := 1;
     variant :=
       Some {| product :=
                 {| category := Some {| category_name := "" |};
                    attributeproduct := [];
                    attributevalues := [] |};
               channel_listings := [{| listing_channel := 1; cost_price := None |}];
               attributes :=
                 [{| assignment_attribute := {| slug := "brand" |};
                     values := [{| name := "Kettal";
                                   attribute := {| slug := "brand" |} |}] |}] |} |}.

Definition jane : User :=
  {| email := "jane@example.com";
     first_name := "Jane";
     last_name := "Doe";
     default_billing_address := Some an_address;
     default_shipping_address := Some an_address;
     metadata := [] |}.

Definition an_order : Order :=
  {| user := Some jane; lines := [two_colors; kettal_table]; channel := 1 |}.

Definition one_order (order_id : Z) : option Order :=
  if order_id =? 7 then Some an_order else None.

Definition estimate_fields : value :=
  PDict [("customfields",
          PDict [("estimate",
                  PList [PDict [("label", PStr "Sidemark");
                                ("customfield_id", PStr "f1")];
                         PDict [("label", PStr "Client PO");
                                ("customfield_id", PStr "f2")];
                         PDict [("label", PStr "EST Lead Time");
                                ("customfield_id", PStr "f3")]])])].

Definition estimate_reply : value :=
  PDict [("estimate", PDict [("estimate_id", PStr "e1")])].

Definition order_world : World (scripted one_order) :=
  Build_World (scripted one_order)
    (100,
     [Ok contact_fields;
      Ok (PDict [("contacts", PList [PDict [("contact_id", PStr "c1")]])]);
      Ok (PDict [("contact_persons",
                  PList [PDict [("contact_person_id", PStr "p1")]])]);
      Ok (PDict [("items", PList [PDict [("item_id", PStr "i1")]])]);
      Ok (PDict [("items", PList [PDict [("item_id", PStr "i2")]])]);
      Ok estimate_fields; Ok estimate_fields; Ok estimate_fields;
      Ok estimate_reply])
    fresh_token [].




(** *** A drawn invoice and a dropdown that lacks an option *)

Definition drawn_invoice : value :=
  PDict [("retainerinvoice_id", PStr "r1"); ("status", PStr "drawn");
         ("estimate_id", PStr "e1"); ("created_time", PStr "2025-02-28");
         ("customer_id", PStr "c1")].

Definition reconciliation_world : World (scripted no_orders) :=
  script 100 fresh_token
    [Ok (PDict [("estimates", PList [PDict [("estimate_id", PStr "e1")]])]);
     Ok (PDict [("retainerinvoices", PList [drawn_invoice])]);
     Ok (PDict [("code", PNum 0)])].

Definition vendor_dropdown_world : World (scripted no_orders) :=
  script 100 fresh_token
    [Ok (PDict [("customfields",
                 PDict [("item",
                         PList [PDict [("label", PStr "Vendor");
                                       ("customfield_id", PStr "f9")]])])]);
     Ok (PDict [("field",
                 PDict [("customfield_id", PStr "f9");
                        ("label", PStr "Vendor");
                        ("created_by", PStr "admin");
                        ("values",
                         PList [PDict [("name", PStr "Acme");
                                       ("order", PNum 1)]])])]);
     Ok (PDict [("code", PNum 0)])].

(** ** Categories (zoho_client.py) *)

Section Categories.

Variable R : Runtime.

Definition categories_url : string :=
  books ++ "settings/categories?organization_id=" ++ ZOHO_ORG_ID.

Definition get_or_create_category (category_name : value) : M R value :=
  bind (get_headers R) (fun headers =>
  bind (http R GET categories_url headers NoBody) (fun response =>
  bind (lift (py_get response "categories" (PList []))) (fun categories =>
  bind (lift (py_iter categories)) (fun candidates =>
  bind (lift (first_with "category_name" category_name candidates))
       (fun existing_category =>
  if truthy existing_category
  then lift (subscript existing_category "category_id")
  else
    bind (http R POST categories_url headers
            (Json (PDict [("category_name", category_name)])))
         (fun response =>
    bind (lift (subscript response "category")) (fun category =>
    lift (subscript category "category_id")))))))).

End Categories.

(** *** Worlds for the token cache *)


Definition no_expiry_world : World (scripted no_orders) :=
  script 100 (Stored (PDict [("access_token", PStr "tok")])) [].

(** *** Custom fields in the remote settings *)

(** A listed field whose label is not [field_label]. *)
Definition other_field (field_label : string) (field : value) : Prop :=
  exists l, subscript field "label" = Ok l /\ l <> PStr field_label.

(** A POST to the custom fields collection: the creation of a field. *)
Definition creates_field (rq : request) : Prop :=
  req_verb rq = POST /\ req_url rq = customfields_url.

Definition new_field_payload (field_label module : string) : value :=
  PDict [("module", PStr module);
         ("custom_field_name", PStr field_label);
         ("data_type", PStr "string");
         ("is_active", PBool true)].

Definition item_fields : value :=
  PDict [("customfields",
          PDict [("item",
                  PList [PDict [("label", PStr "Category");
                                ("customfield_id", PStr "f7")];
                         PDict [("label", PStr "Vendor");
                                ("customfield_id", PStr "f9")];
                         PDict [("label", PStr "Vendor");
                                ("customfield_id", PStr "f10")]])])].

Definition item_fields_world : World (scripted no_orders) :=
  script 100 fresh_token
    [Ok item_fields; Ok (PDict [("code", PNum 0)])].

Definition no_estimate_fields_world : World (scripted no_orders) :=
  script 100 fresh_token
    [Ok (PDict [("customfields", PDict [("item", PList [])])]);
     Ok (PDict [("code", PNum 0)])].

Definition create_field_world : World (scripted no_orders) :=
  script 100 fresh_token
    [Ok (PDict [("customfields",
                 PDict [("estimate",
                         PList [PDict [("label", PStr "Client PO");
                                       ("customfield_id", PStr "f2")]])])]);
     Ok (PDict [("code", PNum 1); ("message", PStr "rejected")])].

(** *** Options of a dropdown field *)

Definition message_exists (new_option field_label : string) : value :=
  PDict [("message",
          PStr ("'" ++ new_option ++ "' already exists in '" ++
                field_label ++ "'."))].



Definition known_option_world : World (scripted no_orders) :=
  script 100 fresh_token
    [Ok item_fields;
     Ok (PDict [("field",
                 PDict [("customfield_id", PStr "f9");
                        ("values",
                         PList [PDict [("name", PStr "Acme")];
                                PDict [("name", PStr "Kettal")]])])])].

(** *** Listings searched by an exact name *)

(** A listed entry whose [key] is not the string [wanted]. *)
Definition other_named (key wanted : string) (c : value) : Prop :=
  exists n, subscript c key = Ok n /\ n <> PStr wanted.

Definition post_request (url : string) (headers : dict) (body : value)
  : request :=
  {| req_verb := POST; req_url := url; req_headers := headers;
     req_body := Json body |}.

Definition new_vendor_world : World (scripted no_orders) :=
  script 100 fresh_token
    [Ok vendor_listing;
     Ok (PDict [("contact", PDict [("contact_id", PStr "v3")])])].

Definition category_listing : value :=
  PDict [("categories",
          PList [PDict [("category_name", PStr "Seating");
                        ("category_id", PStr "g1")]])].

Definition category_world : World (scripted no_orders) :=
  script 100 fresh_token
    [Ok category_listing;
     Ok (PDict [("category", PDict [("category_id", PStr "g2")])])].

(** *** Customers *)

Definition posts_to (url : string) (rq : request) : Prop :=
  req_verb rq = POST /\ req_url rq = url.

(** What a POST to the contacts collection carries when
    get_or_create_customer sends it. *)
Definition customer_creation (email name company_name : string)
  (metadata : dict) (billing_address shipping_address : option Address)
  (rq : request) : Prop :=
  posts_to contacts_url rq ->
  exists p field_id billing shipping,
    req_body rq = Json (PDict p) /\
    billing_address = Some billing /\
    shipping_address = Some shipping /\
    dict_get p "contact_name"
    = Some (PStr (if String.eqb name email then company_name else name)) /\
    dict_get p "contact_type" = Some (PStr "customer") /\
    dict_get p "custom_fields"
    = Some (PList [PDict [("customfield_id", field_id);
                          ("value",
                           match dict_get metadata ein_label with
                           | Some v => v
                           | None => PStr ""
                           end)]]).

Definition known_customer_world : World (scripted no_orders) :=
  script 100 fresh_token
    [Ok contact_fields;
     Ok (PDict [("contacts",
                 PList [PDict [("contact_id", PStr "c1")];
                        PDict [("contact_id", PStr "c2")]])]);
     Ok (PDict [("contact_persons",
                 PList [PDict [("contact_person_id", PStr "p1")]])])].

(** *** Items *)

(** The description of a created item: one line "label: value" per
    extracted attribute, in the order of the map, then the given text. *)
Definition item_description (R : Runtime) (attributes : dict)
  (description : string) : string :=
  String.concat ""
    (map (fun lv => fst lv ++ ": " ++ fmt R (snd lv) ++ nl) attributes)
  ++ description.

(** The custom field entry made for a (label, value) pair. *)
Definition field_entry (lv : string * value) (entry : value) : Prop :=
  exists field_id,
    entry = PDict [("customfield_id", field_id); ("value", snd lv)].

(** What a POST to the items collection carries when get_or_create_item
    sends it. *)
Definition item_creation (R : Runtime) (sku name price cost : value)
  (description : string) (category vendor : value) (attributes : dict)
  (rq : request) : Prop :=
  posts_to items_url rq ->
  exists p custom_fields,
    req_body rq = Data (PDict p) /\
    dict_get p "name" = Some name /\
    dict_get p "sku" = Some sku /\
    dict_get p "rate" = Some price /\
    dict_get p "purchase_rate" = Some cost /\
    dict_get p "is_taxable" = Some (PBool true) /\
    dict_get p "unit" = Some (PStr "Each") /\
    dict_get p "description"
    = Some (PStr (item_description R attributes description)) /\
    dict_get p "custom_fields" = Some (PList custom_fields) /\
    Forall2 field_entry
      [("Category", category); ("Item Number", sku); ("Vendor", vendor)]
      custom_fields /\
    (truthy vendor = false -> dict_get p "vendor_id" = None).

Definition stocked_world : World (scripted no_orders) :=
  script 100 fresh_token
    [Ok (PDict [("items",
                 PList [PDict [("item_id", PStr "i9"); ("sku", PStr "XYZ")];
                        PDict [("item_id", PStr "i1"); ("sku", PStr "CH-1")]])])].

(** *** Reconciliation *)

Definition put_request (url : string) (headers : dict) (body : value)
  : request :=
  {| req_verb := PUT; req_url := url; req_headers := headers;
     req_body := Json body |}.

(** The body update_retainer_invoice_payment_options sends for an invoice. *)
Definition invoice_update (retainer_invoice : dict) : value :=
  PDict (filter_object (dict_set retainer_invoice "payment_options" zoho_payments)
           retainer_put_keys).

Definition drawn_world : World (scripted no_orders) :=
  script 100 fresh_token
    [Ok (PDict [("retainerinvoices",
                 PList [drawn_invoice;
                        PDict [("retainerinvoice_id", PStr "r2");
                               ("status", PStr "drawn")]])]);
     Raise (RequestException "timeout")].

Definition no_estimates_world : World (scripted no_orders) :=
  script 100 fresh_token [Ok (PDict [("code", PNum 0)])].

(** *** Estimates *)

(** What a POST to the estimates collection carries when create_estimate
    sends it. *)
Definition estimate_creation (customer_id : value) (items : list value)
  (contact_id : value) (send_email : bool) (crm_potential_id : value)
  (rq : request) : Prop :=
  is_estimate_creation rq = true ->
  exists p line_items custom_fields,
    req_url rq = estimate_create_url send_email /\
    req_body rq = Data (PDict p) /\
    map_result line_item items = Ok line_items /\
    dict_get p "customer_id" = Some customer_id /\
    dict_get p "contact_persons" = Some (PList [contact_id]) /\
    dict_get p "line_items" = Some (PList line_items) /\
    dict_get p "accept_retainer" = Some (PBool true) /\
    dict_get p "payment_options" = Some zoho_payments /\
    dict_get p "salesperson_name" = Some (PStr "Paul Patterson") /\
    dict_get p "custom_fields" = Some (PList custom_fields) /\
    Forall2 field_entry
      [("Sidemark", PStr "TBA"); ("Client PO", PStr "TBA");
       ("EST Lead Time", PStr "TBA")] custom_fields /\
    dict_get p "potential_id"
    = (if truthy crm_potential_id then Some crm_potential_id else None).

(** Running [m] from [w] appends requests that satisfy [P] and then at
    most one more request. *)
Definition emits_then_one {A} {R : Runtime} (P : request -> Prop) (m : M R A)
  (w : World R) : Prop :=
  exists evs last,
    journal (snd (m w)) = (journal w ++ evs ++ last)%list /\
    Forall P evs /\ (List.length last <= 1)%nat.

(** *** Orders that cannot be synchronised *)

Definition orphan_line : Line :=
  {| product_sku := Some "GONE-1";
     product_name := "Discontinued";
     unit_price_gross_amount := 50;
     quantity := 1;
     variant := None |}.

Definition orphan_order : Order :=
  {| user := Some jane; lines := [two_colors; orphan_line]; channel := 1 |}.

Definition guest_order : Order :=
  {| user := None; lines := [two_colors]; channel := 1 |}.

Definition odd_orders (order_id : Z) : option Order :=
  if order_id =? 1 then Some orphan_order
  else if order_id =? 2 then Some guest_order
  else None.

Definition odd_world : World (scripted odd_orders) :=
  Build_World (scripted odd_orders)
    (100,
     [Ok contact_fields;
      Ok (PDict [("contacts", PList [PDict [("contact_id", PStr "c1")]])]);
      Ok (PDict [("contact_persons",
                  PList [PDict [("contact_person_id", PStr "p1")]])]);
      Ok (PDict [("items", PList [PDict [("item_id", PStr "i1")]])])])
    fresh_token [].

Definition odd_customer_world : World (scripted odd_orders) :=
  snd (get_or_create_customer (scripted odd_orders) "jane@example.com"
         "Jane Doe" "Doe Design" [] (Some an_address) (Some an_address)
         odd_world).

Definition odd_lines_world : World (scripted odd_orders) :=
  snd (resolve_lines (scripted odd_orders) orphan_order (lines orphan_order) []
         odd_customer_world).

(** *** What the extractor reads *)

Definition variant_slug (a : AssignedVariantAttribute) : string :=
  slug (assignment_attribute a).

(** A brand attribute of the variant without any value. *)
Definition empty_brand (a : AssignedVariantAttribute) : Prop :=
  variant_slug a = "brand" /\ values a = [].

(** The names of the product's assigned values under [s], in the order of
    assignment. *)
Definition assigned_names (p : Product) (s : string) : list string :=
  map name (filter (fun av => String.eqb (slug (attribute av)) s)
                   (attributevalues p)).

Definition brandless_line : Line :=
  {| product_sku := Some "TB-2";
     product_name := "Side table";
     unit_price_gross_amount := 90;
     quantity := 1;
     variant :=
       Some {| product :=
                 {| category := None;
                    attributeproduct := [color; {| slug := "finish" |}];
                    attributevalues := [{| name := "red"; attribute := color |}] |};
               channel_listings := [];
               attributes :=
                 [{| assignment_attribute := {| slug := "size" |};
                     values := [] |};
                  {| assignment_attribute := {| slug := "brand" |};
                     values := [] |}] |} |}.

(** What the map holds for an attribute with the value names [names]. *)
Definition map_value (names : list string) : value :=
  match names with
  | [] => PList []
  | n :: _ => PStr n
  end.

(** What the brand is for a brand attribute with the value names [names]. *)
Definition brand_value (names : list string) : value :=
  match names with
  | [n] => PStr n
  | _ => PList (map PStr names)
  end.

Definition shadowed_variant : Variant :=
  {| product :=
       {| category := None;
          attributeproduct := [color; {| slug := "finish" |}];
          attributevalues :=
            [{| name := "red"; attribute := color |};
             {| name := "matt"; attribute := {| slug := "finish" |} |}] |};
     channel_listings := [];
     attributes :=
       [{| assignment_attribute := {| slug := "brand" |};
           values := [{| name := "Acme";
                         attribute := {| slug := "brand" |} |}] |};
        {| assignment_attribute := color;
           values := [{| name := "teal"; attribute := color |}] |};
        {| assignment_attribute := {| slug := "brand" |};
           values := [{| name := "Dedon";
                         attribute := {| slug := "brand" |} |};
                      {| name := "Kettal";
                         attribute := {| slug := "brand" |} |}] |}] |}.

Definition shadowed_line : Line :=
  {| product_sku := Some "CH-2";
     product_name := "Armchair";
     unit_price_gross_amount := 220;
     quantity := 1;
     variant := Some shadowed_variant |}.

(** *** An item that has to be created, for a line without a brand *)

Definition editpage_reply (custom_field_id options : value) : value :=
  PDict [("field",
          PDict [("customfield_id", custom_field_id); ("values", options)])].

Definition new_item_world : World (scripted no_orders) :=
  script 100 fresh_token
    [Ok (PDict [("items", PList [])]);
     Ok item_fields;
     Ok item_fields;
     Ok (editpage_reply (PStr "f7") (PList [PDict [("name", PStr "Seating")]]));
     Ok item_fields;
     Ok (PDict [("customfield", PDict [("customfield_id", PStr "f11")])]);
     Ok item_fields;
     Ok item_fields;
     Ok (editpage_reply (PStr "f9") (PList []));
     Ok (PDict [("code", PNum 0)]);
     Ok (PDict [("item", PDict [("item_id", PStr "i5")])])].

(** * Properties *)

(** ** Dictionaries and filter_object *)

Lemma dict_get_set_same (d : dict) (k : string) (v : value) :
  dict_get (dict_set d k v) k = Some v.
Proof.
  induction d as [|[k' v'] d IH]; simpl.
  - now rewrite String.eqb_refl.
  - destruct (String.eqb k' k) eqn:E; simpl; rewrite E; auto.
Qed.

Lemma dict_get_set_other (d : dict) (k k' : string) (v : value) :
  k <> k' -> dict_get (dict_set d k v) k' = dict_get d k'.
Proof.
  intros Hne. induction d as [|[k0 v0] d IH]; simpl.
  - destruct (String.eqb k k') eqn:E; auto.
    apply String.eqb_eq in E. contradiction.
  - destruct (String.eqb k0 k) eqn:E; simpl.
    + apply String.eqb_eq in E. subst k0.
      destruct (String.eqb k k') eqn:E'; auto.
      apply String.eqb_eq in E'. contradiction.
    + destruct (String.eqb k0 k'); auto.
Qed.

Lemma dict_get_keys (d : dict) (k : string) :
  In k (dict_keys d) <-> dict_get d k <> None.
Proof.
  unfold dict_keys. induction d as [|[k' v'] d IH]; simpl.
  - split; [tauto | congruence].
  - destruct (String.eqb k' k) eqn:E.
    + apply String.eqb_eq in E. split; [congruence | auto].
    + apply String.eqb_neq in E. rewrite <- IH. tauto.
Qed.

Lemma dict_set_keys_nodup (d : dict) (k : string) (v : value) :
  NoDup (dict_keys d) -> NoDup (dict_keys (dict_set d k v)).
Proof.
  unfold dict_keys. induction d as [|[k' v'] d IH]; simpl; intros Hnd.
  - constructor; [tauto | constructor].
  - inversion Hnd as [|? ? Hnotin Hnd']; subst.
    destruct (String.eqb k' k) eqn:E; simpl.
    + now constructor.
    + constructor; auto.
      intros Hin. apply Hnotin.
      apply (proj2 (dict_get_keys d k')).
      apply (proj1 (dict_get_keys (dict_set d k v) k')) in Hin.
      apply String.eqb_neq in E.
      rewrite dict_get_set_other in Hin by congruence. exact Hin.
Qed.

Lemma filter_object_into_get (keys : list string) (acc obj : dict) (k : string) :
  dict_get (filter_object_into acc obj keys) k =
  if existsb (String.eqb k) keys
  then match dict_get obj k with Some v => Some v | None => dict_get acc k end
  else dict_get acc k.
Proof.
  revert acc. induction keys as [|key rest IH]; intros acc; simpl.
  - reflexivity.
  - destruct (String.eqb k key) eqn:E; simpl.
    + apply String.eqb_eq in E. subst key.
      destruct (dict_get obj k) as [v|] eqn:Hk; rewrite IH, ?Hk.
      * rewrite dict_get_set_same. now destruct (existsb _ rest).
      * now destruct (existsb _ rest).
    + apply String.eqb_neq in E.
      destruct (dict_get obj key) as [v|] eqn:Hk; rewrite IH; auto.
      rewrite dict_get_set_other by congruence. reflexivity.
Qed.

Lemma filter_object_into_nodup (keys : list string) (acc obj : dict) :
  NoDup (dict_keys acc) -> NoDup (dict_keys (filter_object_into acc obj keys)).
Proof.
  revert acc. induction keys as [|key rest IH]; intros acc Hnd; simpl; auto.
  destruct (dict_get obj key); auto using dict_set_keys_nodup.
Qed.

Lemma filter_object_get (obj : dict) (keys : list string) (k : string) :
  dict_get (filter_object obj keys) k =
  if existsb (String.eqb k) keys then dict_get obj k else None.
Proof.
  unfold filter_object. rewrite filter_object_into_get. simpl.
  now destruct (existsb _ keys); [destruct (dict_get obj k)|].
Qed.

Lemma existsb_eqb_In (k : string) (keys : list string) :
  existsb (String.eqb k) keys = true <-> In k keys.
Proof.
  rewrite existsb_exists. split.
  - intros (x & Hin & E). apply String.eqb_eq in E. now subst.
  - intros Hin. exists k. split; auto. apply String.eqb_refl.
Qed.

Lemma filter_object_keys (obj : dict) (keys : list string) (k : string) :
  In k (dict_keys (filter_object obj keys)) <->
  In k keys /\ In k (dict_keys obj).
Proof.
  rewrite !dict_get_keys, filter_object_get, <- existsb_eqb_In.
  destruct (existsb _ keys); split; try tauto; intros []; try tauto; congruence.
Qed.

(** ** The journal only grows *)

Section Journal.

Variable R : Runtime.

Lemma emits_sent {A} (P : request -> Prop) (m : M R A) (w : World R) :
  emits P m w -> Forall P (sent m w).
Proof.
  intros (evs & Hj & HP). unfold sent. rewrite Hj.
  rewrite skipn_app, skipn_all, Nat.sub_diag. exact HP.
Qed.

Lemma emits_weaken {A} (P Q : request -> Prop) (m : M R A) (w : World R) :
  (forall rq, P rq -> Q rq) -> emits P m w -> emits Q m w.
Proof.
  intros HPQ (evs & Hj & HP). exists evs. split; auto.
  eapply Forall_impl; eauto.
Qed.

Lemma emits_silent {A} (P : request -> Prop) (m : M R A) (w : World R) :
  journal (snd (m w)) = journal w -> emits P m w.
Proof. intros Hj. exists []. rewrite Hj, app_nil_r. auto. Qed.

Lemma emits_ret {A} (P : request -> Prop) (a : A) (w : World R) :
  emits P (ret a) w.
Proof. now apply emits_silent. Qed.

Lemma emits_raise {A} (P : request -> Prop) (e : exn) (w : World R) :
  emits P (raise (A := A) e) w.
Proof. now apply emits_silent. Qed.

Lemma emits_lift {A} (P : request -> Prop) (r : result A) (w : World R) :
  emits P (lift r) w.
Proof. now apply emits_silent. Qed.

Lemma emits_time (P : request -> Prop) (w : World R) : emits P (time R) w.
Proof. apply emits_silent. unfold time. now destruct (clock R (env w)). Qed.

Lemma emits_date_today (P : request -> Prop) (w : World R) :
  emits P (date_today R) w.
Proof. now apply emits_silent. Qed.

Lemma emits_write_token (P : request -> Prop) (t : value) (w : World R) :
  emits P (write_token R t) w.
Proof. now apply emits_silent. Qed.

Lemma emits_http (P : request -> Prop) v u h b (w : World R) :
  P {| req_verb := v; req_url := u; req_headers := h; req_body := b |} ->
  emits P (http R v u h b) w.
Proof.
  intros HP. unfold emits, http.
  destruct (send R _ (env w)) as [r e]. simpl. eauto.
Qed.

Lemma emits_bind {A B} (P : request -> Prop) (m : M R A) (k : A -> M R B)
  (w : World R) :
  emits P m w ->
  (forall a w1, m w = (Ok a, w1) -> emits P (k a) w1) ->
  emits P (bind m k) w.
Proof.
  intros (evs & Hj & HP) Hk. unfold emits, bind.
  destruct (m w) as [[a|e] w1] eqn:Hm; simpl in *.
  - destruct (Hk a w1 eq_refl) as (evs' & Hj' & HP').
    exists (evs ++ evs')%list. rewrite Hj', Hj, app_assoc. split; auto.
    apply Forall_app; auto.
  - eauto.
Qed.

Lemma emits_try_except {A} (P : request -> Prop) (m : M R A) (h : exn -> M R A)
  (w : World R) :
  emits P m w ->
  (forall e w1, m w = (Raise e, w1) -> emits P (h e) w1) ->
  emits P (try_except m h) w.
Proof.
  intros (evs & Hj & HP) Hh. unfold emits, try_except.
  destruct (m w) as [[a|e] w1] eqn:Hm; simpl in *.
  - eauto.
  - destruct (Hh e w1 eq_refl) as (evs' & Hj' & HP').
    exists (evs ++ evs')%list. rewrite Hj', Hj, app_assoc. split; auto.
    apply Forall_app; auto.
Qed.

Lemma calls_refresh posts puts : calls R posts puts (refresh_request R).
Proof. now left. Qed.

Lemma calls_get posts puts u h b :
  calls R posts puts
    {| req_verb := GET; req_url := u; req_headers := h; req_body := b |}.
Proof. right. now left. Qed.

Lemma calls_put posts u h b :
  calls R posts true
    {| req_verb := PUT; req_url := u; req_headers := h; req_body := b |}.
Proof. right. right. left. now split. Qed.

Lemma calls_post posts puts u h b :
  In u posts ->
  calls R posts puts
    {| req_verb := POST; req_url := u; req_headers := h; req_body := b |}.
Proof. intros Hin. right. right. right. now split. Qed.

Lemma calls_mono posts posts' puts puts' rq :
  incl posts posts' -> (puts = true -> puts' = true) ->
  calls R posts puts rq -> calls R posts' puts' rq.
Proof.
  intros Hi Hp [H|[H|[[H1 H2]|[H1 H2]]]].
  - now left.
  - right. now left.
  - right. right. left. auto.
  - right. right. right. auto.
Qed.

End Journal.

(** Steps through a computation, leaving the requests it sends. *)
Ltac journal_step :=
  match goal with
  | |- emits _ (bind _ _) _ => apply emits_bind; [|intros ? ? _]
  | |- emits _ (ret _) _ => apply emits_ret
  | |- emits _ (raise _) _ => apply emits_raise
  | |- emits _ (lift _) _ => apply emits_lift
  | |- emits _ (time _) _ => apply emits_time
  | |- emits _ (date_today _) _ => apply emits_date_today
  | |- emits _ (write_token _ _) _ => apply emits_write_token
  | |- emits _ (http _ _ _ _ _) _ => apply emits_http
  | |- emits _ (if ?b then _ else _) _ => destruct b
  | |- emits _ (match ?x with _ => _ end) _ => destruct x
  | |- emits _ (let (_, _) := ?x in _) _ => destruct x
  end.

Section TokenRequests.

Variable R : Runtime.

Lemma refresh_access_token_emits (w : World R) :
  emits (fun rq => rq = refresh_request R) (refresh_access_token R) w.
Proof. unfold refresh_access_token. repeat journal_step. reflexivity. Qed.

Lemma get_access_token_emits (w : World R) :
  emits (fun rq => rq = refresh_request R) (get_access_token R) w.
Proof.
  unfold emits, get_access_token.
  destruct (token_file w); try apply refresh_access_token_emits.
  change (emits (fun rq => rq = refresh_request R)
    (bind (time R) (fun now =>
       bind (lift (subscript token_data "expiry")) (fun expiry =>
         match as_num expiry with
         | None => raise TypeError
         | Some x =>
             if now <? x then lift (subscript token_data "access_token")
             else refresh_access_token R
         end))) w).
  repeat journal_step. apply refresh_access_token_emits.
Qed.

Lemma get_headers_emits (w : World R) :
  emits (fun rq => rq = refresh_request R) (get_headers R) w.
Proof.
  unfold get_headers. repeat journal_step. apply get_access_token_emits.
Qed.

Lemma get_headers_calls posts puts (w : World R) :
  emits (calls R posts puts) (get_headers R) w.
Proof.
  eapply emits_weaken; [|apply get_headers_emits].
  intros rq ->. apply calls_refresh.
Qed.

Lemma calls_not_put posts rq : calls R posts false rq -> req_verb rq <> PUT.
Proof.
  intros [->|[H|[[_ H]|[H _]]]]; simpl; try rewrite H; discriminate.
Qed.

End TokenRequests.

(** One step of a client function whose requests are [calls]. *)
Ltac client_step :=
  first [ journal_step
        | apply get_headers_calls
        | apply calls_get
        | apply calls_put
        | apply calls_post; assumption ].

(** ** The requests of each client function *)

Section Shapes.

Variable R : Runtime.

Section Calls.

Variable posts : list string.
Variable puts : bool.

Lemma create_custom_field_calls label module (w : World R) :
  In customfields_url posts ->
  emits (calls R posts puts) (create_custom_field R label module) w.
Proof. intros H. unfold create_custom_field. repeat client_step. Qed.

Lemma get_custom_field_id_calls label module (w : World R) :
  In customfields_url posts ->
  emits (calls R posts puts) (get_custom_field_id R label module) w.
Proof.
  intros H. unfold get_custom_field_id. repeat client_step.
  now apply create_custom_field_calls.
Qed.

Lemma get_or_create_vendor_calls vendor_name (w : World R) :
  In contacts_url posts ->
  emits (calls R posts puts) (get_or_create_vendor R vendor_name) w.
Proof. intros H. unfold get_or_create_vendor. repeat client_step. Qed.

Lemma get_or_create_customer_calls email name company metadata billing shipping
  (w : World R) :
  In customfields_url posts -> In contacts_url posts ->
  In create_person_url posts ->
  emits (calls R posts puts)
    (get_or_create_customer R email name company metadata billing shipping) w.
Proof.
  intros H1 H2 H3. unfold get_or_create_customer.
  repeat first [ apply get_custom_field_id_calls; assumption | client_step ].
Qed.

Lemma get_all_accepted_estimates_calls (w : World R) :
  emits (calls R posts puts) (get_all_accepted_estimates R) w.
Proof. unfold get_all_accepted_estimates. repeat client_step. Qed.

Lemma estimate_custom_fields_calls entries acc (w : World R) :
  In customfields_url posts ->
  emits (calls R posts puts) (estimate_custom_fields R entries acc) w.
Proof.
  intros H. revert acc w.
  induction entries as [|[label v] rest IH]; intros acc w; simpl.
  - apply emits_ret.
  - apply emits_bind; [now apply get_custom_field_id_calls|].
    intros a w1 _. apply IH.
Qed.

End Calls.

Section CallsWithPut.

Variable posts : list string.

Lemma get_or_create_dropdown_custom_field_calls label module option
  (w : World R) :
  In customfields_url posts ->
  emits (calls R posts true)
    (get_or_create_dropdown_custom_field R label module option) w.
Proof.
  intros H. unfold get_or_create_dropdown_custom_field.
  repeat first [ apply get_custom_field_id_calls; assumption | client_step ].
Qed.

Lemma update_retainer_invoice_payment_options_calls estimate_id (w : World R) :
  emits (calls R posts true)
    (update_retainer_invoice_payment_options R estimate_id) w.
Proof. unfold update_retainer_invoice_payment_options. repeat client_step. Qed.

Lemma item_custom_fields_calls entries acc (w : World R) :
  In customfields_url posts ->
  emits (calls R posts true) (item_custom_fields R entries acc) w.
Proof.
  intros H. revert acc w.
  induction entries as [|[label v] rest IH]; intros acc w; simpl.
  - apply emits_ret.
  - apply emits_bind; [now apply get_custom_field_id_calls|].
    intros a w1 _. apply emits_bind; [|intros ? ? _; apply IH].
    destruct (_ || _); [|apply emits_ret].
    apply emits_bind; [|intros ? ? _; apply emits_ret].
    now apply get_or_create_dropdown_custom_field_calls.
Qed.

Lemma get_or_create_item_calls sku name price cost description category vendor
  attributes (w : World R) :
  In customfields_url posts -> In contacts_url posts -> In items_url posts ->
  emits (calls R posts true)
    (get_or_create_item R sku name price cost description category vendor
       attributes) w.
Proof.
  intros H1 H2 H3. unfold get_or_create_item.
  repeat first [ apply get_or_create_vendor_calls; assumption
               | apply item_custom_fields_calls; assumption
               | client_step ].
Qed.

Lemma resolve_line_calls order line (w : World R) :
  In customfields_url posts -> In contacts_url posts -> In items_url posts ->
  emits (calls R posts true) (resolve_line R order line) w.
Proof.
  intros H1 H2 H3. unfold resolve_line.
  repeat first [ apply get_or_create_item_calls; assumption | client_step ].
Qed.

Lemma resolve_lines_calls order todo items (w : World R) :
  In customfields_url posts -> In contacts_url posts -> In items_url posts ->
  emits (calls R posts true) (resolve_lines R order todo items) w.
Proof.
  intros H1 H2 H3. revert items w.
  induction todo as [|line rest IH]; intros items w; simpl.
  - apply emits_ret.
  - apply emits_bind; [now apply resolve_line_calls|].
    intros a w1 _. apply IH.
Qed.

End CallsWithPut.

End Shapes.

(** ** Allow-lists on PUT bodies *)

Lemma dropdown_put_pruned (R : Runtime) label module option (w : World R) :
  emits (pruned dropdown_put_keys)
    (get_or_create_dropdown_custom_field R label module option) w.
Proof.
  assert (Hcalls : forall rq, calls R [customfields_url] false rq ->
                              pruned dropdown_put_keys rq).
  { intros rq Hc Hput. now apply calls_not_put in Hc. }
  unfold get_or_create_dropdown_custom_field.
  apply emits_bind.
  { eapply emits_weaken; [exact Hcalls | apply get_headers_calls]. }
  intros headers w1 _. apply emits_bind.
  { eapply emits_weaken; [exact Hcalls|].
    apply get_custom_field_id_calls. now left. }
  intros custom_field_id w2 _.
  destruct (truthy custom_field_id); [|apply emits_ret].
  apply emits_bind; [apply emits_http; discriminate|].
  intros response w3 _.
  repeat (apply emits_bind; [apply emits_lift|]; intros ? ? _).
  destruct (existsb _ _); [apply emits_ret|].
  destruct a0; try apply emits_raise.
  destruct a; try apply emits_raise.
  apply emits_http. intros _. eexists. split; [reflexivity|].
  intros k Hk. now apply filter_object_keys in Hk.
Qed.

Lemma retainer_put_pruned (R : Runtime) estimate_id (w : World R) :
  emits (pruned retainer_put_keys)
    (update_retainer_invoice_payment_options R estimate_id) w.
Proof.
  unfold update_retainer_invoice_payment_options.
  apply emits_bind.
  { eapply emits_weaken; [|apply (get_headers_calls R [] false)].
    intros rq Hc Hput. now apply calls_not_put in Hc. }
  intros headers w1 _.
  apply emits_bind; [apply emits_http; discriminate|].
  intros response w2 _.
  apply emits_bind; [apply emits_lift|]. intros invoices w3 _.
  destruct (negb _); [apply emits_ret|].
  repeat (apply emits_bind; [apply emits_lift|]; intros ? ? _).
  destruct (value_eqb _ _); [|apply emits_ret].
  destruct a; try apply emits_raise.
  apply emits_http. intros _. eexists. split; [reflexivity|].
  intros k Hk. now apply filter_object_keys in Hk.
Qed.

(** C9. filter_object keeps exactly the allow-listed keys that the input
    has, each with the input's value, and no key twice; hence every PUT that
    get_or_create_dropdown_custom_field or
    update_retainer_invoice_payment_options sends has a JSON object body
    whose keys all belong to the function's own allow-list. *)
Theorem filter_object_allow_list :
  (forall obj keys k,
      (In k keys -> dict_get (filter_object obj keys) k = dict_get obj k) /\
      (~ In k keys -> dict_get (filter_object obj keys) k = None) /\
      (In k (dict_keys (filter_object obj keys)) <->
       In k keys /\ In k (dict_keys obj)) /\
      NoDup (dict_keys (filter_object obj keys))) /\
  (forall (R : Runtime) label module option (w : World R),
      Forall (pruned dropdown_put_keys)
        (sent (get_or_create_dropdown_custom_field R label module option) w)) /\
  (forall (R : Runtime) estimate_id (w : World R),
      Forall (pruned retainer_put_keys)
        (sent (update_retainer_invoice_payment_options R estimate_id) w)).
Proof.
  split; [|split].
  - intros obj keys k. split; [|split; [|split]].
    + intros Hin. rewrite filter_object_get.
      apply existsb_eqb_In in Hin. now rewrite Hin.
    + intros Hnin. rewrite filter_object_get.
      destruct (existsb _ keys) eqn:E; auto.
      apply existsb_eqb_In in E. contradiction.
    + apply filter_object_keys.
    + apply filter_object_into_nodup. constructor.
  - intros. apply emits_sent, dropdown_put_pruned.
  - intros. apply emits_sent, retainer_put_pruned.
Qed.

(** The reconciliation task on one accepted estimate with a drawn invoice:
    the PUT carries the allow-listed fields of the invoice and the payment
    options; [retainerinvoice_id], [status] and [created_time] stay behind. *)
Example drawn_invoice_is_updated :
  map (fun rq => (req_verb rq, req_body rq))
      (sent (check_estimate_accepted_and_add_zoho_payments (scripted no_orders))
            reconciliation_world)
  = [(GET, NoBody); (GET, NoBody);
     (PUT, Json (PDict [("customer_id", PStr "c1");
                        ("estimate_id", PStr "e1");
                        ("payment_options", zoho_payments)]))].
Proof. reflexivity. Qed.

(** A new option goes last with the next order number, and [created_by]
    is not echoed back. *)
Example dropdown_option_is_appended :
  map (fun rq => (req_verb rq, req_body rq))
      (sent (get_or_create_dropdown_custom_field (scripted no_orders)
               "Vendor" "item" (PStr "Kettal"))
            vendor_dropdown_world)
  = [(GET, NoBody); (GET, NoBody);
     (PUT, Json (PDict [("customfield_id", PStr "f9");
                        ("values",
                         PList [PDict [("name", PStr "Acme"); ("order", PNum 1)];
                                PDict [("is_active", PBool true);
                                       ("name", PStr "Kettal");
                                       ("order", PNum 2)]]);
                        ("label", PStr "Vendor")]))].
Proof. reflexivity. Qed.

(** ** The contact person of a new customer *)

Lemma str_split_absent (sep : ascii) (s : string) :
  has_char sep s = false -> str_split sep s = [s].
Proof.
  induction s as [|c s IH]; simpl; intros H; auto.
  apply orb_false_iff in H. destruct H as [Hc Hs].
  rewrite Hc, (IH Hs). reflexivity.
Qed.

Lemma first_and_last_name_no_space (name : string) :
  has_char " " name = false -> first_and_last_name name = ("", name).
Proof.
  intros H. unfold first_and_last_name. now rewrite (str_split_absent _ _ H).
Qed.

Lemma url_neq (a b : string) : String.eqb a b = false -> a <> b.
Proof. apply String.eqb_neq. Qed.

Lemma customer_person_request (R : Runtime) email name company metadata
  billing shipping (w : World R) :
  emits (creates_person (fst (first_and_last_name name))
                        (snd (first_and_last_name name)) email)
    (get_or_create_customer R email name company metadata billing shipping) w.
Proof.
  set (P := creates_person _ _ _).
  assert (Hcalls : forall rq, calls R [customfields_url] false rq -> P rq).
  { intros rq [->|[H|[[_ H]|[_ [H|[]]]]]] Hv Hu; simpl in *;
      try congruence; exfalso; revert Hu; try rewrite <- H;
      now apply url_neq. }
  unfold get_or_create_customer.
  apply emits_bind.
  { eapply emits_weaken; [exact Hcalls | apply get_headers_calls]. }
  intros headers w1 _. apply emits_bind.
  { eapply emits_weaken; [exact Hcalls|].
    apply get_custom_field_id_calls. now left. }
  intros field_id w2 _.
  apply emits_bind; [apply emits_http; discriminate|].
  intros response w3 _.
  apply emits_bind; [apply emits_lift|]. intros contacts w4 _.
  destruct (truthy contacts).
  - repeat first [ apply emits_ret | apply emits_lift
                 | apply emits_http; discriminate
                 | apply emits_bind; [|intros ? ? _] ].
  - repeat (apply emits_bind; [apply emits_lift|]; intros ? ? _).
    apply emits_bind.
    { apply emits_http. intros _ Hu. exfalso. revert Hu. now apply url_neq. }
    intros created wa _.
    apply emits_bind; [apply emits_lift|]. intros contact wb _.
    subst P. destruct (first_and_last_name name) as [first last]. simpl.
    apply emits_bind; [apply emits_lift|]. intros contact_id wc _.
    apply emits_bind; [|intros; repeat journal_step].
    apply emits_http. intros _ _. now exists contact_id.
Qed.

(** C10. On the creation path of get_or_create_customer, a customer name
    without a space character gives a contact person whose first_name is the
    empty string and whose last_name is the whole name, dots included: the
    only POST to the contact-persons url carries exactly these fields. *)
Theorem contact_person_of_spaceless_name (R : Runtime) email name company
  metadata billing shipping (w : World R) (rq : request) :
  has_char " " name = false ->
  In rq (sent (get_or_create_customer R email name company metadata billing
                 shipping) w) ->
  req_verb rq = POST ->
  req_url rq = create_person_url ->
  first_and_last_name name = ("", name) /\
  exists contact_id,
    req_body rq =
    Json (PDict [("contact_id", contact_id);
                 ("first_name", PStr "");
                 ("last_name", PStr name);
                 ("email", PStr email)]).
Proof.
  intros Hname Hin Hverb Hurl.
  pose proof (first_and_last_name_no_space name Hname) as Hsplit.
  split; [exact Hsplit|].
  pose proof (emits_sent _ _ _ _
                (customer_person_request R email name company metadata
                   billing shipping w)) as Hall.
  rewrite Hsplit in Hall. simpl in Hall.
  rewrite Forall_forall in Hall.
  exact (Hall rq Hin Hverb Hurl).
Qed.

Lemma contact_person_of_spaceless_name_witness :
  first_and_last_name "j.doe" = ("", "j.doe") /\
  exists contact_id,
    req_body person_request =
    Json (PDict [("contact_id", contact_id);
                 ("first_name", PStr "");
                 ("last_name", PStr "j.doe");
                 ("email", PStr "j.doe@example.com")]).
Proof.
  apply (contact_person_of_spaceless_name (scripted no_orders)
           "j.doe@example.com" "j.doe" "Doe Design" []
           (Some an_address) (Some an_address) new_customer_world
           person_request).
  - reflexivity.
  - vm_compute. right. right. right. left. reflexivity.
  - reflexivity.
  - reflexivity.
Defined.

(** ** Attribute extraction *)

Lemma map_entry_nonempty (n : string) (ns : list string) :
  map_entry (n :: ns) = Ok (PStr n).
Proof. reflexivity. Qed.

(** C1. The extractor's map entry: a product attribute with the two values
    "red" and "blue" is stored as the scalar "red", not as the list of both
    names; whatever follows the first name is dropped, while the brand
    expression next to it keeps a list of two. *)
Theorem two_valued_attribute_is_collapsed :
  get_line_item_attributes_and_brand two_colors
    = Ok ([("color", PStr "red")], PNone) /\
  (forall n m rest, map_entry (n :: m :: rest) = Ok (PStr n)) /\
  brand_entry ["red"; "blue"] = Ok (PList [PStr "red"; PStr "blue"]).
Proof. repeat split. Qed.

(** ** Inverting a run *)

Section Runs.

Variable R : Runtime.

Lemma bind_ok {A B} (m : M R A) (k : A -> M R B) (w w' : World R) (b : B) :
  bind m k w = (Ok b, w') ->
  exists a w1, m w = (Ok a, w1) /\ k a w1 = (Ok b, w').
Proof.
  unfold bind. destruct (m w) as [[a|e] w1]; intros H.
  - eauto.
  - discriminate.
Qed.

Lemma lift_ok {A} (r : result A) (w w' : World R) (a : A) :
  lift r w = (Ok a, w') -> r = Ok a /\ w' = w.
Proof. unfold lift. intros H. now inversion H. Qed.

Lemma ret_ok {A} (a b : A) (w w' : World R) :
  ret a w = (Ok b, w') -> b = a /\ w' = w.
Proof. unfold ret. intros H. now inversion H. Qed.

Lemma emits_run {A} (P : request -> Prop) (m : M R A) (w w' : World R) r :
  emits P m w -> m w = (r, w') ->
  exists evs, journal w' = (journal w ++ evs)%list /\ Forall P evs.
Proof. intros (evs & Hj & HP) Hm. rewrite Hm in Hj. eauto. Qed.

Lemma sent_run {A} (m : M R A) (w w' : World R) r evs :
  m w = (r, w') -> journal w' = (journal w ++ evs)%list -> sent m w = evs.
Proof.
  intros Hm Hj. unfold sent. rewrite Hm. simpl. rewrite Hj.
  now rewrite skipn_app, skipn_all, Nat.sub_diag.
Qed.

Lemma confirm_ok order_id (w w' : World R) r :
  confirm R order_id w = (Ok r, w') -> exists response, r = success response.
Proof.
  unfold confirm. intros H.
  repeat (apply bind_ok in H; destruct H as (? & ? & _ & H)).
  apply ret_ok in H. destruct H as [-> _]. eauto.
Qed.

End Runs.

(** Equality with a string, decided by Python's [==]. *)
Lemma value_eqb_str (v : value) (s : string) :
  value_eqb v (PStr s) = true <-> v = PStr s.
Proof.
  destruct v; simpl; split; try discriminate; try congruence.
  - intros H. apply String.eqb_eq in H. now subst.
  - intros H. inversion H. apply String.eqb_refl.
Qed.

(** ** The task boundary *)

(** C4. For every order id, every runtime (database, clock, remote
    replies, raised exceptions included) and every starting world,
    post_confirm_order returns normally: its result is either the success
    dict with the estimate response or the error dict with the message and
    traceback of the exception that ended the try block. *)
Theorem post_confirm_order_never_raises (R : Runtime) (order_id : Z)
  (w : World R) :
  exists r w',
    post_confirm_order R order_id w = (Ok r, w') /\
    ((exists response,
        r = PDict [("status", PStr "success"); ("estimate_response", response)])
     \/
     (exists e,
        confirm R order_id w = (Raise e, w') /\
        r = PDict [("status", PStr "error");
                   ("message", PStr (exn_str R e));
                   ("traceback", PStr (format_exc R e))])).
Proof.
  unfold post_confirm_order, try_except.
  destruct (confirm R order_id w) as [[r|e] w'] eqn:H.
  - exists r, w'. split; [reflexivity|]. left.
    exact (confirm_ok R order_id w w' r H).
  - exists (failure R e), w'. split; [reflexivity|]. right.
    exists e. split; reflexivity.
Qed.

(** An order id the database does not know: [DoesNotExist] is raised before
    any request and comes back as the error dict. *)
Example unknown_order_is_reported :
  post_confirm_order (scripted one_order) 8 order_world
  = (Ok (PDict [("status", PStr "error");
                ("message", PStr (exn_str (scripted one_order) DoesNotExist));
                ("traceback",
                 PStr (format_exc (scripted one_order) DoesNotExist))]),
     order_world).
Proof. reflexivity. Qed.

(** ** Running one step *)

Section Steps.

Variable R : Runtime.

Lemma bind_run {A B} (m : M R A) (k : A -> M R B) (w w1 : World R) (a : A) :
  m w = (Ok a, w1) -> bind m k w = k a w1.
Proof. unfold bind. now intros ->. Qed.

Lemma http_run v u h b (w : World R) r e :
  send R {| req_verb := v; req_url := u; req_headers := h; req_body := b |}
       (env w) = (r, e) ->
  http R v u h b w
  = (r, answered R w
          {| req_verb := v; req_url := u; req_headers := h; req_body := b |} e).
Proof. unfold http. now intros ->. Qed.

Lemma get_headers_run (w w1 : World R) r :
  get_headers R w = (r, w1) ->
  exists evs, journal w1 = (journal w ++ evs)%list /\
              Forall (fun rq => rq = refresh_request R) evs.
Proof. apply emits_run, get_headers_emits. Qed.

End Steps.

(** After the headers, one request: the journal grows by the refresh, if
    any, and that request. *)
Lemma search_only_sent (R : Runtime) {A} (m : M R A) (w w1 : World R)
  headers r rq e (P : request -> Prop) :
  get_headers R w = (Ok headers, w1) ->
  m w = (r, answered R w1 rq e) ->
  P (refresh_request R) -> P rq ->
  Forall P (sent m w).
Proof.
  intros Hh Hm Hrefresh Hrq.
  destruct (get_headers_run R _ _ _ Hh) as (evs & Hj & Hevs).
  rewrite (sent_run R m w _ r (evs ++ [rq])%list Hm).
  - apply Forall_app. split.
    + eapply Forall_impl; [|exact Hevs]. now intros q ->.
    + constructor; auto.
  - simpl. rewrite Hj. now rewrite app_assoc.
Qed.

(** ** Reconciliation *)

Lemma no_invoices_run (R : Runtime) estimate_id (w w1 : World R) headers
  response e :
  get_headers R w = (Ok headers, w1) ->
  send R (get_request (retainer_search_url R estimate_id) headers) (env w1)
    = (Ok response, e) ->
  py_get response "retainerinvoices" (PList []) = Ok (PList []) ->
  update_retainer_invoice_payment_options R estimate_id w
  = (Ok no_retainer_invoices,
     answered R w1 (get_request (retainer_search_url R estimate_id) headers) e).
Proof.
  intros Hh Hs Hp. unfold update_retainer_invoice_payment_options.
  rewrite (bind_run R _ _ _ _ _ Hh).
  rewrite (bind_run R _ _ _ _ _ (http_run R _ _ _ _ _ _ _ Hs)).
  unfold bind, lift. rewrite Hp. reflexivity.
Qed.

Lemma undrawn_invoice_run (R : Runtime) estimate_id (w w1 : World R) headers
  response e first more invoice_id status :
  get_headers R w = (Ok headers, w1) ->
  send R (get_request (retainer_search_url R estimate_id) headers) (env w1)
    = (Ok response, e) ->
  py_get response "retainerinvoices" (PList []) = Ok (PList (first :: more)) ->
  subscript first "retainerinvoice_id" = Ok invoice_id ->
  subscript first "status" = Ok status ->
  status <> PStr "drawn" ->
  update_retainer_invoice_payment_options R estimate_id w
  = (Ok PNone,
     answered R w1 (get_request (retainer_search_url R estimate_id) headers) e).
Proof.
  intros Hh Hs Hp Hid Hst Hne.
  unfold update_retainer_invoice_payment_options.
  rewrite (bind_run R _ _ _ _ _ Hh).
  rewrite (bind_run R _ _ _ _ _ (http_run R _ _ _ _ _ _ _ Hs)).
  unfold bind, lift. rewrite Hp. simpl. rewrite Hid, Hst.
  destruct (value_eqb status (PStr "drawn")) eqn:E; [|reflexivity].
  apply value_eqb_str in E. contradiction.
Qed.

(** C7. When the retainer-invoice query for an estimate answers with an
    empty list, update_retainer_invoice_payment_options returns the dict
    {"error": "No retainer invoices found for this estimate."} without
    raising, and none of the requests it sent is a PUT. *)
Theorem no_retainer_invoice_is_a_soft_error (R : Runtime) estimate_id
  (w w1 : World R) headers response e :
  get_headers R w = (Ok headers, w1) ->
  send R (get_request (retainer_search_url R estimate_id) headers) (env w1)
    = (Ok response, e) ->
  py_get response "retainerinvoices" (PList []) = Ok (PList []) ->
  fst (update_retainer_invoice_payment_options R estimate_id w)
  = Ok (PDict [("error", PStr "No retainer invoices found for this estimate.")])
  /\
  Forall (fun rq => req_verb rq <> PUT)
    (sent (update_retainer_invoice_payment_options R estimate_id) w).
Proof.
  intros Hh Hs Hp.
  pose proof (no_invoices_run R estimate_id w w1 headers response e Hh Hs Hp)
    as Hrun.
  split.
  - now rewrite Hrun.
  - eapply search_only_sent; eauto; discriminate.
Qed.

Lemma no_retainer_invoice_is_a_soft_error_witness :
  fst (update_retainer_invoice_payment_options (scripted no_orders)
         (PStr "e1") no_invoices_world)
  = Ok (PDict [("error", PStr "No retainer invoices found for this estimate.")])
  /\
  Forall (fun rq => req_verb rq <> PUT)
    (sent (update_retainer_invoice_payment_options (scripted no_orders)
             (PStr "e1")) no_invoices_world).
Proof.
  apply (no_retainer_invoice_is_a_soft_error (scripted no_orders) (PStr "e1")
           no_invoices_world no_invoices_world auth
           (PDict [("retainerinvoices", PList [])]) (100, [])).
  - reflexivity.
  - reflexivity.
  - reflexivity.
Defined.

(** C8. When the first retainer invoice linked to an estimate has a status
    other than "drawn", update_retainer_invoice_payment_options returns
    [None] having sent no PUT, and the reconciliation loop goes on with the
    remaining accepted estimates from the world that call left. *)
Theorem undrawn_invoice_is_skipped (R : Runtime) estimate rest estimate_id
  (w w1 : World R) headers response e first more invoice_id status :
  subscript estimate "estimate_id" = Ok estimate_id ->
  get_headers R w = (Ok headers, w1) ->
  send R (get_request (retainer_search_url R estimate_id) headers) (env w1)
    = (Ok response, e) ->
  py_get response "retainerinvoices" (PList []) = Ok (PList (first :: more)) ->
  subscript first "retainerinvoice_id" = Ok invoice_id ->
  subscript first "status" = Ok status ->
  status <> PStr "drawn" ->
  let w2 :=
    answered R w1 (get_request (retainer_search_url R estimate_id) headers) e in
  update_retainer_invoice_payment_options R estimate_id w = (Ok PNone, w2) /\
  Forall (fun rq => req_verb rq <> PUT)
    (sent (update_retainer_invoice_payment_options R estimate_id) w) /\
  for_each_estimate R (estimate :: rest) w = for_each_estimate R rest w2.
Proof.
  intros Hid Hh Hs Hp Hinv Hst Hne w2.
  pose proof (undrawn_invoice_run R estimate_id w w1 headers response e first
                more invoice_id status Hh Hs Hp Hinv Hst Hne) as Hrun.
  split; [exact Hrun|split].
  - eapply search_only_sent; eauto; discriminate.
  - simpl. unfold bind at 1. unfold lift. rewrite Hid.
    now rewrite (bind_run R _ _ _ _ _ Hrun).
Qed.

Lemma undrawn_invoice_is_skipped_witness :
  update_retainer_invoice_payment_options (scripted no_orders) (PStr "e1")
    sent_invoice_world
  = (Ok PNone, next_estimate_world) /\
  Forall (fun rq => req_verb rq <> PUT)
    (sent (update_retainer_invoice_payment_options (scripted no_orders)
             (PStr "e1")) sent_invoice_world) /\
  for_each_estimate (scripted no_orders)
    [PDict [("estimate_id", PStr "e1")]; PDict [("estimate_id", PStr "e2")]]
    sent_invoice_world
  = for_each_estimate (scripted no_orders) [PDict [("estimate_id", PStr "e2")]]
      next_estimate_world.
Proof.
  apply (undrawn_invoice_is_skipped (scripted no_orders)
           (PDict [("estimate_id", PStr "e1")])
           [PDict [("estimate_id", PStr "e2")]] (PStr "e1")
           sent_invoice_world sent_invoice_world auth
           (PDict [("retainerinvoices", PList [sent_invoice])])
           (100, [Ok (PDict [("retainerinvoices", PList [])])])
           sent_invoice [] (PStr "r1") (PStr "sent")).
  - reflexivity.
  - reflexivity.
  - reflexivity.
  - reflexivity.
  - reflexivity.
  - reflexivity.
  - discriminate.
Defined.

(** ** The token cache *)

Section Token.

Variable R : Runtime.


Lemma refresh_granted (w : World R) response e token expires_in n now e' :
  send R (refresh_request R) (env w) = (Ok response, e) ->
  subscript response "access_token" = Ok token ->
  subscript response "expires_in" = Ok expires_in ->
  as_num expires_in = Some n ->
  clock R e = (now, e') ->
  refresh_access_token R w
  = (Ok token,
     Build_World R e'
       (Stored (PDict [("access_token", token);
                       ("expiry", PNum (now + n - 300))]))
       (journal w ++ [refresh_request R])%list).
Proof.
  intros Hs Htok Hexp Hnum Hclock. unfold refresh_access_token.
  rewrite (bind_run R _ _ _ _ _
             (http_run R POST token_url [] (Form (refresh_payload R)) w _ _ Hs)).
  assert (Hin : contains_str response "access_token" = Ok true).
  { destruct response; try discriminate. simpl in *. unfold dict_mem.
    now destruct (dict_get d "access_token"). }
  unfold bind, lift, time, write_token. rewrite Hin, Htok. simpl.
  rewrite Hclock, Hexp, Hnum. reflexivity.
Qed.

Lemma stale_record_refreshes (w : World R) e :
  needs_refresh R w e ->
  get_access_token R w
  = refresh_access_token R (Build_World R e (token_file w) (journal w)).
Proof.
  intros Hstale.
  destruct Hstale as [Hf|Hf|d expiry x now e' Hf He Hx Hc Hle];
    unfold get_access_token; destruct w as [e0 file j]; simpl in *; subst file.
  - reflexivity.
  - reflexivity.
  - unfold bind, time, lift. simpl. rewrite Hc. simpl. rewrite He, Hx.
    destruct (now <? x) eqn:E; [|reflexivity].
    apply Z.ltb_lt in E. lia.
Qed.

Lemma fresh_record_is_served (w : World R) d expiry x token now e :
  token_file w = Stored (PDict d) ->
  dict_get d "expiry" = Some expiry ->
  as_num expiry = Some x ->
  dict_get d "access_token" = Some token ->
  clock R (env w) = (now, e) ->
  now < x ->
  get_access_token R w = (Ok token, Build_World R e (token_file w) (journal w)).
Proof.
  intros Hf He Hx Ht Hc Hlt. unfold get_access_token.
  destruct w as [e0 file j]. simpl in *. subst file.
  unfold bind, time, lift. simpl. rewrite Hc. simpl. rewrite He, Hx.
  apply Z.ltb_lt in Hlt. rewrite Hlt, Ht. reflexivity.
Qed.

End Token.



(** ** Vendors *)

Lemma first_with_named (vendor_name : string) (cs : list value) :
  Forall listed_contact cs ->
  Exists (named vendor_name) cs ->
  exists c id,
    first_with "contact_name" (PStr vendor_name) cs = Ok c /\
    In c cs /\ named vendor_name c /\
    subscript c "contact_id" = Ok id /\ truthy c = true.
Proof.
  intros Hwf Hex. induction Hwf as [|c cs (n & i & Hn & Hi) Hwf IH].
  - inversion Hex.
  - simpl. rewrite Hn. simpl.
    destruct (value_eqb n (PStr vendor_name)) eqn:E.
    + apply value_eqb_str in E. subst n.
      exists c, i.
      split; [reflexivity|]. split; [now left|]. split; [exact Hn|].
      split; [exact Hi|].
      destruct c as [| | | | |d]; try discriminate.
      destruct d; [discriminate|reflexivity].
    + assert (Hrest : Exists (named vendor_name) cs).
      { inversion Hex as [? ? Hc|? ? Hc]; subst; auto.
        unfold named in Hc. rewrite Hn in Hc. inversion Hc. subst n.
        simpl in E. now rewrite String.eqb_refl in E. }
      destruct (IH Hrest) as (c' & id & Hf & Hin & Hnamed & Hid & Ht).
      exists c', id. split; [exact Hf|]. split; [now right|]. auto.
Qed.

Lemma vendor_found_run (R : Runtime) vendor_name (w w1 : World R) headers
  response e cs c id :
  get_headers R w = (Ok headers, w1) ->
  send R (get_request vendor_search_url headers) (env w1) = (Ok response, e) ->
  py_get response "contacts" (PList []) = Ok (PList cs) ->
  first_with "contact_name" vendor_name cs = Ok c ->
  truthy c = true ->
  subscript c "contact_id" = Ok id ->
  get_or_create_vendor R vendor_name w
  = (Ok id, answered R w1 (get_request vendor_search_url headers) e).
Proof.
  intros Hh Hs Hp Hf Ht Hid. unfold get_or_create_vendor.
  rewrite (bind_run R _ _ _ _ _ Hh).
  rewrite (bind_run R _ _ _ _ _ (http_run R _ _ _ _ _ _ _ Hs)).
  unfold bind, lift. rewrite Hp. simpl. rewrite Hf, Ht, Hid. reflexivity.
Qed.

(** C3. When the vendor listing of the remote holds a contact with exactly
    the given name, and answers the same both times, two calls of
    get_or_create_vendor in a row return one and the same contact
    identifier, that of a listed contact with this name, and neither call
    sends a POST to the contacts collection. *)
Theorem get_or_create_vendor_twice (R : Runtime) (vendor_name : string)
  (w w1 w3 : World R) h1 h2 response e1 e2 cs :
  py_get response "contacts" (PList []) = Ok (PList cs) ->
  Forall listed_contact cs ->
  Exists (named vendor_name) cs ->
  get_headers R w = (Ok h1, w1) ->
  send R (get_request vendor_search_url h1) (env w1) = (Ok response, e1) ->
  get_headers R (answered R w1 (get_request vendor_search_url h1) e1)
    = (Ok h2, w3) ->
  send R (get_request vendor_search_url h2) (env w3) = (Ok response, e2) ->
  exists id,
    get_or_create_vendor R (PStr vendor_name) w
    = (Ok id, answered R w1 (get_request vendor_search_url h1) e1) /\
    get_or_create_vendor R (PStr vendor_name)
      (answered R w1 (get_request vendor_search_url h1) e1)
    = (Ok id, answered R w3 (get_request vendor_search_url h2) e2) /\
    (exists c, In c cs /\ named vendor_name c /\
               subscript c "contact_id" = Ok id) /\
    Forall (fun rq => ~ creates_contact rq)
      (sent (get_or_create_vendor R (PStr vendor_name)) w) /\
    Forall (fun rq => ~ creates_contact rq)
      (sent (get_or_create_vendor R (PStr vendor_name))
         (answered R w1 (get_request vendor_search_url h1) e1)).
Proof.
  intros Hp Hwf Hex Hh1 Hs1 Hh2 Hs2.
  destruct (first_with_named vendor_name cs Hwf Hex)
    as (c & id & Hf & Hin & Hnamed & Hid & Ht).
  pose proof (vendor_found_run R (PStr vendor_name) w w1 h1 response e1 cs c id
                Hh1 Hs1 Hp Hf Ht Hid) as Hrun1.
  pose proof (vendor_found_run R (PStr vendor_name) _ w3 h2 response e2 cs c id
                Hh2 Hs2 Hp Hf Ht Hid) as Hrun2.
  assert (Hrefresh : ~ creates_contact (refresh_request R)).
  { intros [_ Hu]. revert Hu. now apply url_neq. }
  assert (Hget : forall h, ~ creates_contact (get_request vendor_search_url h)).
  { intros h [Hv _]. discriminate. }
  exists id. split; [exact Hrun1|]. split; [exact Hrun2|].
  split; [now exists c|]. split.
  - exact (search_only_sent R _ w w1 h1 _ _ e1 _ Hh1 Hrun1 Hrefresh (Hget h1)).
  - exact (search_only_sent R _ _ w3 h2 _ _ e2 _ Hh2 Hrun2 Hrefresh (Hget h2)).
Qed.

Lemma get_or_create_vendor_twice_witness :
  exists id,
    get_or_create_vendor (scripted no_orders) (PStr "Kettal") vendor_world
    = (Ok id,
       answered (scripted no_orders) vendor_world
         (get_request vendor_search_url auth) (100, [Ok vendor_listing])) /\
    get_or_create_vendor (scripted no_orders) (PStr "Kettal")
      (answered (scripted no_orders) vendor_world
         (get_request vendor_search_url auth) (100, [Ok vendor_listing]))
    = (Ok id,
       answered (scripted no_orders)
         (answered (scripted no_orders) vendor_world
            (get_request vendor_search_url auth) (100, [Ok vendor_listing]))
         (get_request vendor_search_url auth) (100, [])) /\
    (exists c,
        In c [PDict [("contact_name", PStr "Acme"); ("contact_id", PStr "v1")];
              PDict [("contact_name", PStr "Kettal"); ("contact_id", PStr "v2")]]
        /\ named "Kettal" c /\ subscript c "contact_id" = Ok id) /\
    Forall (fun rq => ~ creates_contact rq)
      (sent (get_or_create_vendor (scripted no_orders) (PStr "Kettal"))
         vendor_world) /\
    Forall (fun rq => ~ creates_contact rq)
      (sent (get_or_create_vendor (scripted no_orders) (PStr "Kettal"))
         (answered (scripted no_orders) vendor_world
            (get_request vendor_search_url auth) (100, [Ok vendor_listing]))).
Proof.
  apply (get_or_create_vendor_twice (scripted no_orders) "Kettal" vendor_world
           vendor_world
           (answered (scripted no_orders) vendor_world
              (get_request vendor_search_url auth) (100, [Ok vendor_listing]))
           auth auth vendor_listing (100, [Ok vendor_listing]) (100, [])).
  - reflexivity.
  - repeat constructor; repeat eexists; reflexivity.
  - apply Exists_cons_tl. apply Exists_cons_hd. reflexivity.
  - reflexivity.
  - reflexivity.
  - reflexivity.
  - reflexivity.
Defined.

(** ** Items *)

Lemma item_found_run (R : Runtime) sku name price cost description category
  vendor attributes (w w1 : World R) headers response e found first rest id :
  get_headers R w = (Ok headers, w1) ->
  send R (get_request (item_search_url R sku) headers) (env w1)
    = (Ok response, e) ->
  response = PDict found ->
  dict_get found "items" = Some (PList (first :: rest)) ->
  subscript first "item_id" = Ok id ->
  get_or_create_item R sku name price cost description category vendor
    attributes w
  = (Ok id, answered R w1 (get_request (item_search_url R sku) headers) e).
Proof.
  intros Hh Hs -> Hitems Hid. unfold get_or_create_item.
  rewrite (bind_run R _ _ _ _ _ Hh).
  rewrite (bind_run R _ _ _ _ _ (http_run R _ _ _ _ _ _ _ Hs)).
  unfold bind, lift, py_get, subscript at 1. rewrite Hitems.
  cbn [truthy item0 rbind]. rewrite Hid. reflexivity.
Qed.

(** C6. There are two distinct SKUs, "AB" a prefix of "ABC", such that
    with a remote catalogue holding one item, of SKU "ABC", and a search
    that matches by substring, get_or_create_item called with "AB" returns
    that item's identifier and sends no POST to the items collection: no
    item of SKU "AB" is created. *)
Theorem sku_prefix_collides :
  exists short long id,
    short <> long /\
    prefixb short long = true /\
    forall name price cost description category vendor attributes,
      let R := catalog_runtime [{| remote_item_id := id; remote_sku := long |}] in
      let w := Build_World R tt NoFile [] in
      fst (get_or_create_item R (PStr short) name price cost description
             category vendor attributes w) = Ok (PStr id) /\
      Forall (fun rq => ~ creates_item rq)
        (sent (get_or_create_item R (PStr short) name price cost description
                 category vendor attributes) w).
Proof.
  exists "AB", "ABC", "item-77".
  split; [discriminate|]. split; [reflexivity|].
  intros name price cost description category vendor attributes R w.
  assert (Hh : get_headers R w
               = (Ok [("Authorization", PStr "Zoho-oauthtoken tok")],
                  Build_World R tt (cached "tok" (0 + 3600 - 300))
                    [refresh_request R])) by reflexivity.
  pose proof (item_found_run R (PStr "AB") name price cost description category
                vendor attributes w _ _ _ tt _ _ [] (PStr "item-77") Hh
                eq_refl eq_refl eq_refl eq_refl) as Hrun.
  split.
  - now rewrite Hrun.
  - eapply search_only_sent; [exact Hh | exact Hrun | |].
    + intros [_ Hu]. revert Hu. now apply url_neq.
    + intros [Hv _]. discriminate.
Qed.

(** ** One estimate per confirmed order *)

Section Estimate.

Variable R : Runtime.

Lemma filter_none {A} (f : A -> bool) (l : list A) :
  Forall (fun x => f x = false) l -> filter f l = [].
Proof.
  induction 1 as [|x l Hx _ IH]; simpl; auto. now rewrite Hx.
Qed.

Lemma calls_not_estimate puts rq :
  calls R client_posts puts rq -> is_estimate_creation rq = false.
Proof.
  unfold is_estimate_creation.
  intros [->|[H|[[H _]|[H Hin]]]]; try (rewrite H); try reflexivity.
  simpl in Hin.
  destruct Hin as [<-|[<-|[<-|[<-|[]]]]]; reflexivity.
Qed.

Lemma resolve_line_ok order line (w1 w2 : World R) item :
  resolve_line R order line w1 = (Ok item, w2) -> item_of R line item.
Proof.
  unfold resolve_line. intros H.
  apply bind_ok in H. destruct H as (listings & wa & _ & H).
  apply bind_ok in H. destruct H as (listing & wb & _ & H).
  apply bind_ok in H. destruct H as (category & wc & _ & H).
  apply bind_ok in H. destruct H as (extracted & wd & Hext & H).
  apply lift_ok in Hext. destruct Hext as [Hext ->].
  apply bind_ok in H. destruct H as (item_id & we & Hitem & H).
  apply ret_ok in H. destruct H as [-> ->].
  unfold item_of. eauto 10.
Qed.

Lemma resolve_lines_ok order todo : forall acc (w1 w2 : World R) items,
  resolve_lines R order todo acc w1 = (Ok items, w2) ->
  exists entries,
    items = (acc ++ entries)%list /\ Forall2 (item_of R) todo entries.
Proof.
  induction todo as [|line rest IH]; intros acc w1 w2 items H; simpl in H.
  - apply ret_ok in H. destruct H as [-> _].
    exists []. rewrite app_nil_r. split; [reflexivity|constructor].
  - apply bind_ok in H. destruct H as (item & wa & Hline & H).
    apply IH in H. destruct H as (entries & -> & Hall).
    exists (item :: entries). rewrite <- app_assoc. split; [reflexivity|].
    constructor; auto. exact (resolve_line_ok order line w1 wa item Hline).
Qed.

Lemma line_items_ok todo entries :
  Forall2 (item_of R) todo entries ->
  exists line_items,
    map_result line_item entries = Ok line_items /\
    Forall2 (resolved_as R) todo line_items.
Proof.
  induction 1 as [|line item todo entries Hitem _ (line_items & Hmap & Hall)].
  - exists []. split; [reflexivity|constructor].
  - pose proof Hitem as Hitem'.
    destruct Hitem'
      as (cost & category & extracted & item_id & wa & wb & _ & _ & Heq).
    exists (PDict [("item_id", item_id);
                   ("rate", PNum (unit_price_gross_amount line));
                   ("quantity", PNum (quantity line));
                   ("tax_id", PStr "")] :: line_items).
    split.
    + simpl. rewrite Hmap. subst item. reflexivity.
    + constructor; auto.
      exists item, item_id. split; [exact Hitem|]. subst item. now split.
Qed.

Lemma create_estimate_ok customer_id items contact_id (w1 w2 : World R)
  response :
  create_estimate R customer_id items contact_id true PNone w1
    = (Ok response, w2) ->
  exists evs headers line_items custom_fields date,
    map_result line_item items = Ok line_items /\
    Forall (calls R client_posts false) evs /\
    journal w2
    = (journal w1 ++ evs ++
       [{| req_verb := POST;
           req_url := estimate_create_url true;
           req_headers := headers;
           req_body :=
             Data (PDict [("customer_id", customer_id);
                          ("contact_persons", PList [contact_id]);
                          ("date", PStr date);
                          ("line_items", PList line_items);
                          ("accept_retainer", PBool true);
                          ("retainer_percentage", PNum 50);
                          ("payment_options", zoho_payments);
                          ("salesperson_name", PStr "Paul Patterson");
                          ("custom_fields", PList custom_fields)]) |}])%list.
Proof.
  unfold create_estimate. intros H.
  apply bind_ok in H. destruct H as (headers & wa & Hh & H).
  apply bind_ok in H. destruct H as (line_items & wb & Hl & H).
  apply lift_ok in Hl. destruct Hl as [Hl ->].
  apply bind_ok in H. destruct H as (custom_fields & wc & Hc & H).
  apply bind_ok in H. destruct H as (date & wd & Hd & H).
  unfold date_today in Hd. inversion Hd. subst wd.
  destruct (emits_run R _ _ _ _ _ (get_headers_calls R client_posts false w1) Hh)
    as (evs1 & Hj1 & Hevs1).
  assert (Hcf : In customfields_url client_posts) by now left.
  destruct (emits_run R _ _ _ _ _
              (estimate_custom_fields_calls R client_posts false _ _ wa Hcf) Hc)
    as (evs2 & Hj2 & Hevs2).
  cbn [truthy] in H. unfold http in H.
  destruct (send R _ (env wc)) as [r e]. inversion H. subst r w2.
  exists (evs1 ++ evs2)%list, headers, line_items, custom_fields, date.
  split; [exact Hl|]. split; [now apply Forall_app|].
  cbn [journal]. rewrite Hj2, Hj1, <- !app_assoc. reflexivity.
Qed.

End Estimate.


(** Read backwards: a success result means the order was found and exactly
    one estimate was posted for its lines. *)
Lemma success_means_one_estimate (R : Runtime) (order_id : Z)
  (w w' : World R) (response : value) :
  post_confirm_order R order_id w = (Ok (success response), w') ->
  exists order headers payload line_items,
    orders R order_id = Some order /\
    filter is_estimate_creation (sent (post_confirm_order R order_id) w)
    = [{| req_verb := POST;
          req_url := estimate_create_url true;
          req_headers := headers;
          req_body := Data (PDict payload) |}] /\
    dict_get payload "retainer_percentage" = Some (PNum 50) /\
    dict_get payload "line_items" = Some (PList line_items) /\
    List.length line_items = List.length (lines order) /\
    Forall2 (resolved_as R) (lines order) line_items.
Proof.
  intros Hpost. pose proof Hpost as H.
  unfold post_confirm_order, try_except in H.
  destruct (confirm R order_id w) as [[r|e] w1] eqn:Hc; [|discriminate H].
  inversion H. subst r w1. clear H.
  unfold confirm in Hc.
  apply bind_ok in Hc. destruct Hc as (order & w0 & Ho & Hc).
  apply lift_ok in Ho. destruct Ho as [Ho ->].
  destruct (orders R order_id) as [o|] eqn:Horder; [|discriminate Ho].
  inversion Ho. subst o. clear Ho.
  apply bind_ok in Hc. destruct Hc as (customer_email & w0 & Hl & Hc).
  apply lift_ok in Hl. destruct Hl as [_ ->].
  apply bind_ok in Hc. destruct Hc as (customer_name & w0 & Hl & Hc).
  apply lift_ok in Hl. destruct Hl as [_ ->].
  apply bind_ok in Hc. destruct Hc as (company & w0 & Hl & Hc).
  apply lift_ok in Hl. destruct Hl as [_ ->].
  apply bind_ok in Hc. destruct Hc as (customer_metadata & w0 & Hl & Hc).
  apply lift_ok in Hl. destruct Hl as [_ ->].
  apply bind_ok in Hc. destruct Hc as (billing & w0 & Hl & Hc).
  apply lift_ok in Hl. destruct Hl as [_ ->].
  apply bind_ok in Hc. destruct Hc as (shipping & w0 & Hl & Hc).
  apply lift_ok in Hl. destruct Hl as [_ ->].
  apply bind_ok in Hc. destruct Hc as (resolved & wc & Hcustomer & Hc).
  apply bind_ok in Hc. destruct Hc as (customer_id & w0 & Hl & Hc).
  apply lift_ok in Hl. destruct Hl as [_ ->].
  apply bind_ok in Hc. destruct Hc as (contact_id & w0 & Hl & Hc).
  apply lift_ok in Hl. destruct Hl as [_ ->].
  apply bind_ok in Hc. destruct Hc as (items & wl & Hlines & Hc).
  apply bind_ok in Hc. destruct Hc as (reply & we & Hestimate & Hc).
  apply ret_ok in Hc. destruct Hc as [_ ->].
  assert (Hcf : In customfields_url client_posts) by now left.
  assert (Hct : In contacts_url client_posts) by (right; now left).
  assert (Hcp : In create_person_url client_posts) by (right; right; now left).
  assert (Hit : In items_url client_posts) by (right; right; right; now left).
  destruct (emits_run R _ _ _ _ _
              (get_or_create_customer_calls R client_posts true _ _ _ _ _ _ w
                 Hcf Hct Hcp) Hcustomer) as (evs1 & Hj1 & Hevs1).
  destruct (emits_run R _ _ _ _ _
              (resolve_lines_calls R client_posts _ _ _ wc Hcf Hct Hit) Hlines)
    as (evs2 & Hj2 & Hevs2).
  destruct (create_estimate_ok R _ _ _ _ _ _ Hestimate)
    as (evs3 & headers & line_items & custom_fields & date & Hmap & Hevs3 & Hj3).
  destruct (resolve_lines_ok R _ _ _ _ _ _ Hlines) as (entries & Hitems & Hall).
  simpl in Hitems. subst items.
  destruct (line_items_ok R _ _ Hall) as (line_items' & Hmap' & Hresolved).
  rewrite Hmap' in Hmap. inversion Hmap. subst line_items'. clear Hmap.
  exists order, headers.
  eexists. exists line_items.
  split; [reflexivity|]. split; [|split; [|split; [|split]]].
  - match type of Hj3 with
    | _ = (_ ++ _ ++ [?rq])%list =>
        rewrite (sent_run R _ w we _ (evs1 ++ evs2 ++ evs3 ++ [rq])%list Hpost)
    end.
    + rewrite !filter_app.
      rewrite (filter_none _ evs1), (filter_none _ evs2), (filter_none _ evs3).
      * reflexivity.
      * eapply Forall_impl; [|exact Hevs3]. apply calls_not_estimate.
      * eapply Forall_impl; [|exact Hevs2]. apply calls_not_estimate.
      * eapply Forall_impl; [|exact Hevs1]. apply calls_not_estimate.
    + rewrite Hj3, Hj2, Hj1, <- !app_assoc. reflexivity.
  - reflexivity.
  - reflexivity.
  - symmetry. exact (Forall2_length Hresolved).
  - exact Hresolved.
Qed.


(** * Further properties of the client and the tasks *)

Section MoreRuns.

Variable R : Runtime.

Lemma bind_raise {A B} (m : M R A) (k : A -> M R B) (w w1 : World R) e :
  m w = (Raise e, w1) -> bind m k w = (Raise e, w1).
Proof. unfold bind. now intros ->. Qed.

Lemma bind_lift_ok {A B} (r : result A) (a : A) (k : A -> M R B) (w : World R) :
  r = Ok a -> bind (lift r) k w = k a w.
Proof. intros ->. reflexivity. Qed.

Lemma bind_lift_raise {A B} (r : result A) e (k : A -> M R B) (w : World R) :
  r = Raise e -> bind (lift r) k w = (Raise e, w).
Proof. intros ->. reflexivity. Qed.

(** What was sent when the headers were obtained in [w1] and the journal
    then grew by [tail]. *)
Lemma after_headers_sent {A} (m : M R A) (w w1 w' : World R) headers r tail :
  get_headers R w = (Ok headers, w1) ->
  m w = (r, w') ->
  journal w' = (journal w1 ++ tail)%list ->
  exists evs,
    sent m w = (evs ++ tail)%list /\
    Forall (fun rq => rq = refresh_request R) evs.
Proof.
  intros Hh Hm Hj.
  destruct (get_headers_run R _ _ _ Hh) as (evs & Hj1 & Hevs).
  exists evs. split; [|exact Hevs].
  apply (sent_run R m w w' r _ Hm). rewrite Hj, Hj1, app_assoc. reflexivity.
Qed.

End MoreRuns.

(** ** The token cache: refusals, malformed records, reuse *)



(** X2. A token file that decodes to a JSON object without the key
    "expiry" is not treated as unreadable: get_access_token raises
    KeyError('expiry') and sends no refresh request. *)
Theorem record_without_expiry_raises (R : Runtime) (w : World R) d now e :
  token_file w = Stored (PDict d) ->
  dict_get d "expiry" = None ->
  clock R (env w) = (now, e) ->
  get_access_token R w
  = (Raise (KeyError "expiry"), Build_World R e (token_file w) (journal w)) /\
  sent (get_access_token R) w = [].
Proof.
  intros Hf Hnone Hc.
  assert (Hrun : get_access_token R w
                 = (Raise (KeyError "expiry"),
                    Build_World R e (token_file w) (journal w))).
  { unfold get_access_token. destruct w as [e0 file j]. simpl in *. subst file.
    unfold bind, time, lift. simpl. rewrite Hc. simpl. rewrite Hnone.
    reflexivity. }
  split; [exact Hrun|].
  apply (sent_run R _ w _ _ [] Hrun). simpl. now rewrite app_nil_r.
Qed.

Lemma record_without_expiry_raises_witness :
  get_access_token (scripted no_orders) no_expiry_world
  = (Raise (KeyError "expiry"), no_expiry_world) /\
  sent (get_access_token (scripted no_orders)) no_expiry_world = [].
Proof.
  apply (record_without_expiry_raises (scripted no_orders) no_expiry_world
           [("access_token", PStr "tok")] 100 (100, [])); reflexivity.
Defined.

(** X3. A granted refresh is reused: the call that follows it, made while
    the clock is still before now + expires_in - 300, returns the same token
    from the file and sends nothing. *)
Theorem refreshed_token_is_served_next (R : Runtime) (w : World R) e0 response
  e1 token expires_in n now e2 later e3 :
  needs_refresh R w e0 ->
  send R (refresh_request R) e0 = (Ok response, e1) ->
  subscript response "access_token" = Ok token ->
  subscript response "expires_in" = Ok expires_in ->
  as_num expires_in = Some n ->
  clock R e1 = (now, e2) ->
  clock R e2 = (later, e3) ->
  later < now + n - 300 ->
  exists w1,
    get_access_token R w = (Ok token, w1) /\
    get_access_token R w1
    = (Ok token, Build_World R e3 (token_file w1) (journal w1)) /\
    sent (get_access_token R) w1 = [].
Proof.
  intros Hstale Hs Htok Hexp Hnum Hc1 Hc2 Hlt.
  pose proof (refresh_granted R (Build_World R e0 (token_file w) (journal w))
                response e1 token expires_in n now e2 Hs Htok Hexp Hnum Hc1)
    as Hfirst.
  rewrite <- (stale_record_refreshes R w e0 Hstale) in Hfirst.
  eexists. split; [exact Hfirst|].
  match goal with
  | |- get_access_token R ?w1 = _ /\ _ =>
      pose proof (fresh_record_is_served R w1
                    [("access_token", token); ("expiry", PNum (now + n - 300))]
                    (PNum (now + n - 300)) (now + n - 300) token later e3
                    eq_refl eq_refl eq_refl eq_refl Hc2 Hlt) as Hsecond
  end.
  split; [exact Hsecond|].
  apply (sent_run R _ _ _ _ [] Hsecond). simpl. now rewrite app_nil_r.
Qed.

Lemma refreshed_token_is_served_next_witness :
  exists w1,
    get_access_token (scripted no_orders) expired_world = (Ok (PStr "new"), w1) /\
    get_access_token (scripted no_orders) w1
    = (Ok (PStr "new"),
       Build_World (scripted no_orders) (100, []) (token_file w1) (journal w1)) /\
    sent (get_access_token (scripted no_orders)) w1 = [].
Proof.
  apply (refreshed_token_is_served_next (scripted no_orders) expired_world
           (100, [Ok (grant "new" 3600)]) (grant "new" 3600) (100, [])
           (PStr "new") (PNum 3600) 3600 100 (100, []) 100 (100, [])).
  - apply (expired (scripted no_orders) expired_world
             [("access_token", PStr "old"); ("expiry", PNum 100)]
             (PNum 100) 100 100); reflexivity.
  - reflexivity.
  - reflexivity.
  - reflexivity.
  - reflexivity.
  - reflexivity.
  - reflexivity.
  - reflexivity.
Defined.

(** ** Custom fields *)

Lemma subscript_py_get (v : value) (k : string) (x default : value) :
  subscript v k = Ok x -> py_get v k default = Ok x.
Proof.
  destruct v; try discriminate. simpl.
  destruct (dict_get d k); [now intros H; inversion H|discriminate].
Qed.

Lemma value_eqb_str_false (v : value) (s : string) :
  v <> PStr s -> value_eqb v (PStr s) = false.
Proof.
  intros Hne. destruct (value_eqb v (PStr s)) eqn:E; [|reflexivity].
  apply value_eqb_str in E. contradiction.
Qed.

Lemma find_field_first (field_label : string) before field after id :
  Forall (other_field field_label) before ->
  subscript field "label" = Ok (PStr field_label) ->
  subscript field "customfield_id" = Ok id ->
  find_field field_label (before ++ field :: after) = Ok (Some id).
Proof.
  intros Hbefore Hl Hid.
  induction Hbefore as [|f before (l & Hfl & Hne) _ IH]; simpl.
  - rewrite Hl. simpl. rewrite String.eqb_refl, Hid. reflexivity.
  - rewrite Hfl. simpl. rewrite (value_eqb_str_false l field_label Hne).
    exact IH.
Qed.

Lemma find_field_none (field_label : string) fields :
  Forall (other_field field_label) fields ->
  find_field field_label fields = Ok None.
Proof.
  induction 1 as [|f fields (l & Hfl & Hne) _ IH]; simpl; [reflexivity|].
  rewrite Hfl. simpl. now rewrite (value_eqb_str_false l field_label Hne).
Qed.

(** X4. get_custom_field_id returns the identifier of the first listed
    field of the module whose label equals the wanted one, later fields
    with the same label notwithstanding, and sends no POST to the custom
    fields collection. *)
Theorem listed_field_is_not_created (R : Runtime) field_label module
  (w w1 : World R) headers response e customfields before field after id :
  get_headers R w = (Ok headers, w1) ->
  send R (get_request (customfields_url ++ "&module=" ++ module) headers)
       (env w1) = (Ok response, e) ->
  subscript response "customfields" = Ok customfields ->
  subscript customfields module = Ok (PList (before ++ field :: after)) ->
  Forall (other_field field_label) before ->
  subscript field "label" = Ok (PStr field_label) ->
  subscript field "customfield_id" = Ok id ->
  get_custom_field_id R field_label module w
  = (Ok id,
     answered R w1
       (get_request (customfields_url ++ "&module=" ++ module) headers) e) /\
  Forall (fun rq => ~ creates_field rq)
    (sent (get_custom_field_id R field_label module) w).
Proof.
  intros Hh Hs Hcf Hm Hbefore Hl Hid.
  assert (Hrun : get_custom_field_id R field_label module w
                 = (Ok id,
                    answered R w1
                      (get_request (customfields_url ++ "&module=" ++ module)
                         headers) e)).
  { unfold get_custom_field_id.
    rewrite (bind_run R _ _ _ _ _ Hh).
    rewrite (bind_run R _ _ _ _ _ (http_run R _ _ _ _ _ _ _ Hs)).
    rewrite (bind_lift_ok R _ _ _ _ (subscript_py_get _ _ _ _ Hcf)).
    rewrite (bind_lift_ok R _ _ _ _ (subscript_py_get _ _ _ _ Hm)).
    rewrite (bind_lift_ok R _ (before ++ field :: after)%list _ _ eq_refl).
    rewrite (bind_lift_ok R _ _ _ _
               (find_field_first field_label before field after id
                  Hbefore Hl Hid)).
    reflexivity. }
  split; [exact Hrun|].
  eapply search_only_sent; [exact Hh | exact Hrun | |].
  - intros [_ Hu]. revert Hu. now apply url_neq.
  - intros [Hv _]. discriminate.
Qed.

Lemma listed_field_is_not_created_witness :
  get_custom_field_id (scripted no_orders) "Vendor" "item" item_fields_world
  = (Ok (PStr "f9"),
     answered (scripted no_orders) item_fields_world
       (get_request (customfields_url ++ "&module=" ++ "item") auth)
       (100, [Ok (PDict [("code", PNum 0)])])) /\
  Forall (fun rq => ~ creates_field rq)
    (sent (get_custom_field_id (scripted no_orders) "Vendor" "item")
       item_fields_world).
Proof.
  apply (listed_field_is_not_created (scripted no_orders) "Vendor" "item"
           item_fields_world item_fields_world auth item_fields
           (100, [Ok (PDict [("code", PNum 0)])])
           (PDict [("item",
                    PList [PDict [("label", PStr "Category");
                                  ("customfield_id", PStr "f7")];
                           PDict [("label", PStr "Vendor");
                                  ("customfield_id", PStr "f9")];
                           PDict [("label", PStr "Vendor");
                                  ("customfield_id", PStr "f10")]])])
           [PDict [("label", PStr "Category"); ("customfield_id", PStr "f7")]]
           (PDict [("label", PStr "Vendor"); ("customfield_id", PStr "f9")])
           [PDict [("label", PStr "Vendor"); ("customfield_id", PStr "f10")]]
           (PStr "f9")).
  - reflexivity.
  - reflexivity.
  - reflexivity.
  - reflexivity.
  - constructor; [|constructor].
    exists (PStr "Category"). split; [reflexivity|discriminate].
  - reflexivity.
  - reflexivity.
Defined.

(** X5. When the answer to the field listing has no entry for the asked
    module (the key is missing under "customfields", or "customfields"
    itself is missing), get_custom_field_id raises TypeError: iterating
    [None] fails before create_custom_field is reached, and nothing is
    posted. *)
Theorem unlisted_module_raises (R : Runtime) field_label module
  (w w1 : World R) headers response e customfields :
  get_headers R w = (Ok headers, w1) ->
  send R (get_request (customfields_url ++ "&module=" ++ module) headers)
       (env w1) = (Ok response, e) ->
  py_get response "customfields" (PDict []) = Ok (PDict customfields) ->
  dict_get customfields module = None ->
  get_custom_field_id R field_label module w
  = (Raise TypeError,
     answered R w1
       (get_request (customfields_url ++ "&module=" ++ module) headers) e) /\
  Forall (fun rq => ~ creates_field rq)
    (sent (get_custom_field_id R field_label module) w).
Proof.
  intros Hh Hs Hcf Hnone.
  assert (Hrun : get_custom_field_id R field_label module w
                 = (Raise TypeError,
                    answered R w1
                      (get_request (customfields_url ++ "&module=" ++ module)
                         headers) e)).
  { unfold get_custom_field_id.
    rewrite (bind_run R _ _ _ _ _ Hh).
    rewrite (bind_run R _ _ _ _ _ (http_run R _ _ _ _ _ _ _ Hs)).
    rewrite (bind_lift_ok R _ _ _ _ Hcf).
    unfold py_get. rewrite Hnone. reflexivity. }
  split; [exact Hrun|].
  eapply search_only_sent; [exact Hh | exact Hrun | |].
  - intros [_ Hu]. revert Hu. now apply url_neq.
  - intros [Hv _]. discriminate.
Qed.

Lemma unlisted_module_raises_witness :
  get_custom_field_id (scripted no_orders) "Sidemark" "estimate"
    no_estimate_fields_world
  = (Raise TypeError,
     answered (scripted no_orders) no_estimate_fields_world
       (get_request (customfields_url ++ "&module=" ++ "estimate") auth)
       (100, [Ok (PDict [("code", PNum 0)])])) /\
  Forall (fun rq => ~ creates_field rq)
    (sent (get_custom_field_id (scripted no_orders) "Sidemark" "estimate")
       no_estimate_fields_world).
Proof.
  apply (unlisted_module_raises (scripted no_orders) "Sidemark" "estimate"
           no_estimate_fields_world no_estimate_fields_world auth
           (PDict [("customfields", PDict [("item", PList [])])])
           (100, [Ok (PDict [("code", PNum 0)])])
           [("item", PList [])]); reflexivity.
Defined.

(** X6. When no listed field of the module has the wanted label,
    get_custom_field_id posts one creation request, whose body is
    {module, custom_field_name, data_type: "string", is_active: true}, and
    returns the customfield_id of the answer; an answer without that
    identifier gives [None], not an exception. *)
Theorem unlisted_field_is_created (R : Runtime) field_label module
  (w w1 w3 : World R) h1 h2 response e1 customfields fields reply e2
  customfield :
  get_headers R w = (Ok h1, w1) ->
  send R (get_request (customfields_url ++ "&module=" ++ module) h1) (env w1)
    = (Ok response, e1) ->
  subscript response "customfields" = Ok customfields ->
  subscript customfields module = Ok (PList fields) ->
  Forall (other_field field_label) fields ->
  get_headers R
    (answered R w1 (get_request (customfields_url ++ "&module=" ++ module) h1)
       e1) = (Ok h2, w3) ->
  send R {| req_verb := POST; req_url := customfields_url; req_headers := h2;
            req_body := Json (new_field_payload field_label module) |}
       (env w3) = (Ok reply, e2) ->
  py_get reply "customfield" (PDict []) = Ok (PDict customfield) ->
  get_custom_field_id R field_label module w
  = (Ok (match dict_get customfield "customfield_id" with
         | Some id => id
         | None => PNone
         end),
     answered R w3
       {| req_verb := POST; req_url := customfields_url; req_headers := h2;
          req_body := Json (new_field_payload field_label module) |} e2).
Proof.
  intros Hh1 Hs1 Hcf Hm Hnone Hh2 Hs2 Hreply.
  unfold get_custom_field_id.
  rewrite (bind_run R _ _ _ _ _ Hh1).
  rewrite (bind_run R _ _ _ _ _ (http_run R _ _ _ _ _ _ _ Hs1)).
  rewrite (bind_lift_ok R _ _ _ _ (subscript_py_get _ _ _ _ Hcf)).
  rewrite (bind_lift_ok R _ _ _ _ (subscript_py_get _ _ _ _ Hm)).
  rewrite (bind_lift_ok R _ fields _ _ eq_refl).
  rewrite (bind_lift_ok R _ _ _ _ (find_field_none field_label fields Hnone)).
  unfold create_custom_field.
  rewrite (bind_run R _ _ _ _ _ Hh2).
  rewrite (bind_run R _ _ _ _ _ (http_run R _ _ _ _ _ _ _ Hs2)).
  rewrite (bind_lift_ok R _ _ _ _ Hreply).
  unfold lift, py_get. now destruct (dict_get customfield "customfield_id").
Qed.

Lemma unlisted_field_is_created_witness :
  get_custom_field_id (scripted no_orders) "Sidemark" "estimate"
    create_field_world
  = (Ok PNone,
     answered (scripted no_orders)
       (answered (scripted no_orders) create_field_world
          (get_request (customfields_url ++ "&module=" ++ "estimate") auth)
          (100, [Ok (PDict [("code", PNum 1); ("message", PStr "rejected")])]))
       {| req_verb := POST; req_url := customfields_url; req_headers := auth;
          req_body := Json (new_field_payload "Sidemark" "estimate") |}
       (100, [])).
Proof.
  apply (unlisted_field_is_created (scripted no_orders) "Sidemark" "estimate"
           create_field_world create_field_world
           (answered (scripted no_orders) create_field_world
              (get_request (customfields_url ++ "&module=" ++ "estimate") auth)
              (100, [Ok (PDict [("code", PNum 1);
                                ("message", PStr "rejected")])]))
           auth auth
           (PDict [("customfields",
                    PDict [("estimate",
                            PList [PDict [("label", PStr "Client PO");
                                          ("customfield_id", PStr "f2")]])])])
           (100, [Ok (PDict [("code", PNum 1); ("message", PStr "rejected")])])
           (PDict [("estimate",
                    PList [PDict [("label", PStr "Client PO");
                                  ("customfield_id", PStr "f2")]])])
           [PDict [("label", PStr "Client PO"); ("customfield_id", PStr "f2")]]
           (PDict [("code", PNum 1); ("message", PStr "rejected")])
           (100, []) []).
  - reflexivity.
  - reflexivity.
  - reflexivity.
  - reflexivity.
  - constructor; [|constructor].
    exists (PStr "Client PO"). split; [reflexivity|discriminate].
  - reflexivity.
  - reflexivity.
  - reflexivity.
Defined.

(** ** Dropdown options *)

Lemma map_result_Forall2 {A B} (f : A -> result B) (l : list A) (ys : list B) :
  map_result f l = Ok ys -> Forall2 (fun x y => f x = Ok y) l ys.
Proof.
  revert ys. induction l as [|x l IH]; intros ys H; simpl in H.
  - inversion H. constructor.
  - destruct (f x) as [y|] eqn:Hx; [|discriminate]. simpl in H.
    destruct (map_result f l) as [ys'|]; [|discriminate]. simpl in H.
    inversion H. constructor; auto.
Qed.

Lemma map_result_total {A B} (f : A -> result B) (l : list A) :
  Forall (fun x => exists y, f x = Ok y) l ->
  exists ys, map_result f l = Ok ys.
Proof.
  induction 1 as [|x l (y & Hy) _ (ys & IH)]; simpl.
  - now exists [].
  - exists (y :: ys). now rewrite Hy, IH.
Qed.

Lemma named_option_is_found (option : string) options names :
  Forall2 (fun o n => subscript o "name" = Ok n) options names ->
  Exists (fun o => subscript o "name" = Ok (PStr option)) options ->
  existsb (fun n => value_eqb n (PStr option)) names = true.
Proof.
  induction 1 as [|o n options names Hn _ IH]; intros Hex.
  - inversion Hex.
  - simpl. inversion Hex as [? ? Ho|? ? Hrest]; subst.
    + rewrite Hn in Ho. inversion Ho. simpl. now rewrite String.eqb_refl.
    + rewrite (IH Hrest). apply orb_true_r.
Qed.

(** X7. When the dropdown field exists and one of its options already has
    the wanted name, get_or_create_dropdown_custom_field returns the
    message "'<option>' already exists in '<label>'." and sends no PUT. *)
Theorem known_option_is_not_added (R : Runtime) field_label module
  (new_option : string) (w w1 w2 : World R) headers custom_field_id response e
  field options :
  get_headers R w = (Ok headers, w1) ->
  get_custom_field_id R field_label module w1 = (Ok custom_field_id, w2) ->
  truthy custom_field_id = true ->
  send R (get_request (editpage_url R module custom_field_id) headers) (env w2)
    = (Ok response, e) ->
  py_get response "field" (PDict []) = Ok field ->
  py_get field "values" (PList []) = Ok (PList options) ->
  Forall (fun o => exists n, subscript o "name" = Ok n) options ->
  Exists (fun o => subscript o "name" = Ok (PStr new_option)) options ->
  get_or_create_dropdown_custom_field R field_label module (PStr new_option) w
  = (Ok (message_exists new_option field_label),
     answered R w2
       (get_request (editpage_url R module custom_field_id) headers) e) /\
  Forall (fun rq => req_verb rq <> PUT)
    (sent (get_or_create_dropdown_custom_field R field_label module
             (PStr new_option)) w).
Proof.
  intros Hh Hid Htruthy Hs Hfield Hvalues Hnames Hex.
  destruct (map_result_total (fun item => subscript item "name") options Hnames)
    as (names & Hmap).
  pose proof (named_option_is_found new_option options names
                (map_result_Forall2 _ _ _ Hmap) Hex) as Hfound.
  assert (Hrun :
            get_or_create_dropdown_custom_field R field_label module
              (PStr new_option) w
            = (Ok (message_exists new_option field_label),
               answered R w2
                 (get_request (editpage_url R module custom_field_id) headers)
                 e)).
  { unfold get_or_create_dropdown_custom_field.
    rewrite (bind_run R _ _ _ _ _ Hh).
    rewrite (bind_run R _ _ _ _ _ Hid). rewrite Htruthy.
    rewrite (bind_run R _ _ _ _ _ (http_run R _ _ _ _ _ _ _ Hs)).
    rewrite (bind_lift_ok R _ _ _ _ Hfield).
    rewrite (bind_lift_ok R _ _ _ _ Hvalues).
    rewrite (bind_lift_ok R _ options _ _ eq_refl).
    rewrite (bind_lift_ok R _ _ _ _ Hmap).
    rewrite Hfound. reflexivity. }
  split; [exact Hrun|].
  destruct (get_headers_run R _ _ _ Hh) as (evs1 & Hj1 & Hevs1).
  destruct (emits_run R _ _ _ _ _
              (get_custom_field_id_calls R [customfields_url] false
                 field_label module w1 (or_introl eq_refl)) Hid)
    as (evs2 & Hj2 & Hevs2).
  rewrite (sent_run R _ w _ _
             (evs1 ++ evs2 ++
              [get_request (editpage_url R module custom_field_id) headers])%list
             Hrun).
  - apply Forall_app. split.
    + eapply Forall_impl; [|exact Hevs1]. intros q ->. discriminate.
    + apply Forall_app. split.
      * eapply Forall_impl; [|exact Hevs2]. intros q. apply calls_not_put.
      * constructor; [discriminate|constructor].
  - simpl. rewrite Hj2, Hj1, <- !app_assoc. reflexivity.
Qed.

Lemma known_option_is_not_added_witness :
  get_or_create_dropdown_custom_field (scripted no_orders) "Vendor" "item"
    (PStr "Kettal") known_option_world
  = (Ok (message_exists "Kettal" "Vendor"),
     answered (scripted no_orders)
       (answered (scripted no_orders) known_option_world
          (get_request (customfields_url ++ "&module=" ++ "item") auth)
          (100,
           [Ok (PDict [("field",
                        PDict [("customfield_id", PStr "f9");
                               ("values",
                                PList [PDict [("name", PStr "Acme")];
                                       PDict [("name", PStr "Kettal")]])])])]))
       (get_request (editpage_url (scripted no_orders) "item" (PStr "f9")) auth)
       (100, [])) /\
  Forall (fun rq => req_verb rq <> PUT)
    (sent (get_or_create_dropdown_custom_field (scripted no_orders) "Vendor"
             "item" (PStr "Kettal")) known_option_world).
Proof.
  apply (known_option_is_not_added (scripted no_orders) "Vendor" "item"
           "Kettal" known_option_world known_option_world
           (answered (scripted no_orders) known_option_world
              (get_request (customfields_url ++ "&module=" ++ "item") auth)
              (100,
               [Ok (PDict [("field",
                            PDict [("customfield_id", PStr "f9");
                                   ("values",
                                    PList [PDict [("name", PStr "Acme")];
                                           PDict [("name", PStr "Kettal")]])])])]))
           auth (PStr "f9")
           (PDict [("field",
                    PDict [("customfield_id", PStr "f9");
                           ("values",
                            PList [PDict [("name", PStr "Acme")];
                                   PDict [("name", PStr "Kettal")]])])])
           (100, [])
           (PDict [("customfield_id", PStr "f9");
                   ("values",
                    PList [PDict [("name", PStr "Acme")];
                           PDict [("name", PStr "Kettal")]])])
           [PDict [("name", PStr "Acme")]; PDict [("name", PStr "Kettal")]]).
  - reflexivity.
  - reflexivity.
  - reflexivity.
  - reflexivity.
  - reflexivity.
  - reflexivity.
  - repeat constructor; eexists; reflexivity.
  - apply Exists_cons_tl. apply Exists_cons_hd. reflexivity.
Defined.




(** ** Vendors and categories: exact-name search, then creation *)

Lemma first_with_first (key wanted : string) before c after :
  Forall (other_named key wanted) before ->
  subscript c key = Ok (PStr wanted) ->
  first_with key (PStr wanted) (before ++ c :: after) = Ok c /\
  truthy c = true.
Proof.
  intros Hbefore Hc. split.
  - induction Hbefore as [|b before (n & Hn & Hne) _ IH]; simpl.
    + rewrite Hc. simpl. now rewrite String.eqb_refl.
    + rewrite Hn. simpl. now rewrite (value_eqb_str_false n wanted Hne).
  - destruct c as [| | | | |d]; try discriminate.
    destruct d; [discriminate|reflexivity].
Qed.

Lemma first_with_nobody (key wanted : string) cs :
  Forall (other_named key wanted) cs ->
  first_with key (PStr wanted) cs = Ok PNone.
Proof.
  induction 1 as [|c cs (n & Hn & Hne) _ IH]; simpl; [reflexivity|].
  rewrite Hn. simpl. now rewrite (value_eqb_str_false n wanted Hne).
Qed.

(** X9. When no contact of the vendor listing has the wanted name,
    get_or_create_vendor posts {contact_name, contact_type: "vendor"} to the
    contacts collection with the headers of the search and returns the
    contact_id of the created contact. *)
Theorem unlisted_vendor_is_created (R : Runtime) (vendor_name : string)
  (w w1 : World R) headers response e1 cs reply e2 contact id :
  get_headers R w = (Ok headers, w1) ->
  send R (get_request vendor_search_url headers) (env w1) = (Ok response, e1) ->
  py_get response "contacts" (PList []) = Ok (PList cs) ->
  Forall (other_named "contact_name" vendor_name) cs ->
  send R (post_request contacts_url headers
            (PDict [("contact_name", PStr vendor_name);
                    ("contact_type", PStr "vendor")])) e1 = (Ok reply, e2) ->
  subscript reply "contact" = Ok contact ->
  subscript contact "contact_id" = Ok id ->
  get_or_create_vendor R (PStr vendor_name) w
  = (Ok id,
     answered R
       (answered R w1 (get_request vendor_search_url headers) e1)
       (post_request contacts_url headers
          (PDict [("contact_name", PStr vendor_name);
                  ("contact_type", PStr "vendor")])) e2).
Proof.
  intros Hh Hs1 Hp Hnone Hs2 Hc Hid. unfold get_or_create_vendor.
  rewrite (bind_run R _ _ _ _ _ Hh).
  rewrite (bind_run R _ _ _ _ _ (http_run R _ _ _ _ _ _ _ Hs1)).
  rewrite (bind_lift_ok R _ _ _ _ Hp).
  rewrite (bind_lift_ok R _ cs _ _ eq_refl).
  rewrite (bind_lift_ok R _ _ _ _ (first_with_nobody _ _ _ Hnone)).
  cbn [truthy].
  rewrite (bind_run R _ _ _ _ _
             (http_run R POST contacts_url headers _
                (answered R w1 (get_request vendor_search_url headers) e1)
                _ _ Hs2)).
  rewrite (bind_lift_ok R _ _ _ _ Hc).
  unfold lift. rewrite Hid. reflexivity.
Qed.

Lemma unlisted_vendor_is_created_witness :
  get_or_create_vendor (scripted no_orders) (PStr "Dedon") new_vendor_world
  = (Ok (PStr "v3"),
     answered (scripted no_orders)
       (answered (scripted no_orders) new_vendor_world
          (get_request vendor_search_url auth)
          (100, [Ok (PDict [("contact", PDict [("contact_id", PStr "v3")])])]))
       (post_request contacts_url auth
          (PDict [("contact_name", PStr "Dedon");
                  ("contact_type", PStr "vendor")])) (100, [])).
Proof.
  apply (unlisted_vendor_is_created (scripted no_orders) "Dedon"
           new_vendor_world new_vendor_world auth vendor_listing
           (100, [Ok (PDict [("contact", PDict [("contact_id", PStr "v3")])])])
           [PDict [("contact_name", PStr "Acme"); ("contact_id", PStr "v1")];
            PDict [("contact_name", PStr "Kettal"); ("contact_id", PStr "v2")]]
           (PDict [("contact", PDict [("contact_id", PStr "v3")])]) (100, [])
           (PDict [("contact_id", PStr "v3")])).
  - reflexivity.
  - reflexivity.
  - reflexivity.
  - constructor; [|constructor; [|constructor]].
    + exists (PStr "Acme"). split; [reflexivity|discriminate].
    + exists (PStr "Kettal"). split; [reflexivity|discriminate].
  - reflexivity.
  - reflexivity.
  - reflexivity.
Defined.

(** X10. get_or_create_category returns the category_id of the first
    listed category with exactly the wanted name and then sends nothing
    more; when no listed category has the name it posts {category_name} to
    the categories collection and returns the category_id of the answer. *)
Theorem category_is_found_or_created (R : Runtime) (category_name : string)
  (w w1 : World R) headers response e1 cs :
  get_headers R w = (Ok headers, w1) ->
  send R (get_request categories_url headers) (env w1) = (Ok response, e1) ->
  py_get response "categories" (PList []) = Ok (PList cs) ->
  (forall before c after id,
      cs = (before ++ c :: after)%list ->
      Forall (other_named "category_name" category_name) before ->
      subscript c "category_name" = Ok (PStr category_name) ->
      subscript c "category_id" = Ok id ->
      get_or_create_category R (PStr category_name) w
      = (Ok id, answered R w1 (get_request categories_url headers) e1)) /\
  (forall reply e2 category id,
      Forall (other_named "category_name" category_name) cs ->
      send R (post_request categories_url headers
                (PDict [("category_name", PStr category_name)])) e1
        = (Ok reply, e2) ->
      subscript reply "category" = Ok category ->
      subscript category "category_id" = Ok id ->
      get_or_create_category R (PStr category_name) w
      = (Ok id,
         answered R (answered R w1 (get_request categories_url headers) e1)
           (post_request categories_url headers
              (PDict [("category_name", PStr category_name)])) e2)).
Proof.
  intros Hh Hs1 Hp. split.
  - intros before c after id -> Hbefore Hc Hid.
    destruct (first_with_first _ _ before c after Hbefore Hc) as [Hf Ht].
    unfold get_or_create_category.
    rewrite (bind_run R _ _ _ _ _ Hh).
    rewrite (bind_run R _ _ _ _ _ (http_run R _ _ _ _ _ _ _ Hs1)).
    rewrite (bind_lift_ok R _ _ _ _ Hp).
    rewrite (bind_lift_ok R _ (before ++ c :: after)%list _ _ eq_refl).
    rewrite (bind_lift_ok R _ _ _ _ Hf). rewrite Ht.
    unfold lift. rewrite Hid. reflexivity.
  - intros reply e2 category id Hnone Hs2 Hc Hid.
    unfold get_or_create_category.
    rewrite (bind_run R _ _ _ _ _ Hh).
    rewrite (bind_run R _ _ _ _ _ (http_run R _ _ _ _ _ _ _ Hs1)).
    rewrite (bind_lift_ok R _ _ _ _ Hp).
    rewrite (bind_lift_ok R _ cs _ _ eq_refl).
    rewrite (bind_lift_ok R _ _ _ _ (first_with_nobody _ _ _ Hnone)).
    cbn [truthy].
    rewrite (bind_run R _ _ _ _ _
               (http_run R POST categories_url headers _
                  (answered R w1 (get_request categories_url headers) e1)
                  _ _ Hs2)).
    rewrite (bind_lift_ok R _ _ _ _ Hc).
    unfold lift. rewrite Hid. reflexivity.
Qed.

Lemma category_is_found_or_created_witness :
  get_or_create_category (scripted no_orders) (PStr "Seating") category_world
  = (Ok (PStr "g1"),
     answered (scripted no_orders) category_world
       (get_request categories_url auth)
       (100, [Ok (PDict [("category", PDict [("category_id", PStr "g2")])])]))
  /\
  get_or_create_category (scripted no_orders) (PStr "Tables") category_world
  = (Ok (PStr "g2"),
     answered (scripted no_orders)
       (answered (scripted no_orders) category_world
          (get_request categories_url auth)
          (100, [Ok (PDict [("category", PDict [("category_id", PStr "g2")])])]))
       (post_request categories_url auth
          (PDict [("category_name", PStr "Tables")])) (100, [])).
Proof.
  split.
  - apply (proj1 (category_is_found_or_created (scripted no_orders) "Seating"
                    category_world category_world auth category_listing
                    (100, [Ok (PDict [("category",
                                       PDict [("category_id", PStr "g2")])])])
                    [PDict [("category_name", PStr "Seating");
                            ("category_id", PStr "g1")]]
                    eq_refl eq_refl eq_refl)
             [] (PDict [("category_name", PStr "Seating");
                        ("category_id", PStr "g1")]) [] (PStr "g1"));
      try reflexivity. constructor.
  - apply (proj2 (category_is_found_or_created (scripted no_orders) "Tables"
                    category_world category_world auth category_listing
                    (100, [Ok (PDict [("category",
                                       PDict [("category_id", PStr "g2")])])])
                    [PDict [("category_name", PStr "Seating");
                            ("category_id", PStr "g1")]]
                    eq_refl eq_refl eq_refl)
             (PDict [("category", PDict [("category_id", PStr "g2")])])
             (100, []) (PDict [("category_id", PStr "g2")]) (PStr "g2"));
      try reflexivity.
    constructor; [|constructor].
    exists (PStr "Seating"). split; [reflexivity|discriminate].
Defined.

(** ** Customers *)

(** X11. When the search by email answers with a non-empty list of
    contacts, get_or_create_customer returns the first contact together with
    the first contact person of that contact, and posts neither to the
    contacts collection nor to the contact persons collection. *)
Theorem known_customer_is_not_created (R : Runtime) email name company_name
  metadata billing_address shipping_address (w w1 w2 : World R) headers
  field_id response e1 contact more contact_id second e2 persons person :
  get_headers R w = (Ok headers, w1) ->
  get_custom_field_id R ein_label "contact" w1 = (Ok field_id, w2) ->
  send R (get_request (contacts_url ++ "&email=" ++ email) headers) (env w2)
    = (Ok response, e1) ->
  subscript response "contacts" = Ok (PList (contact :: more)) ->
  subscript contact "contact_id" = Ok contact_id ->
  send R (get_request (person_url R contact_id) headers) e1 = (Ok second, e2) ->
  subscript second "contact_persons" = Ok persons ->
  item0 persons = Ok person ->
  get_or_create_customer R email name company_name metadata billing_address
    shipping_address w
  = (Ok (contact, person),
     answered R
       (answered R w2
          (get_request (contacts_url ++ "&email=" ++ email) headers) e1)
       (get_request (person_url R contact_id) headers) e2) /\
  Forall (fun rq => ~ posts_to contacts_url rq /\
                    ~ posts_to create_person_url rq)
    (sent (get_or_create_customer R email name company_name metadata
             billing_address shipping_address) w).
Proof.
  intros Hh Hid Hs1 Hcs Hcid Hs2 Hps Hp.
  assert (Hrun :
            get_or_create_customer R email name company_name metadata
              billing_address shipping_address w
            = (Ok (contact, person),
               answered R
                 (answered R w2
                    (get_request (contacts_url ++ "&email=" ++ email) headers)
                    e1)
                 (get_request (person_url R contact_id) headers) e2)).
  { unfold get_or_create_customer.
    rewrite (bind_run R _ _ _ _ _ Hh).
    rewrite (bind_run R _ _ _ _ _ Hid).
    rewrite (bind_run R _ _ _ _ _ (http_run R _ _ _ _ _ _ _ Hs1)).
    rewrite (bind_lift_ok R _ _ _ _ (subscript_py_get _ _ _ PNone Hcs)).
    cbn [truthy]. rewrite Hcs. cbn [rbind item0].
    rewrite (bind_lift_ok R _ contact _ _ eq_refl).
    rewrite (bind_lift_ok R _ _ _ _ Hcid).
    rewrite (bind_run R _ _ _ _ _
               (http_run R GET (person_url R contact_id) headers NoBody
                  (answered R w2
                     (get_request (contacts_url ++ "&email=" ++ email) headers)
                     e1) _ _ Hs2)).
    rewrite (bind_lift_ok R _ contact _ _ eq_refl).
    rewrite (bind_lift_ok R _ _ _ _ Hps).
    rewrite (bind_lift_ok R _ _ _ _ Hp). reflexivity. }
  split; [exact Hrun|].
  destruct (get_headers_run R _ _ _ Hh) as (evs1 & Hj1 & Hevs1).
  destruct (emits_run R _ _ _ _ _
              (get_custom_field_id_calls R [customfields_url] false
                 ein_label "contact" w1 (or_introl eq_refl)) Hid)
    as (evs2 & Hj2 & Hevs2).
  rewrite (sent_run R _ w _ _
             (evs1 ++ evs2 ++
              [get_request (contacts_url ++ "&email=" ++ email) headers;
               get_request (person_url R contact_id) headers])%list Hrun).
  - apply Forall_app. split.
    + eapply Forall_impl; [|exact Hevs1]. intros q ->.
      split; intros [_ Hu]; revert Hu; now apply url_neq.
    + apply Forall_app. split.
      * eapply Forall_impl; [|exact Hevs2].
        intros q [->|[Hq|[[_ Hq]|[_ [Hq|[]]]]]];
          split; intros [Hv Hu]; try congruence;
          revert Hu; try rewrite <- Hq; now apply url_neq.
      * repeat constructor; intros [Hv _]; discriminate.
  - simpl. rewrite Hj2, Hj1, <- !app_assoc. reflexivity.
Qed.

Lemma known_customer_is_not_created_witness :
  get_or_create_customer (scripted no_orders) "jane@example.com" "Jane Doe"
    "Doe Design" [] None None known_customer_world
  = (Ok (PDict [("contact_id", PStr "c1")],
         PDict [("contact_person_id", PStr "p1")]),
     answered (scripted no_orders)
       (answered (scripted no_orders)
          (answered (scripted no_orders) known_customer_world
             (get_request (customfields_url ++ "&module=" ++ "contact") auth)
             (100,
              [Ok (PDict [("contacts",
                           PList [PDict [("contact_id", PStr "c1")];
                                  PDict [("contact_id", PStr "c2")]])]);
               Ok (PDict [("contact_persons",
                           PList [PDict [("contact_person_id", PStr "p1")]])])]))
          (get_request (contacts_url ++ "&email=" ++ "jane@example.com") auth)
          (100,
           [Ok (PDict [("contact_persons",
                        PList [PDict [("contact_person_id", PStr "p1")]])])]))
       (get_request (person_url (scripted no_orders) (PStr "c1")) auth)
       (100, [])) /\
  Forall (fun rq => ~ posts_to contacts_url rq /\
                    ~ posts_to create_person_url rq)
    (sent (get_or_create_customer (scripted no_orders) "jane@example.com"
             "Jane Doe" "Doe Design" [] None None) known_customer_world).
Proof.
  apply (known_customer_is_not_created (scripted no_orders) "jane@example.com"
           "Jane Doe" "Doe Design" [] None None known_customer_world
           known_customer_world
           (answered (scripted no_orders) known_customer_world
              (get_request (customfields_url ++ "&module=" ++ "contact") auth)
              (100,
               [Ok (PDict [("contacts",
                            PList [PDict [("contact_id", PStr "c1")];
                                   PDict [("contact_id", PStr "c2")]])]);
                Ok (PDict [("contact_persons",
                            PList [PDict [("contact_person_id",
                                           PStr "p1")]])])]))
           auth (PStr "cf1")
           (PDict [("contacts",
                    PList [PDict [("contact_id", PStr "c1")];
                           PDict [("contact_id", PStr "c2")]])])
           (100,
            [Ok (PDict [("contact_persons",
                         PList [PDict [("contact_person_id", PStr "p1")]])])])
           (PDict [("contact_id", PStr "c1")])
           [PDict [("contact_id", PStr "c2")]] (PStr "c1")
           (PDict [("contact_persons",
                    PList [PDict [("contact_person_id", PStr "p1")]])])
           (100, [])
           (PList [PDict [("contact_person_id", PStr "p1")]])
           (PDict [("contact_person_id", PStr "p1")])); reflexivity.
Defined.

Lemma address_payload_ok attention a payload :
  address_payload attention a = Ok payload -> exists addr, a = Some addr.
Proof. destruct a; [eauto|discriminate]. Qed.

Lemma customer_contact_request (R : Runtime) email name company_name metadata
  billing_address shipping_address (w : World R) :
  emits (customer_creation email name company_name metadata billing_address
           shipping_address)
    (get_or_create_customer R email name company_name metadata billing_address
       shipping_address) w.
Proof.
  set (P := customer_creation _ _ _ _ _ _).
  assert (Hcalls : forall rq, calls R [customfields_url] false rq -> P rq).
  { intros rq [->|[H|[[_ H]|[_ [H|[]]]]]] [Hv Hu]; simpl in *;
      try congruence; exfalso; revert Hu; try rewrite <- H;
      now apply url_neq. }
  assert (Hget : forall u h b,
             P {| req_verb := GET; req_url := u; req_headers := h;
                  req_body := b |}).
  { intros u h b [Hv _]. discriminate. }
  unfold get_or_create_customer.
  apply emits_bind.
  { eapply emits_weaken; [exact Hcalls | apply get_headers_calls]. }
  intros headers w1 _. apply emits_bind.
  { eapply emits_weaken; [exact Hcalls|].
    apply get_custom_field_id_calls. now left. }
  intros field_id w2 _.
  apply emits_bind; [apply emits_http, Hget|].
  intros response w3 _.
  apply emits_bind; [apply emits_lift|]. intros contacts w4 _.
  destruct (truthy contacts).
  - repeat first [ apply emits_ret | apply emits_lift
                 | apply emits_http, Hget
                 | apply emits_bind; [|intros ? ? _] ].
  - apply emits_bind; [apply emits_lift|]. intros billing wa Hb.
    apply emits_bind; [apply emits_lift|]. intros shipping wb Hs.
    apply lift_ok in Hb. destruct Hb as [Hb _].
    apply lift_ok in Hs. destruct Hs as [Hs _].
    destruct (address_payload_ok _ _ _ Hb) as (b & Hbill).
    destruct (address_payload_ok _ _ _ Hs) as (s & Hship).
    apply emits_bind.
    { apply emits_http. intros _.
      eexists. exists field_id, b, s.
      split; [reflexivity|]. split; [exact Hbill|]. split; [exact Hship|].
      split; [reflexivity|]. split; reflexivity. }
    intros created wc _.
    apply emits_bind; [apply emits_lift|]. intros contact wd _.
    destruct (first_and_last_name name) as [first last].
    apply emits_bind; [apply emits_lift|]. intros contact_id we _.
    apply emits_bind; [|intros; repeat journal_step].
    apply emits_http. intros [_ Hu]. exfalso. revert Hu. now apply url_neq.
Qed.

(** X12. A POST of get_or_create_customer to the contacts collection is
    sent only when both addresses are present; its contact_name is the
    company name when the customer name equals the email and the customer
    name otherwise, its contact_type is "customer", and its one custom
    field holds the EIN entry of the metadata, or the empty string when the
    metadata has none. *)
Theorem customer_contact_payload (R : Runtime) email name company_name
  metadata billing_address shipping_address (w : World R) :
  Forall (customer_creation email name company_name metadata billing_address
            shipping_address)
    (sent (get_or_create_customer R email name company_name metadata
             billing_address shipping_address) w).
Proof. apply emits_sent, customer_contact_request. Qed.

(** ** Splitting a name *)

Lemma str_split_cons (sep : ascii) (s : string) :
  exists h t, str_split sep s = h :: t.
Proof.
  induction s as [|c s (h & t & IH)]; simpl.
  - now exists "", [].
  - destruct (Ascii.eqb c sep); [now exists "", (str_split sep s)|].
    rewrite IH. now exists (String c h), t.
Qed.

Lemma str_join_split (sep : ascii) (s : string) :
  str_join (String sep "") (str_split sep s) = s.
Proof.
  induction s as [|c s IH]; simpl; [reflexivity|].
  destruct (Ascii.eqb c sep) eqn:E.
  - apply Ascii.eqb_eq in E. subst c.
    destruct (str_split_cons sep s) as (h & t & Hs).
    rewrite Hs in *. simpl in *. now rewrite IH.
  - destruct (str_split_cons sep s) as (h & t & Hs).
    rewrite Hs in *. destruct t as [|q t]; simpl in *; now rewrite IH.
Qed.

Lemma str_split_head_clean (sep : ascii) (s : string) :
  has_char sep (hd "" (str_split sep s)) = false.
Proof.
  induction s as [|c s IH]; simpl; [reflexivity|].
  destruct (Ascii.eqb c sep) eqn:E; [reflexivity|].
  destruct (str_split_cons sep s) as (h & t & Hs).
  rewrite Hs in *. simpl in *. now rewrite E, IH.
Qed.

Lemma str_split_many (sep : ascii) (s : string) :
  has_char sep s = true -> (1 < List.length (str_split sep s))%nat.
Proof.
  induction s as [|c s IH]; simpl; [discriminate|].
  destruct (Ascii.eqb c sep) eqn:E; simpl.
  - intros _. destruct (str_split_cons sep s) as (h & t & ->). simpl. lia.
  - intros H. specialize (IH H).
    destruct (str_split_cons sep s) as (h & t & Hs). rewrite Hs in *.
    exact IH.
Qed.

(** X13. For a customer name that contains a space, the contact person's
    first name is the text before the first space, so it has no space
    itself, and the last name is all that follows that space: the two,
    joined by one space, give the name back. *)
Theorem first_and_last_name_rejoin (name : string) :
  has_char " " name = true ->
  fst (first_and_last_name name) ++ " " ++ snd (first_and_last_name name)
  = name /\
  has_char " " (fst (first_and_last_name name)) = false.
Proof.
  intros H. unfold first_and_last_name.
  pose proof (str_split_many " " name H) as Hlen.
  apply Nat.ltb_lt in Hlen. rewrite Hlen. simpl fst. simpl snd.
  split; [|apply str_split_head_clean].
  pose proof (str_join_split " " name) as Hjoin.
  apply Nat.ltb_lt in Hlen.
  destruct (str_split " " name) as [|h [|q t]]; simpl in Hlen; try lia.
  exact Hjoin.
Qed.

Lemma first_and_last_name_rejoin_witness :
  fst (first_and_last_name "Jane Q Doe") ++ " " ++
  snd (first_and_last_name "Jane Q Doe") = "Jane Q Doe" /\
  has_char " " (fst (first_and_last_name "Jane Q Doe")) = false.
Proof. apply (first_and_last_name_rejoin "Jane Q Doe"). reflexivity. Defined.

(** ** Items *)

(** X14. Whatever SKU is asked for, when the item search answers with a
    non-empty list get_or_create_item returns the item_id of the first
    entry, without looking at its SKU, and creates nothing: no POST to the
    items, contacts or custom fields collections and no PUT. *)
Theorem first_search_hit_is_taken (R : Runtime) sku name price cost
  description category vendor attributes (w w1 : World R) headers response e
  first more id :
  get_headers R w = (Ok headers, w1) ->
  send R (get_request (item_search_url R sku) headers) (env w1)
    = (Ok response, e) ->
  subscript response "items" = Ok (PList (first :: more)) ->
  subscript first "item_id" = Ok id ->
  get_or_create_item R sku name price cost description category vendor
    attributes w
  = (Ok id, answered R w1 (get_request (item_search_url R sku) headers) e) /\
  Forall (fun rq => ~ posts_to items_url rq /\ ~ posts_to contacts_url rq /\
                    ~ posts_to customfields_url rq /\ req_verb rq <> PUT)
    (sent (get_or_create_item R sku name price cost description category
             vendor attributes) w).
Proof.
  intros Hh Hs Hitems Hid.
  assert (Hrun :
            get_or_create_item R sku name price cost description category
              vendor attributes w
            = (Ok id,
               answered R w1 (get_request (item_search_url R sku) headers) e)).
  { destruct response as [| | | | |found]; try discriminate.
    apply (item_found_run R sku name price cost description category vendor
             attributes w w1 headers (PDict found) e found first more id
             Hh Hs eq_refl); [|exact Hid].
    simpl in Hitems. destruct (dict_get found "items"); [|discriminate].
    now inversion Hitems. }
  split; [exact Hrun|].
  eapply search_only_sent; [exact Hh | exact Hrun | |].
  - repeat split; try discriminate;
      intros [_ Hu]; revert Hu; now apply url_neq.
  - repeat split; try discriminate; intros [Hv _]; discriminate.
Qed.

Lemma first_search_hit_is_taken_witness :
  get_or_create_item (scripted no_orders) (PStr "CH-1") (PStr "Chair")
    (PNum 120) (PNum 80) "" (PStr "Seating") PNone [] stocked_world
  = (Ok (PStr "i9"),
     answered (scripted no_orders) stocked_world
       (get_request (item_search_url (scripted no_orders) (PStr "CH-1")) auth)
       (100, [])) /\
  Forall (fun rq => ~ posts_to items_url rq /\ ~ posts_to contacts_url rq /\
                    ~ posts_to customfields_url rq /\ req_verb rq <> PUT)
    (sent (get_or_create_item (scripted no_orders) (PStr "CH-1") (PStr "Chair")
             (PNum 120) (PNum 80) "" (PStr "Seating") PNone []) stocked_world).
Proof.
  apply (first_search_hit_is_taken (scripted no_orders) (PStr "CH-1")
           (PStr "Chair") (PNum 120) (PNum 80) "" (PStr "Seating") PNone []
           stocked_world stocked_world auth
           (PDict [("items",
                    PList [PDict [("item_id", PStr "i9"); ("sku", PStr "XYZ")];
                           PDict [("item_id", PStr "i1");
                                  ("sku", PStr "CH-1")]])])
           (100, [])
           (PDict [("item_id", PStr "i9"); ("sku", PStr "XYZ")])
           [PDict [("item_id", PStr "i1"); ("sku", PStr "CH-1")]]
           (PStr "i9")); reflexivity.
Defined.

Lemma str_app_nil (s : string) : s ++ "" = s.
Proof. induction s; simpl; congruence. Qed.

Lemma str_app_assoc (a b c : string) : (a ++ b) ++ c = a ++ b ++ c.
Proof. induction a; simpl; congruence. Qed.

Lemma concat_cons (x : string) (xs : list string) :
  String.concat "" (x :: xs) = x ++ String.concat "" xs.
Proof. destruct xs; simpl; [now rewrite str_app_nil|reflexivity]. Qed.

Lemma fold_left_lines (f : string * value -> string) (attributes : dict)
  (acc : string) :
  fold_left (fun a lv => a ++ f lv) attributes acc
  = acc ++ String.concat "" (map f attributes).
Proof.
  revert acc. induction attributes as [|lv rest IH]; intros acc.
  - simpl. now rewrite str_app_nil.
  - cbn [fold_left map]. rewrite IH, concat_cons. apply str_app_assoc.
Qed.

Lemma item_custom_fields_ok (R : Runtime) entries :
  forall acc (w w' : World R) custom_fields,
    item_custom_fields R entries acc w = (Ok custom_fields, w') ->
    exists made,
      custom_fields = (acc ++ made)%list /\ Forall2 field_entry entries made.
Proof.
  induction entries as [|[label v] rest IH]; intros acc w w' cfs H; simpl in H.
  - apply ret_ok in H. destruct H as [-> _].
    exists []. rewrite app_nil_r. split; [reflexivity|constructor].
  - apply bind_ok in H. destruct H as (field_id & w1 & _ & H).
    apply bind_ok in H. destruct H as (u & w2 & _ & H).
    apply IH in H. destruct H as (made & -> & Hmade).
    exists (PDict [("customfield_id", field_id); ("value", v)] :: made).
    rewrite <- app_assoc. split; [reflexivity|].
    constructor; [now exists field_id|exact Hmade].
Qed.

Lemma item_request (R : Runtime) sku name price cost description category
  vendor attributes (w : World R) :
  emits (item_creation R sku name price cost description category vendor
           attributes)
    (get_or_create_item R sku name price cost description category vendor
       attributes) w.
Proof.
  set (P := item_creation _ _ _ _ _ _ _ _ _).
  assert (Hcalls : forall puts rq,
             calls R [customfields_url; contacts_url] puts rq -> P rq).
  { intros puts rq [->|[H|[[H _]|[_ [H|[H|[]]]]]]] [Hv Hu]; simpl in *;
      try congruence; exfalso; revert Hu; try rewrite <- H;
      now apply url_neq. }
  unfold get_or_create_item.
  apply emits_bind.
  { eapply emits_weaken; [exact (Hcalls false) | apply get_headers_calls]. }
  intros headers w1 _.
  apply emits_bind; [apply emits_http; intros [Hv _]; discriminate|].
  intros response w2 _.
  apply emits_bind; [apply emits_lift|]. intros found w3 _.
  destruct (truthy found).
  { repeat (apply emits_bind; [apply emits_lift|]; intros ? ? _).
    apply emits_lift. }
  apply emits_bind.
  { destruct (truthy vendor); [|apply emits_ret].
    eapply emits_weaken; [exact (Hcalls false)|].
    apply get_or_create_vendor_calls. right. now left. }
  intros vendor_id w4 Hvendor.
  apply emits_bind.
  { eapply emits_weaken; [exact (Hcalls true)|].
    apply item_custom_fields_calls. now left. }
  intros custom_fields w5 Hfields.
  destruct (item_custom_fields_ok R _ _ _ _ _ Hfields) as (made & -> & Hmade).
  apply emits_bind; [|intros; repeat journal_step].
  apply emits_http. intros _.
  assert (Hdesc :
            fold_left (fun acc (lv : string * value) =>
                         acc ++ fst lv ++ ": " ++ fmt R (snd lv) ++ nl)
                      attributes "" ++ description
            = item_description R attributes description).
  { unfold item_description.
    now rewrite (fold_left_lines
                   (fun lv => fst lv ++ ": " ++ fmt R (snd lv) ++ nl)). }
  rewrite Hdesc.
  destruct (truthy vendor_id) eqn:Hid.
  - eexists. exists made. split; [reflexivity|].
    repeat (split; [reflexivity|]). split; [exact Hmade|].
    intros Hfalsy. rewrite Hfalsy in Hvendor.
    apply ret_ok in Hvendor. destruct Hvendor as [-> _]. discriminate.
  - eexists. exists made. split; [reflexivity|].
    repeat (split; [reflexivity|]). split; [exact Hmade|]. reflexivity.
Qed.

(** X15. Every POST of get_or_create_item to the items collection
    carries the given name, SKU, price as rate and cost as purchase_rate,
    is_taxable true and unit "Each"; its description is one line
    "label: value" per extracted attribute, in the order of the map,
    followed by the given description; its custom fields are those of
    Category, Item Number and Vendor, in this order, with the category,
    the SKU and the vendor as values; and it has no vendor_id when the
    vendor is empty or None. *)
Theorem created_item_payload (R : Runtime) sku name price cost description
  category vendor attributes (w : World R) :
  Forall (item_creation R sku name price cost description category vendor
            attributes)
    (sent (get_or_create_item R sku name price cost description category
             vendor attributes) w).
Proof. apply emits_sent, item_request. Qed.

Lemma item_without_vendor_calls (R : Runtime) sku name price cost description
  category vendor attributes (w : World R) :
  truthy vendor = false ->
  emits (calls R [customfields_url; items_url] true)
    (get_or_create_item R sku name price cost description category vendor
       attributes) w.
Proof.
  intros Hfalsy. unfold get_or_create_item. rewrite Hfalsy.
  assert (H1 : In customfields_url [customfields_url; items_url]) by now left.
  assert (H2 : In items_url [customfields_url; items_url])
    by (right; now left).
  repeat first [ apply item_custom_fields_calls; assumption | client_step ].
Qed.

(** X16. Without a brand (vendor [None] or empty) get_or_create_item
    creates no vendor: none of its requests is a POST to the contacts
    collection. *)
Theorem no_vendor_without_brand (R : Runtime) sku name price cost description
  category vendor attributes (w : World R) :
  truthy vendor = false ->
  Forall (fun rq => ~ posts_to contacts_url rq)
    (sent (get_or_create_item R sku name price cost description category
             vendor attributes) w).
Proof.
  intros Hfalsy.
  eapply Forall_impl;
    [|apply emits_sent, (item_without_vendor_calls R sku name price cost
                           description category vendor attributes w Hfalsy)].
  intros rq [->|[H|[[H _]|[_ [H|[H|[]]]]]]] [Hv Hu]; simpl in *;
    try congruence; revert Hu; try rewrite <- H; now apply url_neq.
Qed.

(** ** Reconciliation, the drawn invoice and the whole task *)

(** X17. When the first retainer invoice of the estimate is "drawn",
    update_retainer_invoice_payment_options sends one PUT, to the url of
    that first invoice and whatever further invoices are listed; the body
    is the invoice cut down to the allow-list, with payment_options set to
    the zoho_payments gateway and without status; the function returns, or
    raises, what the PUT does. *)
Theorem drawn_invoice_is_put (R : Runtime) estimate_id (w w1 : World R)
  headers response e1 retainer_invoice more invoice_id outcome e2 :
  get_headers R w = (Ok headers, w1) ->
  send R (get_request (retainer_search_url R estimate_id) headers) (env w1)
    = (Ok response, e1) ->
  py_get response "retainerinvoices" (PList [])
    = Ok (PList (PDict retainer_invoice :: more)) ->
  dict_get retainer_invoice "retainerinvoice_id" = Some invoice_id ->
  dict_get retainer_invoice "status" = Some (PStr "drawn") ->
  send R (put_request (retainer_update_url R invoice_id) headers
            (invoice_update retainer_invoice)) e1 = (outcome, e2) ->
  update_retainer_invoice_payment_options R estimate_id w
  = (outcome,
     answered R
       (answered R w1 (get_request (retainer_search_url R estimate_id) headers)
          e1)
       (put_request (retainer_update_url R invoice_id) headers
          (invoice_update retainer_invoice)) e2) /\
  subscript (invoice_update retainer_invoice) "payment_options"
  = Ok zoho_payments /\
  subscript (invoice_update retainer_invoice) "status" = Raise (KeyError "status").
Proof.
  intros Hh Hs1 Hp Hid Hst Hs2. split; [|split].
  - unfold update_retainer_invoice_payment_options.
    rewrite (bind_run R _ _ _ _ _ Hh).
    rewrite (bind_run R _ _ _ _ _ (http_run R _ _ _ _ _ _ _ Hs1)).
    rewrite (bind_lift_ok R _ _ _ _ Hp). cbn [truthy negb item0].
    rewrite (bind_lift_ok R _ (PDict retainer_invoice) _ _ eq_refl).
    cbn [subscript]. rewrite Hid, Hst.
    rewrite (bind_lift_ok R _ invoice_id _ _ eq_refl).
    rewrite (bind_lift_ok R _ (PStr "drawn") _ _ eq_refl).
    cbn [value_eqb]. rewrite String.eqb_refl.
    exact (http_run R PUT _ headers _
             (answered R w1
                (get_request (retainer_search_url R estimate_id) headers) e1)
             _ _ Hs2).
  - unfold invoice_update, subscript.
    rewrite filter_object_get. simpl. now rewrite dict_get_set_same.
  - unfold invoice_update, subscript.
    rewrite filter_object_get. reflexivity.
Qed.

Lemma drawn_invoice_is_put_witness :
  update_retainer_invoice_payment_options (scripted no_orders) (PStr "e1")
    drawn_world
  = (Raise (RequestException "timeout"),
     answered (scripted no_orders)
       (answered (scripted no_orders) drawn_world
          (get_request (retainer_search_url (scripted no_orders) (PStr "e1"))
             auth)
          (100, [Raise (RequestException "timeout")]))
       (put_request (retainer_update_url (scripted no_orders) (PStr "r1")) auth
          (invoice_update
             [("retainerinvoice_id", PStr "r1"); ("status", PStr "drawn");
              ("estimate_id", PStr "e1"); ("created_time", PStr "2025-02-28");
              ("customer_id", PStr "c1")]))
       (100, [])) /\
  subscript
    (invoice_update
       [("retainerinvoice_id", PStr "r1"); ("status", PStr "drawn");
        ("estimate_id", PStr "e1"); ("created_time", PStr "2025-02-28");
        ("customer_id", PStr "c1")]) "payment_options" = Ok zoho_payments /\
  subscript
    (invoice_update
       [("retainerinvoice_id", PStr "r1"); ("status", PStr "drawn");
        ("estimate_id", PStr "e1"); ("created_time", PStr "2025-02-28");
        ("customer_id", PStr "c1")]) "status" = Raise (KeyError "status").
Proof.
  apply (drawn_invoice_is_put (scripted no_orders) (PStr "e1") drawn_world
           drawn_world auth
           (PDict [("retainerinvoices",
                    PList [drawn_invoice;
                           PDict [("retainerinvoice_id", PStr "r2");
                                  ("status", PStr "drawn")]])])
           (100, [Raise (RequestException "timeout")])
           [("retainerinvoice_id", PStr "r1"); ("status", PStr "drawn");
            ("estimate_id", PStr "e1"); ("created_time", PStr "2025-02-28");
            ("customer_id", PStr "c1")]
           [PDict [("retainerinvoice_id", PStr "r2"); ("status", PStr "drawn")]]
           (PStr "r1") (Raise (RequestException "timeout")) (100, []));
    reflexivity.
Defined.

Section Reconciliation.

Variable R : Runtime.

Lemma emits_both {A} (P Q : request -> Prop) (m : M R A) (w : World R) :
  emits P m w -> emits Q m w -> emits (fun rq => P rq /\ Q rq) m w.
Proof.
  intros (evs & Hj & HP) (evs' & Hj' & HQ).
  rewrite Hj in Hj'. apply app_inv_head in Hj'. subst evs'.
  exists evs. split; [exact Hj|].
  rewrite Forall_forall in *. auto.
Qed.

Lemma for_each_estimate_emits (P : request -> Prop) estimates :
  (forall estimate_id w,
      emits P (update_retainer_invoice_payment_options R estimate_id) w) ->
  forall w, emits P (for_each_estimate R estimates) w.
Proof.
  intros Hupdate.
  induction estimates as [|estimate rest IH]; intros w; simpl.
  - apply emits_ret.
  - apply emits_bind; [apply emits_lift|]. intros estimate_id w1 _.
    apply emits_bind; [apply Hupdate|]. intros u w2 _. apply IH.
Qed.

Lemma reconciliation_requests (w : World R) :
  emits (fun rq => calls R [] true rq /\ pruned retainer_put_keys rq)
    (check_estimate_accepted_and_add_zoho_payments R) w.
Proof.
  unfold check_estimate_accepted_and_add_zoho_payments.
  apply emits_bind.
  { apply emits_both; [apply get_all_accepted_estimates_calls|].
    eapply emits_weaken;
      [|apply (get_all_accepted_estimates_calls R [] false)].
    intros rq Hc Hput. now apply calls_not_put in Hc. }
  intros estimates w1 _.
  apply emits_bind; [apply emits_lift|]. intros each w2 _.
  apply emits_bind.
  - apply for_each_estimate_emits. intros estimate_id w3.
    apply emits_both;
      [apply update_retainer_invoice_payment_options_calls
      |apply retainer_put_pruned].
  - intros u w3 _. destruct (truthy estimates); apply emits_ret.
Qed.

End Reconciliation.

(** X18. The reconciliation task creates nothing: every request of
    check_estimate_accepted_and_add_zoho_payments is the token refresh, a
    GET, or a PUT whose body is a JSON object with keys from the retainer
    invoice allow-list only. *)
Theorem reconciliation_creates_nothing (R : Runtime) (w : World R) :
  Forall (fun rq =>
            (rq = refresh_request R \/ req_verb rq = GET \/ req_verb rq = PUT)
            /\ pruned retainer_put_keys rq)
    (sent (check_estimate_accepted_and_add_zoho_payments R) w).
Proof.
  eapply Forall_impl; [|apply emits_sent, reconciliation_requests].
  intros rq [[H|[H|[[H _]|[_ []]]]] Hp]; auto.
Qed.

(** X19. The reconciliation task has no error sink of its own: its
    outcome is the outcome of the loop over the listed estimates.  An
    exception of the loop is raised by the task; otherwise the task returns
    [None] when the listing is empty (or has no "estimates" key) and the
    text "Retainer invoice check completed." when it is not. *)
Theorem reconciliation_outcome (R : Runtime) (w w1 w3 : World R) headers
  response e estimates outcome :
  get_headers R w = (Ok headers, w1) ->
  send R (get_request accepted_estimates_url headers) (env w1)
    = (Ok response, e) ->
  py_get response "estimates" (PList []) = Ok (PList estimates) ->
  for_each_estimate R estimates
    (answered R w1 (get_request accepted_estimates_url headers) e)
    = (outcome, w3) ->
  check_estimate_accepted_and_add_zoho_payments R w
  = (match outcome with
     | Raise ex => Raise ex
     | Ok _ =>
         Ok (match estimates with
             | [] => PNone
             | _ :: _ => PStr "Retainer invoice check completed."
             end)
     end, w3).
Proof.
  intros Hh Hs Hp Hloop.
  assert (Hlist : get_all_accepted_estimates R w
                  = (Ok (PList estimates),
                     answered R w1 (get_request accepted_estimates_url headers)
                       e)).
  { unfold get_all_accepted_estimates.
    rewrite (bind_run R _ _ _ _ _ Hh).
    rewrite (bind_run R _ _ _ _ _ (http_run R _ _ _ _ _ _ _ Hs)).
    unfold lift. now rewrite Hp. }
  unfold check_estimate_accepted_and_add_zoho_payments.
  rewrite (bind_run R _ _ _ _ _ Hlist).
  rewrite (bind_lift_ok R _ estimates _ _ eq_refl).
  unfold bind. rewrite Hloop.
  destruct outcome as [[]|ex]; [|reflexivity].
  now destruct estimates.
Qed.

Lemma reconciliation_outcome_witness :
  check_estimate_accepted_and_add_zoho_payments (scripted no_orders)
    no_estimates_world
  = (Ok PNone,
     answered (scripted no_orders) no_estimates_world
       (get_request accepted_estimates_url auth) (100, [])).
Proof.
  apply (reconciliation_outcome (scripted no_orders) no_estimates_world
           no_estimates_world
           (answered (scripted no_orders) no_estimates_world
              (get_request accepted_estimates_url auth) (100, []))
           auth (PDict [("code", PNum 0)]) (100, []) [] (Ok tt));
    reflexivity.
Defined.

(** ** Estimates *)

Lemma estimate_custom_fields_ok (R : Runtime) entries :
  forall acc (w w' : World R) custom_fields,
    estimate_custom_fields R entries acc w = (Ok custom_fields, w') ->
    exists made,
      custom_fields = (acc ++ made)%list /\ Forall2 field_entry entries made.
Proof.
  induction entries as [|[label v] rest IH]; intros acc w w' cfs H; simpl in H.
  - apply ret_ok in H. destruct H as [-> _].
    exists []. rewrite app_nil_r. split; [reflexivity|constructor].
  - apply bind_ok in H. destruct H as (field_id & w1 & _ & H).
    apply IH in H. destruct H as (made & -> & Hmade).
    exists (PDict [("customfield_id", field_id); ("value", v)] :: made).
    rewrite <- app_assoc. split; [reflexivity|].
    constructor; [now exists field_id|exact Hmade].
Qed.

Lemma estimate_request (R : Runtime) customer_id items contact_id send_email
  crm_potential_id (w : World R) :
  emits (estimate_creation customer_id items contact_id send_email
           crm_potential_id)
    (create_estimate R customer_id items contact_id send_email
       crm_potential_id) w.
Proof.
  set (P := estimate_creation _ _ _ _ _).
  assert (Hcalls : forall rq, calls R client_posts false rq -> P rq).
  { intros rq Hc He. rewrite (calls_not_estimate R false rq Hc) in He.
    discriminate. }
  unfold create_estimate.
  apply emits_bind.
  { eapply emits_weaken; [exact Hcalls | apply get_headers_calls]. }
  intros headers w1 _.
  apply emits_bind; [apply emits_lift|]. intros line_items w2 Hl.
  apply lift_ok in Hl. destruct Hl as [Hl _].
  apply emits_bind.
  { eapply emits_weaken; [exact Hcalls|].
    apply estimate_custom_fields_calls. now left. }
  intros custom_fields w3 Hfields.
  destruct (estimate_custom_fields_ok R _ _ _ _ _ Hfields)
    as (made & -> & Hmade).
  apply emits_bind; [apply emits_date_today|]. intros date w4 _.
  apply emits_http. intros _.
  destruct (truthy crm_potential_id) eqn:Hcrm.
  - eexists. exists line_items, made. split; [reflexivity|].
    split; [reflexivity|]. split; [exact Hl|].
    repeat (split; [reflexivity|]). split; [exact Hmade|]. reflexivity.
  - eexists. exists line_items, made. split; [reflexivity|].
    split; [reflexivity|]. split; [exact Hl|].
    repeat (split; [reflexivity|]). split; [exact Hmade|]. reflexivity.
Qed.

(** X20. Every POST of create_estimate to the estimates collection goes
    to the url with send=true or send=false as send_email says, and
    carries the customer, the contact person as the only entry of
    contact_persons, one line item per given item, accept_retainer true,
    the zoho_payments gateway, the salesperson "Paul Patterson", the three
    custom fields Sidemark, Client PO and EST Lead Time, each with value
    "TBA", and a potential_id exactly when crm_potential_id is given. *)
Theorem estimate_payload_is_fixed (R : Runtime) customer_id items contact_id
  send_email crm_potential_id (w : World R) :
  Forall (estimate_creation customer_id items contact_id send_email
            crm_potential_id)
    (sent (create_estimate R customer_id items contact_id send_email
             crm_potential_id) w).
Proof. apply emits_sent, estimate_request. Qed.

(** ** The order task: what it never sends *)

Section AtMostOne.

Variable R : Runtime.
Variable P : request -> Prop.

Lemma emits_then_none {A} (m : M R A) (w : World R) :
  emits P m w -> emits_then_one P m w.
Proof.
  intros (evs & Hj & HP). exists evs, []. rewrite app_nil_r. auto.
Qed.

Lemma emits_then_one_bind {A B} (m : M R A) (k : A -> M R B) (w : World R) :
  emits P m w ->
  (forall a w1, m w = (Ok a, w1) -> emits_then_one P (k a) w1) ->
  emits_then_one P (bind m k) w.
Proof.
  intros (evs & Hj & HP) Hk. unfold emits_then_one, bind.
  destruct (m w) as [[a|e] w1] eqn:Hm; simpl in *.
  - destruct (Hk a w1 eq_refl) as (evs' & last & Hj' & HP' & Hlast).
    exists (evs ++ evs')%list, last. rewrite Hj', Hj, <- !app_assoc.
    split; [reflexivity|]. split; [now apply Forall_app|exact Hlast].
  - exists evs, []. rewrite app_nil_r. auto.
Qed.

Lemma emits_then_one_http v u h b (w : World R) :
  emits_then_one P (http R v u h b) w.
Proof.
  unfold emits_then_one, http. destruct (send R _ (env w)) as [r e]. simpl.
  exists [], [{| req_verb := v; req_url := u; req_headers := h;
                 req_body := b |}].
  split; [reflexivity|]. split; [constructor|simpl; lia].
Qed.

Lemma emits_then_one_quiet {A B} (m : M R A) (k : A -> M R B) (w : World R) :
  emits_then_one P m w ->
  (forall a w1, journal (snd (k a w1)) = journal w1) ->
  emits_then_one P (bind m k) w.
Proof.
  intros (evs & last & Hj & HP & Hlast) Hk. unfold emits_then_one, bind.
  destruct (m w) as [[a|e] w1] eqn:Hm; simpl in *.
  - exists evs, last. rewrite Hk, Hj. auto.
  - exists evs, last. auto.
Qed.

End AtMostOne.

Lemma confirm_posts_at_most_once (R : Runtime) order_id (w : World R) :
  emits_then_one (calls R client_posts true) (confirm R order_id) w.
Proof.
  assert (Hcf : In customfields_url client_posts) by now left.
  assert (Hct : In contacts_url client_posts) by (right; now left).
  assert (Hcp : In create_person_url client_posts) by (right; right; now left).
  assert (Hit : In items_url client_posts) by (right; right; right; now left).
  unfold confirm.
  do 7 (apply emits_then_one_bind; [apply emits_lift|]; intros ? ? _).
  apply emits_then_one_bind;
    [now apply get_or_create_customer_calls|]. intros resolved wc _.
  do 2 (apply emits_then_one_bind; [apply emits_lift|]; intros ? ? _).
  apply emits_then_one_bind; [now apply resolve_lines_calls|].
  intros items wl _.
  apply emits_then_one_quiet; [|reflexivity].
  unfold create_estimate.
  apply emits_then_one_bind; [apply get_headers_calls|]. intros headers wh _.
  apply emits_then_one_bind; [apply emits_lift|]. intros line_items wi _.
  apply emits_then_one_bind; [now apply estimate_custom_fields_calls|].
  intros custom_fields wf _.
  apply emits_then_one_bind; [apply emits_date_today|]. intros date wd _.
  apply emits_then_one_http.
Qed.

(** X21. In no run does post_confirm_order send more than one POST to the
    estimates collection, whatever the database, the clock and the remote
    do. *)
Theorem never_two_estimates (R : Runtime) (order_id : Z) (w : World R) :
  (List.length (filter is_estimate_creation
                  (sent (post_confirm_order R order_id) w)) <= 1)%nat.
Proof.
  destruct (confirm_posts_at_most_once R order_id w)
    as (evs & last & Hj & Hevs & Hlast).
  assert (Hsent : sent (post_confirm_order R order_id) w = (evs ++ last)%list).
  { unfold sent, post_confirm_order, try_except.
    destruct (confirm R order_id w) as [[r|e] w1]; simpl in *;
      rewrite Hj, skipn_app, skipn_all, Nat.sub_diag; reflexivity. }
  rewrite Hsent, filter_app, (filter_none _ evs), length_app.
  - simpl.
    pose proof (filter_length_le is_estimate_creation last). lia.
  - eapply Forall_impl; [|exact Hevs]. apply calls_not_estimate.
Qed.

(** X22. When a line of the order fails to resolve, the task reports
    that exception in its error result and posts no estimate; what was
    sent for the customer and for the earlier lines stays sent. *)
Theorem failed_line_means_no_estimate (R : Runtime) (order_id : Z) order u a
  resolved customer_id contact_id ex (w w1 w2 : World R) :
  orders R order_id = Some order ->
  user order = Some u ->
  default_shipping_address u = Some a ->
  get_or_create_customer R (email u)
    (if negb (String.eqb (first_name u) "")
     then first_name u ++ " " ++ last_name u
     else hd "" (str_split "@" (email u)))
    (company_name a) (metadata u) (default_billing_address u)
    (default_shipping_address u) w = (Ok resolved, w1) ->
  subscript (fst resolved) "contact_id" = Ok customer_id ->
  subscript (snd resolved) "contact_person_id" = Ok contact_id ->
  resolve_lines R order (lines order) [] w1 = (Raise ex, w2) ->
  post_confirm_order R order_id w = (Ok (failure R ex), w2) /\
  filter is_estimate_creation (sent (post_confirm_order R order_id) w) = [].
Proof.
  intros Horder Hu Ha Hcustomer Hcid Hpid Hlines.
  assert (Hcf : In customfields_url client_posts) by now left.
  assert (Hct : In contacts_url client_posts) by (right; now left).
  assert (Hcp : In create_person_url client_posts) by (right; right; now left).
  assert (Hit : In items_url client_posts) by (right; right; right; now left).
  destruct (emits_run R _ _ _ _ _
              (get_or_create_customer_calls R client_posts true _ _ _ _ _ _ w
                 Hcf Hct Hcp) Hcustomer) as (evs1 & Hj1 & Hevs1).
  destruct (emits_run R _ _ _ _ _
              (resolve_lines_calls R client_posts _ _ _ w1 Hcf Hct Hit) Hlines)
    as (evs2 & Hj2 & Hevs2).
  assert (Hrun : post_confirm_order R order_id w = (Ok (failure R ex), w2)).
  { unfold post_confirm_order, try_except, confirm.
    unfold bind at 1, lift at 1. rewrite Horder, Hu.
    cbn [attr rbind]. rewrite Ha. cbn [attr].
    do 6 (unfold bind at 1, lift at 1).
    rewrite Ha in Hcustomer.
    rewrite (bind_run R _ _ _ _ _ Hcustomer).
    unfold bind at 1, lift at 1. rewrite Hcid.
    unfold bind at 1, lift at 1. rewrite Hpid.
    rewrite (bind_raise R _ _ _ _ _ Hlines). reflexivity. }
  split; [exact Hrun|].
  rewrite (sent_run R _ w w2 _ (evs1 ++ evs2)%list Hrun).
  - rewrite filter_app, (filter_none _ evs1), (filter_none _ evs2).
    + reflexivity.
    + eapply Forall_impl; [|exact Hevs2]. apply calls_not_estimate.
    + eapply Forall_impl; [|exact Hevs1]. apply calls_not_estimate.
  - rewrite Hj2, Hj1, <- app_assoc. reflexivity.
Qed.

Lemma failed_line_means_no_estimate_witness :
  post_confirm_order (scripted odd_orders) 1 odd_world
  = (Ok (failure (scripted odd_orders) AttributeError), odd_lines_world) /\
  filter is_estimate_creation
    (sent (post_confirm_order (scripted odd_orders) 1) odd_world) = [].
Proof.
  apply (failed_line_means_no_estimate (scripted odd_orders) 1 orphan_order
           jane an_address
           (PDict [("contact_id", PStr "c1")],
            PDict [("contact_person_id", PStr "p1")])
           (PStr "c1") (PStr "p1") AttributeError odd_world
           odd_customer_world odd_lines_world); reflexivity.
Defined.

(** X23. An order id that the database does not hold, and an order
    without a user (a guest order), both end in the error result before
    anything is sent: the unknown id with DoesNotExist, the guest order
    with AttributeError. *)
Theorem guest_order_is_not_synced (R : Runtime) (order_id : Z) (w : World R) :
  (orders R order_id = None ->
   post_confirm_order R order_id w = (Ok (failure R DoesNotExist), w)) /\
  (forall order,
      orders R order_id = Some order ->
      user order = None ->
      post_confirm_order R order_id w = (Ok (failure R AttributeError), w)).
Proof.
  split.
  - intros Hnone. unfold post_confirm_order, try_except, confirm.
    unfold bind at 1, lift at 1. now rewrite Hnone.
  - intros order Horder Hguest.
    unfold post_confirm_order, try_except, confirm.
    unfold bind at 1, lift at 1. rewrite Horder, Hguest. reflexivity.
Qed.

Lemma guest_order_is_not_synced_witness :
  post_confirm_order (scripted odd_orders) 3 odd_world
  = (Ok (failure (scripted odd_orders) DoesNotExist), odd_world) /\
  post_confirm_order (scripted odd_orders) 2 odd_world
  = (Ok (failure (scripted odd_orders) AttributeError), odd_world).
Proof.
  split.
  - apply (proj1 (guest_order_is_not_synced (scripted odd_orders) 3 odd_world)).
    reflexivity.
  - apply (proj2 (guest_order_is_not_synced (scripted odd_orders) 2 odd_world)
             guest_order); reflexivity.
Defined.

(** ** The attribute extractor *)

Lemma map_entry_total (names : list string) : exists v, map_entry names = Ok v.
Proof. destruct names; eexists; reflexivity. Qed.

Lemma product_attributes_total values_map attrs :
  forall acc, exists m, product_attributes values_map attrs acc = Ok m.
Proof.
  induction attrs as [|a attrs IH]; intros acc; simpl; [eauto|].
  destruct (map_entry_total (map name (values_map_get values_map (slug a))))
    as (v & ->). simpl. apply IH.
Qed.

Lemma variant_attributes_fails attrs :
  Exists empty_brand attrs ->
  forall acc brand, variant_attributes attrs acc brand = Raise IndexError.
Proof.
  induction attrs as [|a attrs IH]; intros Hex acc brand.
  - inversion Hex.
  - simpl. destruct (String.eqb (slug (assignment_attribute a)) "brand") eqn:E.
    + destruct (values a) as [|v vs] eqn:Hv; [reflexivity|].
      assert (Hrest : Exists empty_brand attrs).
      { inversion Hex as [? ? [_ Hnil]|]; subst; [congruence|assumption]. }
      destruct (brand_entry (map name (v :: vs))) as [b|] eqn:Hb.
      * simpl. now apply IH.
      * destruct vs; discriminate.
    + assert (Hrest : Exists empty_brand attrs).
      { inversion Hex as [? ? [Hs _]|]; subst; [|assumption].
        unfold variant_slug in Hs. rewrite Hs in E. discriminate. }
      destruct (map_entry_total (map name (values a))) as (v & ->). simpl.
      now apply IH.
Qed.

Lemma variant_attributes_total attrs :
  Forall (fun a => ~ empty_brand a) attrs ->
  forall acc brand, exists m b, variant_attributes attrs acc brand = Ok (m, b).
Proof.
  induction 1 as [|a attrs Ha _ IH]; intros acc brand; simpl; [eauto|].
  destruct (String.eqb (slug (assignment_attribute a)) "brand") eqn:E.
  - destruct (values a) as [|v vs] eqn:Hv.
    + exfalso. apply Ha. split; [|exact Hv]. now apply String.eqb_eq.
    + assert (Hb : exists b, brand_entry (map name (v :: vs)) = Ok b)
        by (destruct vs; eexists; reflexivity).
      destruct Hb as (b & ->). simpl. apply IH.
  - destruct (map_entry_total (map name (values a))) as (v & ->). simpl.
    apply IH.
Qed.

(** X24. get_line_item_attributes_and_brand fails in two ways only: with
    AttributeError for a line without a variant, and with IndexError for a
    variant that has a brand attribute without any value; every other
    line yields a map and a brand. *)
Theorem extraction_fails_on_empty_brand (line_item : Line) :
  (variant line_item = None ->
   get_line_item_attributes_and_brand line_item = Raise AttributeError) /\
  (forall v,
      variant line_item = Some v ->
      Exists empty_brand (attributes v) ->
      get_line_item_attributes_and_brand line_item = Raise IndexError) /\
  (forall v,
      variant line_item = Some v ->
      Forall (fun a => ~ empty_brand a) (attributes v) ->
      exists attributes_map brand,
        get_line_item_attributes_and_brand line_item
        = Ok (attributes_map, brand)).
Proof.
  unfold get_line_item_attributes_and_brand. split; [|split].
  - now intros ->.
  - intros v -> Hex.
    match goal with
    | |- rbind (product_attributes ?vm ?attrs ?acc) _ = _ =>
        destruct (product_attributes_total vm attrs acc) as (m & ->)
    end.
    simpl. now apply variant_attributes_fails.
  - intros v -> Hall.
    match goal with
    | |- exists _ _, rbind (product_attributes ?vm ?attrs ?acc) _ = _ =>
        destruct (product_attributes_total vm attrs acc) as (m & ->)
    end.
    simpl. now apply variant_attributes_total.
Qed.

Lemma extraction_fails_on_empty_brand_witness :
  get_line_item_attributes_and_brand orphan_line = Raise AttributeError /\
  get_line_item_attributes_and_brand brandless_line = Raise IndexError /\
  exists attributes_map brand,
    get_line_item_attributes_and_brand kettal_table
    = Ok (attributes_map, brand).
Proof.
  split; [|split].
  - apply (proj1 (extraction_fails_on_empty_brand orphan_line)). reflexivity.
  - apply (proj1 (proj2 (extraction_fails_on_empty_brand brandless_line))
             {| product :=
                  {| category := None;
                     attributeproduct := [color; {| slug := "finish" |}];
                     attributevalues :=
                       [{| name := "red"; attribute := color |}] |};
                channel_listings := [];
                attributes :=
                  [{| assignment_attribute := {| slug := "size" |};
                      values := [] |};
                   {| assignment_attribute := {| slug := "brand" |};
                      values := [] |}] |}).
    + reflexivity.
    + apply Exists_cons_tl. apply Exists_cons_hd. split; reflexivity.
  - apply (proj2 (proj2 (extraction_fails_on_empty_brand kettal_table))
             {| product :=
                  {| category := Some {| category_name := "" |};
                     attributeproduct := [];
                     attributevalues := [] |};
                channel_listings :=
                  [{| listing_channel := 1; cost_price := None |}];
                attributes :=
                  [{| assignment_attribute := {| slug := "brand" |};
                      values := [{| name := "Kettal";
                                    attribute := {| slug := "brand" |} |}] |}] |}).
    + reflexivity.
    + constructor; [|constructor]. intros [_ Hnil]. discriminate.
Defined.

Lemma dict_set_keys (d : dict) (k k' : string) (v : value) :
  In k (dict_keys (dict_set d k' v)) <-> k = k' \/ In k (dict_keys d).
Proof.
  rewrite !dict_get_keys.
  destruct (string_dec k' k) as [->|Hne].
  - rewrite dict_get_set_same. split; [now left|discriminate].
  - rewrite dict_get_set_other by exact Hne.
    split; [now right|]. intros [->|H]; [contradiction|exact H].
Qed.

Lemma map_entry_value (names : list string) :
  map_entry names = Ok (map_value names).
Proof. now destruct names. Qed.

Lemma product_attributes_keys values_map attrs :
  forall acc m,
    product_attributes values_map attrs acc = Ok m ->
    (forall s, In s (dict_keys m) <->
               In s (dict_keys acc) \/ In s (map slug attrs)) /\
    (NoDup (dict_keys acc) -> NoDup (dict_keys m)).
Proof.
  induction attrs as [|a attrs IH]; intros acc m H; simpl in H.
  - inversion H. subst m. split; [|auto]. intros s. simpl. tauto.
  - rewrite map_entry_value in H. simpl in H.
    destruct (IH _ _ H) as [Hkeys Hnd]. split.
    + intros s. rewrite Hkeys, dict_set_keys. simpl.
      intuition congruence.
    + intros Hacc. apply Hnd. now apply dict_set_keys_nodup.
Qed.

Lemma variant_attributes_keys attrs :
  forall acc brand m b,
    variant_attributes attrs acc brand = Ok (m, b) ->
    (forall s, In s (dict_keys m) <->
               In s (dict_keys acc) \/
               (In s (map variant_slug attrs) /\ s <> "brand")) /\
    (NoDup (dict_keys acc) -> NoDup (dict_keys m)).
Proof.
  induction attrs as [|a attrs IH]; intros acc brand m b H; simpl in H.
  - inversion H. subst. split; [|auto]. intros s. simpl. tauto.
  - destruct (String.eqb (slug (assignment_attribute a)) "brand") eqn:E.
    + destruct (brand_entry (map name (values a))) as [b'|]; [|discriminate].
      simpl in H. destruct (IH _ _ _ _ H) as [Hkeys Hnd]. split; [|exact Hnd].
      intros s. rewrite Hkeys. apply String.eqb_eq in E.
      change (variant_slug a = "brand") in E. cbn [map In]. rewrite E.
      intuition congruence.
    + rewrite map_entry_value in H. simpl in H.
      destruct (IH _ _ _ _ H) as [Hkeys Hnd]. split.
      * intros s. rewrite Hkeys, dict_set_keys.
        apply String.eqb_neq in E.
        change (variant_slug a <> "brand") in E. cbn [map In].
        change (slug (assignment_attribute a)) with (variant_slug a).
        intuition congruence.
      * intros Hacc. apply Hnd. now apply dict_set_keys_nodup.
Qed.

(** X25. The keys of the extracted map are the slugs of the product
    type's attributes together with the slugs of the variant's attributes
    other than "brand"; no key occurs twice. *)
Theorem extracted_keys (line_item : Line) v attributes_map brand :
  variant line_item = Some v ->
  get_line_item_attributes_and_brand line_item = Ok (attributes_map, brand) ->
  (forall s,
      In s (dict_keys attributes_map) <->
      In s (map slug (attributeproduct (product v))) \/
      (In s (map variant_slug (attributes v)) /\ s <> "brand")) /\
  NoDup (dict_keys attributes_map).
Proof.
  unfold get_line_item_attributes_and_brand. intros -> H.
  match type of H with
  | rbind (product_attributes ?vm ?attrs ?acc) _ = _ =>
      destruct (product_attributes vm attrs acc) as [m|] eqn:Hp;
        [|discriminate]
  end.
  simpl in H.
  destruct (product_attributes_keys _ _ _ _ Hp) as [Hk1 Hn1].
  destruct (variant_attributes_keys _ _ _ _ _ H) as [Hk2 Hn2].
  split.
  - intros s. rewrite Hk2, Hk1. simpl. tauto.
  - apply Hn2, Hn1. constructor.
Qed.

Lemma extracted_keys_witness :
  (forall s,
      In s (dict_keys [("color", PStr "teal"); ("finish", PStr "matt")]) <->
      In s (map slug (attributeproduct (product shadowed_variant))) \/
      (In s (map variant_slug (attributes shadowed_variant)) /\ s <> "brand")) /\
  NoDup (dict_keys [("color", PStr "teal"); ("finish", PStr "matt")]).
Proof.
  apply (extracted_keys shadowed_line shadowed_variant
           [("color", PStr "teal"); ("finish", PStr "matt")]
           (PList [PStr "Dedon"; PStr "Kettal"])); reflexivity.
Defined.

Lemma brand_entry_value (names : list string) b :
  brand_entry names = Ok b -> b = brand_value names /\ b <> PNone.
Proof.
  destruct names as [|n [|m rest]]; simpl; intros H; inversion H;
    split; try reflexivity; discriminate.
Qed.

Lemma variant_attributes_brand attrs :
  forall acc brand m b,
    variant_attributes attrs acc brand = Ok (m, b) ->
    (Forall (fun a => variant_slug a <> "brand") attrs -> b = brand) /\
    (forall before a after,
        attrs = (before ++ a :: after)%list ->
        variant_slug a = "brand" ->
        Forall (fun a' => variant_slug a' <> "brand") after ->
        b = brand_value (map name (values a)) /\ b <> PNone).
Proof.
  induction attrs as [|a attrs IH]; intros acc brand m b H; simpl in H.
  - inversion H. subst. split; [reflexivity|].
    intros before a after Heq. destruct before; discriminate.
  - destruct (String.eqb (slug (assignment_attribute a)) "brand") eqn:E.
    + apply String.eqb_eq in E. change (variant_slug a = "brand") in E.
      destruct (brand_entry (map name (values a))) as [b'|] eqn:Hb;
        [|discriminate].
      simpl in H. destruct (IH _ _ _ _ H) as [Hnone Hlast]. split.
      * intros Hall. inversion Hall. contradiction.
      * intros before a' after Heq Ha' Hafter.
        destruct before as [|x before]; simpl in Heq; inversion Heq; subst.
        -- rewrite (Hnone Hafter). now apply brand_entry_value.
        -- exact (Hlast before a' after eq_refl Ha' Hafter).
    + apply String.eqb_neq in E. change (variant_slug a <> "brand") in E.
      rewrite map_entry_value in H. simpl in H.
      destruct (IH _ _ _ _ H) as [Hnone Hlast]. split.
      * intros Hall. inversion Hall. auto.
      * intros before a' after Heq Ha' Hafter.
        destruct before as [|x before]; simpl in Heq; inversion Heq; subst.
        -- contradiction.
        -- exact (Hlast before a' after eq_refl Ha' Hafter).
Qed.

Lemma last_brand (attrs : list AssignedVariantAttribute) :
  Forall (fun a => variant_slug a <> "brand") attrs \/
  exists before a after,
    attrs = (before ++ a :: after)%list /\ variant_slug a = "brand" /\
    Forall (fun a' => variant_slug a' <> "brand") after.
Proof.
  induction attrs as [|a attrs [IH|(before & a' & after & -> & Ha & Hafter)]].
  - left. constructor.
  - destruct (string_dec (variant_slug a) "brand") as [E|E].
    + right. exists [], a, attrs. auto.
    + left. now constructor.
  - right. exists (a :: before), a', after. auto.
Qed.

(** X26. The brand that the extractor returns is [None] exactly when the
    variant has no attribute with slug "brand"; otherwise it comes from the
    last brand attribute of the variant: the one value name as a string, or
    the list of all names when there are several. *)
Theorem brand_is_the_last_brand_attribute (line_item : Line) v attributes_map
  brand :
  variant line_item = Some v ->
  get_line_item_attributes_and_brand line_item = Ok (attributes_map, brand) ->
  (brand = PNone <->
   Forall (fun a => variant_slug a <> "brand") (attributes v)) /\
  (forall before a after,
      attributes v = (before ++ a :: after)%list ->
      variant_slug a = "brand" ->
      Forall (fun a' => variant_slug a' <> "brand") after ->
      brand = brand_value (map name (values a))).
Proof.
  unfold get_line_item_attributes_and_brand. intros -> H.
  match type of H with
  | rbind (product_attributes ?vm ?attrs ?acc) _ = _ =>
      destruct (product_attributes vm attrs acc) as [m|] eqn:Hp;
        [|discriminate]
  end.
  simpl in H.
  destruct (variant_attributes_brand _ _ _ _ _ H) as [Hnone Hlast].
  split.
  - split; [|exact Hnone].
    intros ->.
    destruct (last_brand (attributes v))
      as [Hall|(before & a & after & Heq & Ha & Hafter)]; [exact Hall|].
    destruct (Hlast before a after Heq Ha Hafter) as [_ Hne]. contradiction.
  - intros before a after Heq Ha Hafter.
    exact (proj1 (Hlast before a after Heq Ha Hafter)).
Qed.

Lemma brand_is_the_last_brand_attribute_witness :
  PList [PStr "Dedon"; PStr "Kettal"]
  = brand_value (map name (values (last (attributes shadowed_variant)
                                        {| assignment_attribute := color;
                                           values := [] |}))).
Proof.
  apply (proj2 (brand_is_the_last_brand_attribute shadowed_line
                  shadowed_variant
                  [("color", PStr "teal"); ("finish", PStr "matt")]
                  (PList [PStr "Dedon"; PStr "Kettal"]) eq_refl eq_refl)
           (firstn 2 (attributes shadowed_variant)) _ []).
  - reflexivity.
  - reflexivity.
  - constructor.
Defined.

Lemma values_map_get_add values_map k v s :
  values_map_get (values_map_add values_map k v) s
  = if String.eqb k s then (values_map_get values_map s ++ [v])%list
    else values_map_get values_map s.
Proof.
  induction values_map as [|[k' vs] rest IH]; simpl.
  - now destruct (String.eqb k s).
  - destruct (String.eqb k' k) eqn:E; simpl.
    + apply String.eqb_eq in E. subst k'.
      now destruct (String.eqb k s).
    + destruct (String.eqb k' s) eqn:E'; [|exact IH].
      apply String.eqb_eq in E'. subst k'.
      rewrite String.eqb_sym in E. now rewrite E.
Qed.

Lemma values_map_groups (assigned : list AttributeValue) s :
  forall values_map,
    values_map_get
      (fold_left (fun m av => values_map_add m (slug (attribute av)) av)
                 assigned values_map) s
    = (values_map_get values_map s
       ++ filter (fun av => String.eqb (slug (attribute av)) s) assigned)%list.
Proof.
  induction assigned as [|av rest IH]; intros values_map; simpl.
  - now rewrite app_nil_r.
  - rewrite IH, values_map_get_add.
    destruct (String.eqb (slug (attribute av)) s); [|reflexivity].
    now rewrite <- app_assoc.
Qed.

Lemma product_attributes_get values_map attrs :
  forall acc m,
    product_attributes values_map attrs acc = Ok m ->
    forall s,
      dict_get m s
      = if existsb (String.eqb s) (map slug attrs)
        then Some (map_value (map name (values_map_get values_map s)))
        else dict_get acc s.
Proof.
  induction attrs as [|a attrs IH]; intros acc m H s; simpl in H.
  - inversion H. reflexivity.
  - rewrite map_entry_value in H. simpl in H.
    rewrite (IH _ _ H s). cbn [map existsb].
    destruct (String.eqb s (slug a)) eqn:E; simpl.
    + apply String.eqb_eq in E. subst s.
      destruct (existsb _ (map slug attrs)); [reflexivity|].
      apply dict_get_set_same.
    + destruct (existsb _ (map slug attrs)); [reflexivity|].
      apply dict_get_set_other. apply String.eqb_neq in E. congruence.
Qed.

Lemma variant_attributes_get attrs s :
  forall acc brand m b,
    variant_attributes attrs acc brand = Ok (m, b) ->
    (Forall (fun a => variant_slug a <> s \/ variant_slug a = "brand") attrs ->
     dict_get m s = dict_get acc s) /\
    (forall before a after,
        attrs = (before ++ a :: after)%list ->
        variant_slug a = s -> s <> "brand" ->
        Forall (fun a' => variant_slug a' <> s) after ->
        dict_get m s = Some (map_value (map name (values a)))).
Proof.
  induction attrs as [|a attrs IH]; intros acc brand m b H; simpl in H.
  - inversion H. subst. split; [reflexivity|].
    intros before a after Heq. destruct before; discriminate.
  - destruct (String.eqb (slug (assignment_attribute a)) "brand") eqn:E.
    + apply String.eqb_eq in E. change (variant_slug a = "brand") in E.
      destruct (brand_entry (map name (values a))) as [b'|]; [|discriminate].
      simpl in H. destruct (IH _ _ _ _ H) as [Hkeep Hlast]. split.
      * intros Hall. inversion Hall. auto.
      * intros before a' after Heq Ha' Hs Hafter.
        destruct before as [|x before]; simpl in Heq; inversion Heq; subst.
        -- congruence.
        -- exact (Hlast before a' after eq_refl eq_refl Hs Hafter).
    + apply String.eqb_neq in E. change (variant_slug a <> "brand") in E.
      rewrite map_entry_value in H. simpl in H.
      change (slug (assignment_attribute a)) with (variant_slug a) in H.
      destruct (IH _ _ _ _ H) as [Hkeep Hlast]. split.
      * intros Hall. inversion Hall as [|? ? [Hne|Hb] Hrest]; subst;
          [|contradiction].
        rewrite (Hkeep Hrest). now apply dict_get_set_other.
      * intros before a' after Heq Ha' Hs Hafter.
        destruct before as [|x before]; simpl in Heq; inversion Heq; subst.
        -- rewrite Hkeep.
           ++ apply dict_get_set_same.
           ++ eapply Forall_impl; [|exact Hafter]. intros; now left.
        -- exact (Hlast before a' after eq_refl eq_refl Hs Hafter).
Qed.

(** X27. In the extracted map a product-type attribute that no variant
    attribute shadows holds the name of the first value assigned to the
    product under its slug, or the empty list when none is assigned; a
    variant attribute other than the brand replaces the entry of its slug,
    the last such attribute deciding. *)
Theorem extracted_values (line_item : Line) v attributes_map brand s :
  variant line_item = Some v ->
  get_line_item_attributes_and_brand line_item = Ok (attributes_map, brand) ->
  (In s (map slug (attributeproduct (product v))) ->
   Forall (fun a => variant_slug a <> s \/ variant_slug a = "brand")
          (attributes v) ->
   dict_get attributes_map s
   = Some (map_value (assigned_names (product v) s))) /\
  (forall before a after,
      attributes v = (before ++ a :: after)%list ->
      variant_slug a = s -> s <> "brand" ->
      Forall (fun a' => variant_slug a' <> s) after ->
      dict_get attributes_map s = Some (map_value (map name (values a)))).
Proof.
  unfold get_line_item_attributes_and_brand. intros -> H.
  match type of H with
  | rbind (product_attributes ?vm ?attrs ?acc) _ = _ =>
      destruct (product_attributes vm attrs acc) as [m|] eqn:Hp;
        [|discriminate]
  end.
  simpl in H.
  destruct (variant_attributes_get _ s _ _ _ _ H) as [Hkeep Hlast].
  split; [|exact Hlast].
  intros Hin Hall. rewrite (Hkeep Hall).
  rewrite (product_attributes_get _ _ _ _ Hp s).
  apply existsb_eqb_In in Hin. rewrite Hin.
  rewrite values_map_groups. reflexivity.
Qed.

Lemma extracted_values_witness :
  dict_get [("color", PStr "teal"); ("finish", PStr "matt")] "finish"
  = Some (map_value (assigned_names (product shadowed_variant) "finish")) /\
  dict_get [("color", PStr "teal"); ("finish", PStr "matt")] "color"
  = Some (map_value ["teal"]).
Proof.
  split.
  - apply (proj1 (extracted_values shadowed_line shadowed_variant
                    [("color", PStr "teal"); ("finish", PStr "matt")]
                    (PList [PStr "Dedon"; PStr "Kettal"]) "finish"
                    eq_refl eq_refl)).
    + right. left. reflexivity.
    + simpl. apply Forall_cons; [right; reflexivity|].
      apply Forall_cons; [left; discriminate|].
      apply Forall_cons; [right; reflexivity|]. apply Forall_nil.
  - apply (proj2 (extracted_values shadowed_line shadowed_variant
                    [("color", PStr "teal"); ("finish", PStr "matt")]
                    (PList [PStr "Dedon"; PStr "Kettal"]) "color"
                    eq_refl eq_refl)
             (firstn 1 (attributes shadowed_variant))
             {| assignment_attribute := color;
                values := [{| name := "teal"; attribute := color |}] |}
             (skipn 2 (attributes shadowed_variant))).
    + reflexivity.
    + reflexivity.
    + discriminate.
    + simpl. apply Forall_cons; [discriminate|apply Forall_nil].
Defined.

Lemma no_vendor_without_brand_witness :
  Forall (fun rq => ~ posts_to contacts_url rq)
    (sent (get_or_create_item (scripted no_orders) (PStr "CH-1") (PStr "Chair")
             (PNum 120) (PNum 80) "" (PStr "Seating") PNone
             [("color", PStr "red")]) new_item_world).
Proof.
  apply (no_vendor_without_brand (scripted no_orders) (PStr "CH-1")
           (PStr "Chair") (PNum 120) (PNum 80) "" (PStr "Seating") PNone
           [("color", PStr "red")] new_item_world).
  reflexivity.
Defined.

(** The creation of an item for a line without a brand: the search finds
    nothing, the Item Number field is created, and the last request is the
    POST of the item, without vendor_id. *)
Example brandless_item_is_created :
  fst (get_or_create_item (scripted no_orders) (PStr "CH-1") (PStr "Chair")
         (PNum 120) (PNum 80) "" (PStr "Seating") PNone
         [("color", PStr "red")] new_item_world) = Ok (PStr "i5") /\
  last (sent (get_or_create_item (scripted no_orders) (PStr "CH-1")
                (PStr "Chair") (PNum 120) (PNum 80) "" (PStr "Seating") PNone
                [("color", PStr "red")]) new_item_world)
       (refresh_request (scripted no_orders))
  = {| req_verb := POST; req_url := items_url; req_headers := auth;
       req_body :=
         Data (PDict [("name", PStr "Chair"); ("sku", PStr "CH-1");
                      ("rate", PNum 120); ("purchase_rate", PNum 80);
                      ("is_taxable", PBool true); ("unit", PStr "Each");
                      ("description", PStr ("color: red" ++ nl));
                      ("custom_fields",
                       PList [PDict [("customfield_id", PStr "f7");
                                     ("value", PStr "Seating")];
                              PDict [("customfield_id", PStr "f11");
                                     ("value", PStr "CH-1")];
                              PDict [("customfield_id", PStr "f9");
                                     ("value", PNone)]])]) |}.
Proof. split; reflexivity. Qed.

(** ** filter_object again *)

Lemma filter_object_into_ext (keys : list string) (o1 o2 : dict) :
  (forall k, In k keys -> dict_get o1 k = dict_get o2 k) ->
  forall acc, filter_object_into acc o1 keys = filter_object_into acc o2 keys.
Proof.
  induction keys as [|key rest IH]; intros Hsame acc; simpl; [reflexivity|].
  rewrite (Hsame key (or_introl eq_refl)).
  destruct (dict_get o2 key); apply IH; intros k Hk; apply Hsame; now right.
Qed.

Lemma dict_set_fresh (d : dict) (k : string) (v : value) :
  ~ In k (dict_keys d) -> dict_set d k v = (d ++ [(k, v)])%list.
Proof.
  induction d as [|[k' v'] d IH]; simpl; intros Hnew; [reflexivity|].
  destruct (String.eqb k' k) eqn:E.
  - apply String.eqb_eq in E. subst k'. exfalso. apply Hnew. now left.
  - rewrite IH; [reflexivity|]. intros Hin. apply Hnew. now right.
Qed.

Lemma filter_object_into_order (obj : dict) (keys : list string) :
  NoDup keys ->
  forall acc,
    (forall k, In k keys -> ~ In k (dict_keys acc)) ->
    dict_keys (filter_object_into acc obj keys)
    = (dict_keys acc ++ filter (dict_mem obj) keys)%list.
Proof.
  induction 1 as [|key rest Hnotin Hnd IH]; intros acc Hfresh; simpl.
  - now rewrite app_nil_r.
  - unfold dict_mem at 1. destruct (dict_get obj key) as [v|] eqn:Hk.
    + rewrite IH.
      * rewrite (dict_set_fresh acc key v (Hfresh key (or_introl eq_refl))).
        unfold dict_keys. rewrite map_app, <- app_assoc. reflexivity.
      * intros k Hin Hk'. apply dict_set_keys in Hk'.
        destruct Hk' as [->|Hk']; [contradiction|].
        exact (Hfresh k (or_intror Hin) Hk').
    + apply IH. intros k Hin. apply Hfresh. now right.
Qed.

(** X28. filter_object is idempotent: filtering its result by the same
    allow-list gives that result again.  With an allow-list without
    repetitions, the keys of the result come in the order of the
    allow-list, whatever the order of the input; both allow-lists of the
    client are without repetitions. *)
Theorem filter_object_settles (obj : dict) (keys : list string) :
  filter_object (filter_object obj keys) keys = filter_object obj keys /\
  (NoDup keys ->
   dict_keys (filter_object obj keys) = filter (dict_mem obj) keys) /\
  NoDup dropdown_put_keys /\ NoDup retainer_put_keys.
Proof.
  split; [|split; [|split]].
  - unfold filter_object at 1 3. apply filter_object_into_ext.
    intros k Hin. rewrite filter_object_get.
    apply existsb_eqb_In in Hin. now rewrite Hin.
  - intros Hnd. unfold filter_object.
    now rewrite (filter_object_into_order obj keys Hnd []).
  - repeat (constructor; [simpl; intuition discriminate|]). constructor.
  - repeat (constructor; [simpl; intuition discriminate|]). constructor.
Qed.

Lemma filter_object_settles_witness :
  dict_keys (filter_object
               [("status", PStr "drawn"); ("estimate_id", PStr "e1");
                ("customer_id", PStr "c1")] retainer_put_keys)
  = ["customer_id"; "estimate_id"].
Proof.
  rewrite (proj1 (proj2 (filter_object_settles
                           [("status", PStr "drawn");
                            ("estimate_id", PStr "e1");
                            ("customer_id", PStr "c1")] retainer_put_keys))).
  - reflexivity.
  - exact (proj2 (proj2 (proj2 (filter_object_settles [] [])))).
Defined.
